(** * Multilabel_classification/feature_network.py

    A shallow embedding of the feature network of the deep-value-networks
    repository: the multi-layer perceptron [FeatureMLP], the training loop
    controller [FeatureNetwork] (partitioning, [train], [valid], [test]) and
    the entry-point loop with its learning-rate scheduler.

    Python floats are IEEE-754 binary64 numbers and are modelled with the
    Standard Library's [SpecFloat]; integers are [Z]; tensors are lists of
    rows.  The float32 arithmetic of the tensor library (linear layers,
    activations, logarithms, reductions, the optimiser) is an interface the
    development is parametric in. *)

From Stdlib Require Import ZArith List Bool Lia Permutation.
From Stdlib Require Import Floats.SpecFloat.
Import ListNotations.

Local Open Scope Z_scope.

(** ** Exceptions and results *)

Inductive exn : Type :=
| ZeroDivisionError
| OverflowError
| ValueError
| AttributeError
| IndexError
| RuntimeError.

Inductive result (A : Type) : Type :=
| Ok (a : A)
| Raise (e : exn).

Arguments Ok {A} a.
Arguments Raise {A} e.

(** ** Python floats *)

Module PyFloat.

Definition prec : Z := 53.
Definition emax : Z := 1024.

Definition float : Type := spec_float.

(** [float(n)] for a Python int: correctly rounded, [OverflowError] when the
    integer is too large for a double. *)
Definition of_int (n : Z) : result float :=
  match binary_normalize prec emax n 0 false with
  | S754_infinity _ => Raise OverflowError
  | f => Ok f
  end.

(** [x * y] on floats. *)
Definition mul (x y : float) : float := SFmul prec emax x y.

(** [x + y] on floats. *)
Definition add (x y : float) : float := SFadd prec emax x y.

Definition is_zero (x : float) : bool :=
  match x with
  | S754_zero _ => true
  | _ => false
  end.

(** [x / y] on floats: Python raises where IEEE-754 would give an infinity
    or a NaN for a zero divisor. *)
Definition truediv (x y : float) : result float :=
  if is_zero y then Raise ZeroDivisionError else Ok (SFdiv prec emax x y).

(** [int(x)]: truncation towards zero; infinities and NaN raise. *)
Definition to_int (x : float) : result Z :=
  match x with
  | S754_zero _ => Ok 0
  | S754_infinity _ => Raise OverflowError
  | S754_nan => Raise ValueError
  | S754_finite s m e =>
      let a := match e with
               | Z0 => Zpos m
               | Zpos p => Zpos m * 2 ^ Zpos p
               | Zneg p => Zpos m / 2 ^ Zpos p
               end in
      Ok (if s then - a else a)
  end.

(** The literal [0.90]: the double nearest to 9/10. *)
Definition lit_0_90 : float := S754_finite false 8106479329266893 (-53).

(** The literal [1e-3]. *)
Definition lit_1e_3 : float := S754_finite false 4611686018427388 (-62).

(** The literal [0.1]. *)
Definition lit_0_1 : float := S754_finite false 7205759403792794 (-56).

End PyFloat.

(** ** A state-and-exception monad

    Methods read and write the objects they are called on and may raise:
    a computation takes the current state and either returns a value with
    the new state or raises. *)

Definition M (S A : Type) : Type := S -> result (A * S).

Definition ret {S A : Type} (a : A) : M S A := fun s => Ok (a, s).

Definition bind {S A B : Type} (c : M S A) (k : A -> M S B) : M S B :=
  fun s =>
    match c s with
    | Ok (a, s') => k a s'
    | Raise e => Raise e
    end.

Definition get {S : Type} : M S S := fun s => Ok (s, s).

Definition gets {S A : Type} (f : S -> A) : M S A := fun s => Ok (f s, s).

Definition modify {S : Type} (f : S -> S) : M S unit := fun s => Ok (tt, f s).

Definition lift {S A : Type} (r : result A) : M S A :=
  fun s =>
    match r with
    | Ok a => Ok (a, s)
    | Raise e => Raise e
    end.

Declare Scope monad_scope.
Delimit Scope monad_scope with monad.

Notation "x <- c1 ;; c2" := (bind c1 (fun x => c2))
  (at level 61, c1 at next level, right associativity) : monad_scope.
Notation "' pat <- c1 ;; c2" := (bind c1 (fun x => match x with pat => c2 end))
  (at level 61, pat pattern, c1 at next level, right associativity) : monad_scope.
Notation "c1 ;; c2" := (bind c1 (fun _ => c2))
  (at level 61, right associativity) : monad_scope.

Local Open Scope monad_scope.

(** A [for] loop with loop-carried local variables [acc]. *)
Fixpoint for_each {S A B : Type} (body : A -> B -> M S A) (l : list B) (acc : A)
  : M S A :=
  match l with
  | [] => ret acc
  | b :: l' => acc' <- body acc b ;; for_each body l' acc'
  end.

(** ** Python sequences *)

(** [len(l)] *)
Definition len {A : Type} (l : list A) : Z := Z.of_nat (length l).

(** [list(range(n))] *)
Definition range (n : Z) : list nat := seq 0 (Z.to_nat n).

(** A slice bound: negative bounds count from the end, all are clamped. *)
Definition slice_bound {A : Type} (l : list A) (n : Z) : nat :=
  Z.to_nat (if n <? 0 then Z.max 0 (len l + n) else n).

(** [l[:n]] *)
Definition slice_to {A : Type} (l : list A) (n : Z) : list A :=
  firstn (slice_bound l n) l.

(** [l[n:]] *)
Definition slice_from {A : Type} (l : list A) (n : Z) : list A :=
  skipn (slice_bound l n) l.

(** [enumerate(l)] *)
Definition enumerate {A : Type} (l : list A) : list (Z * A) :=
  combine (map Z.of_nat (seq 0 (length l))) l.

(** A two-dimensional array: its rows and the second component of its
    [shape], which an array without rows still has. *)
Record ndarray (A : Type) : Type := {
  data : list (list A);
  shape_1 : nat
}.

Arguments data {A} n.
Arguments shape_1 {A} n.

(** ** The tensor library

    [T] is the type of a float32 tensor element.  The arithmetic below is
    the tensor library's: the development fixes no rounding for it.  Shape
    errors are not modelled, operations are applied to tensors of agreeing
    shapes. *)

Record Linear (T : Type) : Type := {
  weight : list (list T);
  bias : list T
}.

Arguments weight {T} l.
Arguments bias {T} l.

(** The learnable parameters of the three linear layers. *)
Record Params (T : Type) : Type := {
  p_fc1 : Linear T;
  p_fc2 : Linear T;
  p_fc3 : Linear T
}.

Arguments p_fc1 {T} p.
Arguments p_fc2 {T} p.
Arguments p_fc3 {T} p.

Class Torch (T : Type) : Type := {
  (** elementwise arithmetic *)
  t_one : T;
  t_add : T -> T -> T;
  t_sub : T -> T -> T;
  t_mul : T -> T -> T;
  t_neg : T -> T;
  t_max : T -> T -> T;
  (** [log(x)] and [log1p(x)], the logarithm of [1 + x] *)
  t_log : T -> T;
  t_log1p : T -> T;
  t_relu : T -> T;
  t_sigmoid : T -> T;
  (** [tensor.sum()]: the reduction of all elements to one *)
  t_sum : list T -> T;
  (** a tensor and a Python number *)
  t_add_int : T -> Z -> T;
  t_add_float : T -> PyFloat.float -> T;
  t_div_int : T -> Z -> T;
  (** casts: [.float()] of an integer label, [.round().int()], [.item()] *)
  t_of_int : Z -> T;
  t_round_int : T -> Z;
  t_item : T -> PyFloat.float;
  (** the global random number generator *)
  Generator : Type;
  randperm : Generator -> nat -> list nat * Generator;
  randperm_perm : forall g n, Permutation (fst (randperm g n)) (seq 0 n);
  (** parameter initialisation of [nn.Linear(in_features, out_features)] *)
  Linear_init : Generator -> nat -> nat -> Linear T * Generator;
  (** automatic differentiation of the loss of a forward pass, and Adam *)
  Grad : Type;
  OptState : Type;
  autograd : Params T -> bool -> list (list T) -> list (list Z) -> Grad;
  accumulate_grad : option Grad -> Grad -> Grad;
  adam_init : OptState;
  adam_update : PyFloat.float -> OptState -> Params T -> Grad -> Params T * OptState
}.

(** What the file imports from [auxiliary_functions] and NumPy. *)
Class Auxiliary : Type := {
  (** [compute_f1_score(labels, outputs)] on two 0/1 matrices *)
  compute_f1_score : list (list Z) -> list (list Z) -> PyFloat.float;
  (** [np.mean] of a list of floats *)
  np_mean : list PyFloat.float -> PyFloat.float
}.

(** ** Python numbers and zero-dimensional tensors *)

Inductive pyval (T : Type) : Type :=
| PyInt (z : Z)
| PyFloat (f : PyFloat.float)
| PyTensor (t : T).

Arguments PyInt {T} z.
Arguments PyFloat {T} f.
Arguments PyTensor {T} t.

Section Numbers.
Context {T : Type} `{Torch T}.

(** [acc += x] *)
Definition py_iadd (acc x : pyval T) : result (pyval T) :=
  match acc, x with
  | PyInt a, PyInt b => Ok (PyInt (a + b))
  | PyInt a, PyFloat f =>
      match PyFloat.of_int a with
      | Ok fa => Ok (PyFloat (PyFloat.add fa f))
      | Raise e => Raise e
      end
  | PyFloat f, PyInt b =>
      match PyFloat.of_int b with
      | Ok fb => Ok (PyFloat (PyFloat.add f fb))
      | Raise e => Raise e
      end
  | PyFloat f, PyFloat g => Ok (PyFloat (PyFloat.add f g))
  | PyInt a, PyTensor t => Ok (PyTensor (t_add_int t a))
  | PyFloat f, PyTensor t => Ok (PyTensor (t_add_float t f))
  | PyTensor t, PyInt b => Ok (PyTensor (t_add_int t b))
  | PyTensor t, PyFloat f => Ok (PyTensor (t_add_float t f))
  | PyTensor t, PyTensor u => Ok (PyTensor (t_add t u))
  end.

(** [acc /= n] for a Python int [n]: true division.  Integers below 2^53
    convert to floats exactly; a tensor divided by zero does not raise. *)
Definition py_itruediv (acc : pyval T) (n : Z) : result (pyval T) :=
  match acc with
  | PyInt a =>
      if n =? 0 then Raise ZeroDivisionError
      else match PyFloat.of_int a, PyFloat.of_int n with
           | Ok fa, Ok fn =>
               match PyFloat.truediv fa fn with
               | Ok q => Ok (PyFloat q)
               | Raise e => Raise e
               end
           | Raise e, _ => Raise e
           | _, Raise e => Raise e
           end
  | PyFloat f =>
      if n =? 0 then Raise ZeroDivisionError
      else match PyFloat.of_int n with
           | Ok fn =>
               match PyFloat.truediv f fn with
               | Ok q => Ok (PyFloat q)
               | Raise e => Raise e
               end
           | Raise e => Raise e
           end
  | PyTensor t => Ok (PyTensor (t_div_int t n))
  end.

(** [x.item()]: only tensors have the method. *)
Definition py_item (x : pyval T) : result PyFloat.float :=
  match x with
  | PyTensor t => Ok (t_item t)
  | _ => Raise AttributeError
  end.

End Numbers.

(** ** [class FeatureMLP(nn.Module)] *)

Inductive Reduction : Type :=
| ReduceNone
| ReduceMean
| ReduceSum.

Section FeatureMLP.
Context {T : Type} `{Torch T}.

(** [nn.Linear]: [y = x A^T + b], row by row.  A row of another width
    than the rows of the weight, on which [nn.Linear] raises, is not told
    apart here ([combine] cuts the longer one): the properties of runs
    below assume the widths of the data and of the layers agree, see
    [fits]. *)
Definition dot (x w : list T) : T :=
  t_sum (map (fun xw => t_mul (fst xw) (snd xw)) (combine x w)).

Definition Linear_forward (l : Linear T) (x : list (list T)) : list (list T) :=
  map (fun row =>
         map (fun wb => t_add (dot row (fst wb)) (snd wb))
             (combine (weight l) (bias l)))
      x.

(** [F.relu] and [torch.sigmoid] are elementwise. *)
Definition F_relu (x : list (list T)) : list (list T) := map (map t_relu) x.

Definition torch_sigmoid (x : list (list T)) : list (list T) :=
  map (map t_sigmoid) x.

(** [targets.float()] *)
Definition float_ (x : list (list Z)) : list (list T) := map (map t_of_int) x.

(** [output.round().int()] *)
Definition round_int (x : list (list T)) : list (list Z) :=
  map (map t_round_int) x.

(** [nn.BCELoss]: the loss of one element, of all elements, and the
    reduction.  The element kernel of the tensor library bounds both
    logarithms from below by -100 and takes the second as [log1p(-p)]:
    [(t - 1) * max(log1p(-p), -100) - t * max(log(p), -100)].  It is the
    library's, not the repository's; the properties below take the loss of
    a batch as what [nn.BCELoss] returns and do not rest on the kernel. *)
Definition bce_element (p t : T) : T :=
  t_sub (t_mul (t_sub t t_one) (t_max (t_log1p (t_neg p)) (t_of_int (-100))))
        (t_mul t (t_max (t_log p) (t_of_int (-100)))).

Definition bce_unreduced (input target : list (list T)) : list (list T) :=
  map (fun pt => map (fun e => bce_element (fst e) (snd e))
                     (combine (fst pt) (snd pt)))
      (combine input target).

Definition reduced (r : Reduction) : Type :=
  match r with
  | ReduceNone => list (list T)
  | ReduceMean => T
  | ReduceSum => T
  end.

Definition BCELoss (r : Reduction) (input target : list (list T)) : reduced r :=
  match r as r' return reduced r' with
  | ReduceNone => bce_unreduced input target
  | ReduceMean =>
      let l := concat (bce_unreduced input target) in
      t_div_int (t_sum l) (len l)
  | ReduceSum => t_sum (concat (bce_unreduced input target))
  end.

(** [optim.Adam]: its step size and the rest of its state. *)
Record Adam : Type := {
  lr : PyFloat.float;
  opt_state : OptState
}.

Record FeatureMLP : Type := {
  only_feature_extraction : bool;
  n_hidden_units : nat;
  fc1 : Linear T;
  fc2 : Linear T;
  fc3 : Linear T;
  optimizer : Adam;
  (** [nn.Module.training] and the [.grad] of the parameters *)
  training : bool;
  grad : option Grad
}.

(** [self.loss_fn = nn.BCELoss(reduction='sum')] *)
Definition loss_fn : list (list T) -> list (list T) -> T := BCELoss ReduceSum.

(** [self.parameters()] *)
Definition parameters (m : FeatureMLP) : Params T :=
  {| p_fc1 := fc1 m; p_fc2 := fc2 m; p_fc3 := fc3 m |}.

Definition set_only_feature_extraction (b : bool) (m : FeatureMLP) : FeatureMLP :=
  {| only_feature_extraction := b;
     n_hidden_units := n_hidden_units m;
     fc1 := fc1 m; fc2 := fc2 m; fc3 := fc3 m;
     optimizer := optimizer m;
     training := training m;
     grad := grad m |}.

Definition set_training (b : bool) (m : FeatureMLP) : FeatureMLP :=
  {| only_feature_extraction := only_feature_extraction m;
     n_hidden_units := n_hidden_units m;
     fc1 := fc1 m; fc2 := fc2 m; fc3 := fc3 m;
     optimizer := optimizer m;
     training := b;
     grad := grad m |}.

Definition set_grad (g : option Grad) (m : FeatureMLP) : FeatureMLP :=
  {| only_feature_extraction := only_feature_extraction m;
     n_hidden_units := n_hidden_units m;
     fc1 := fc1 m; fc2 := fc2 m; fc3 := fc3 m;
     optimizer := optimizer m;
     training := training m;
     grad := g |}.

Definition set_parameters (p : Params T) (s : OptState) (m : FeatureMLP) : FeatureMLP :=
  {| only_feature_extraction := only_feature_extraction m;
     n_hidden_units := n_hidden_units m;
     fc1 := p_fc1 p; fc2 := p_fc2 p; fc3 := p_fc3 p;
     optimizer := {| lr := lr (optimizer m); opt_state := s |};
     training := training m;
     grad := grad m |}.

Definition set_lr (x : PyFloat.float) (m : FeatureMLP) : FeatureMLP :=
  {| only_feature_extraction := only_feature_extraction m;
     n_hidden_units := n_hidden_units m;
     fc1 := fc1 m; fc2 := fc2 m; fc3 := fc3 m;
     optimizer := {| lr := x; opt_state := opt_state (optimizer m) |};
     training := training m;
     grad := grad m |}.

(** [FeatureMLP.__init__] *)
Definition FeatureMLP_init (n_labels dim_input : nat)
  (only_feature_extraction : bool) (n_hidden_units : nat)
  : M Generator FeatureMLP :=
  fun g =>
    let (l1, g1) := Linear_init g dim_input n_hidden_units in
    let (l2, g2) := Linear_init g1 n_hidden_units n_hidden_units in
    let (l3, g3) := Linear_init g2 n_hidden_units n_labels in
    Ok ({| only_feature_extraction := only_feature_extraction;
           n_hidden_units := n_hidden_units;
           fc1 := l1; fc2 := l2; fc3 := l3;
           optimizer := {| lr := PyFloat.lit_1e_3; opt_state := adam_init |};
           training := true;
           grad := None |}, g3).

(** [FeatureMLP.forward] *)
Definition forward (x : list (list T)) : M FeatureMLP (list (list T)) :=
  l1 <- gets fc1 ;;
  let x := F_relu (Linear_forward l1 x) in
  l2 <- gets fc2 ;;
  let x := F_relu (Linear_forward l2 x) in
  flag <- gets only_feature_extraction ;;
  if negb flag then
    l3 <- gets fc3 ;;
    ret (torch_sigmoid (Linear_forward l3 x))
  else
    ret x.

(** [model.train()], [model.eval()], [model.zero_grad()] *)
Definition Module_train : M FeatureMLP unit := modify (set_training true).

Definition Module_eval : M FeatureMLP unit := modify (set_training false).

Definition zero_grad : M FeatureMLP unit := modify (set_grad None).

(** [loss.backward()] for the loss of the forward pass of [inputs] against
    [targets]: the gradient is added to the parameters' [.grad]. *)
Definition backward (inputs : list (list T)) (targets : list (list Z))
  : M FeatureMLP unit :=
  modify (fun m =>
    let g := autograd (parameters m) (only_feature_extraction m) inputs targets in
    set_grad (Some (accumulate_grad (grad m) g)) m).

(** [optimizer.step()]: parameters without a gradient are left alone. *)
Definition optimizer_step : M FeatureMLP unit :=
  modify (fun m =>
    match grad m with
    | None => m
    | Some g =>
        let (p, s) := adam_update (lr (optimizer m)) (opt_state (optimizer m))
                                  (parameters m) g in
        set_parameters p s m
    end).

End FeatureMLP.

(** ** Datasets, samplers and loaders *)

Fixpoint mapM {A B : Type} (f : A -> result B) (l : list A) : result (list B) :=
  match l with
  | [] => Ok []
  | a :: l' =>
      match f a with
      | Raise e => Raise e
      | Ok b =>
          match mapM f l' with
          | Raise e => Raise e
          | Ok bs => Ok (b :: bs)
          end
      end
  end.

(** [l[i]] for a position [i] *)
Definition getitem {A : Type} (l : list A) (i : nat) : result A :=
  match nth_error l i with
  | Some a => Ok a
  | None => Raise IndexError
  end.

Section Data.
Context {T : Type} `{Torch T}.

(** Modelled from the spec: the Dataset Adapter [MyDataset] of
    [auxiliary_functions], which is not among the sources; it wraps a
    feature matrix and a label matrix into an indexable collection of
    (features, label-vector) pairs. *)
Record MyDataset : Type := {
  inputs : ndarray T;
  labels : ndarray Z
}.

Definition MyDataset_len (d : MyDataset) : Z := len (data (inputs d)).

Definition MyDataset_getitem (d : MyDataset) (i : nat) : result (list T * list Z) :=
  match getitem (data (inputs d)) i with
  | Raise e => Raise e
  | Ok x =>
      match getitem (data (labels d)) i with
      | Raise e => Raise e
      | Ok y => Ok (x, y)
      end
  end.

Inductive Sampler : Type :=
| SubsetRandomSampler (indices : list nat)
| SequentialSampler (data_source : MyDataset).

(** [iter(sampler)]: a subset sampler draws a fresh permutation of the
    positions of its indices. *)
Definition Sampler_iter (s : Sampler) : M Generator (list nat) :=
  match s with
  | SubsetRandomSampler indices =>
      fun g =>
        let (perm, g') := randperm g (length indices) in
        match mapM (getitem indices) perm with
        | Ok l => Ok (l, g')
        | Raise e => Raise e
        end
  | SequentialSampler d => ret (range (MyDataset_len d))
  end.

(** [BatchSampler] without [drop_last]: [batch] holds the indices
    collected so far. *)
Fixpoint BatchSampler (batch_size : nat) (batch : list nat) (l : list nat)
  : list (list nat) :=
  match l with
  | [] => match batch with
          | [] => []
          | _ :: _ => [batch]
          end
  | idx :: l' =>
      let batch' := batch ++ [idx] in
      if Nat.eqb (length batch') batch_size
      then batch' :: BatchSampler batch_size [] l'
      else BatchSampler batch_size batch' l'
  end.

Record DataLoader : Type := {
  dl_dataset : MyDataset;
  dl_batch_size : nat;
  dl_sampler : Sampler
}.

(** The default collation of the items of one batch. *)
Definition fetch (d : MyDataset) (idxs : list nat)
  : result (list (list T) * list (list Z)) :=
  match mapM (MyDataset_getitem d) idxs with
  | Ok items => Ok (split items)
  | Raise e => Raise e
  end.

(** [iter(loader)]: all the batches of one pass. *)
Definition DataLoader_iter (dl : DataLoader)
  : M Generator (list (list (list T) * list (list Z))) :=
  idxs <- Sampler_iter (dl_sampler dl) ;;
  lift (mapM (fetch (dl_dataset dl)) (BatchSampler (dl_batch_size dl) [] idxs)).

End Data.

Arguments MyDataset T : clear implicits.
Arguments Sampler T : clear implicits.
Arguments DataLoader T : clear implicits.

(** ** [class FeatureNetwork] *)

Section FeatureNetwork.
Context {T : Type} `{Torch T} `{Auxiliary}.

Record FeatureNetwork : Type := {
  dim_input : nat;
  n_labels : nat;
  model : FeatureMLP;
  batch_size : nat;
  batch_size_eval : nat;
  n_train : Z;
  train_loader : DataLoader T;
  valid_loader : DataLoader T
}.

Definition set_model (m : FeatureMLP) (n : FeatureNetwork) : FeatureNetwork :=
  {| dim_input := dim_input n;
     n_labels := n_labels n;
     model := m;
     batch_size := batch_size n;
     batch_size_eval := batch_size_eval n;
     n_train := n_train n;
     train_loader := train_loader n;
     valid_loader := valid_loader n |}.

(** [int(n * 0.90)] for a Python int [n] *)
Definition int_mul_0_90 (n : Z) : result Z :=
  match PyFloat.of_int n with
  | Raise e => Raise e
  | Ok f => PyFloat.to_int (PyFloat.mul f PyFloat.lit_0_90)
  end.

(** [FeatureNetwork.__init__]; the device only says where tensors are
    stored, so [use_cuda] and the moves to the device are left out.  Memory
    is not modelled: on a data set whose list of indices the machine cannot
    hold the constructor raises [MemoryError] at [list(range(...))], here
    it returns. *)
Definition FeatureNetwork_init (inputs : ndarray T) (labels : ndarray Z)
  : M Generator FeatureNetwork :=
  let dim_input := shape_1 inputs in
  let n_labels := shape_1 labels in
  model <- FeatureMLP_init n_labels dim_input false 150 ;;
  let batch_size := 64%nat in
  let batch_size_eval := 64%nat in
  n_train <- lift (int_mul_0_90 (len (data inputs))) ;;
  let indices := range (len (data inputs)) in
  let train_data := {| inputs := inputs; labels := labels |} in
  ret {| dim_input := dim_input;
         n_labels := n_labels;
         model := model;
         batch_size := batch_size;
         batch_size_eval := batch_size_eval;
         n_train := n_train;
         train_loader :=
           {| dl_dataset := train_data;
              dl_batch_size := batch_size;
              dl_sampler := SubsetRandomSampler (slice_to indices n_train) |};
         valid_loader :=
           {| dl_dataset := train_data;
              dl_batch_size := batch_size_eval;
              dl_sampler := SubsetRandomSampler (slice_from indices n_train) |} |}.

(** [torch.optim.lr_scheduler.StepLR] on the model's optimiser. *)
Record StepLR : Type := {
  step_size : Z;
  gamma : PyFloat.float;
  last_epoch : Z
}.

(** The [results] dictionary of the entry point. *)
Record Results : Type := {
  loss_train : list (pyval T);
  loss_valid : list PyFloat.float;
  f1_valid : list PyFloat.float
}.

(** The objects of a run: the global generator, [F_Net], [scheduler] and
    [results]. *)
Record World : Type := {
  generator : Generator;
  F_Net : FeatureNetwork;
  scheduler : StepLR;
  results : Results
}.

Definition set_generator (g : Generator) (w : World) : World :=
  {| generator := g; F_Net := F_Net w; scheduler := scheduler w;
     results := results w |}.

Definition set_F_Net (n : FeatureNetwork) (w : World) : World :=
  {| generator := generator w; F_Net := n; scheduler := scheduler w;
     results := results w |}.

Definition set_scheduler (s : StepLR) (w : World) : World :=
  {| generator := generator w; F_Net := F_Net w; scheduler := s;
     results := results w |}.

Definition set_results (r : Results) (w : World) : World :=
  {| generator := generator w; F_Net := F_Net w; scheduler := scheduler w;
     results := r |}.

(** A computation on the generator, or on [F_Net.model], run in the world. *)
Definition on_generator {A : Type} (c : M Generator A) : M World A :=
  fun w =>
    match c (generator w) with
    | Ok (a, g) => Ok (a, set_generator g w)
    | Raise e => Raise e
    end.

Definition on_model {A : Type} (c : M FeatureMLP A) : M World A :=
  fun w =>
    match c (model (F_Net w)) with
    | Ok (a, m) => Ok (a, set_F_Net (set_model m (F_Net w)) w)
    | Raise e => Raise e
    end.

(** The body of the loop of [train] over [enumerate(self.train_loader)];
    [acc] holds [t_loss] and [t_size].  The progress lines are left out. *)
Definition train_body (acc : pyval T * Z)
  (b : Z * (list (list T) * list (list Z))) : M World (pyval T * Z) :=
  let '(t_loss, t_size) := acc in
  let '(batch_idx, (inputs, targets)) := b in
  let t_size := t_size + len inputs in
  on_model zero_grad ;;
  output <- on_model (forward inputs) ;;
  let loss := loss_fn output (float_ targets) in
  t_loss <- lift (py_iadd t_loss (PyFloat (t_item loss))) ;;
  on_model (backward inputs targets) ;;
  on_model optimizer_step ;;
  ret (t_loss, t_size).

(** [FeatureNetwork.train] *)
Definition train (ep : Z) : M World (pyval T) :=
  on_model Module_train ;;
  loader <- gets (fun w => train_loader (F_Net w)) ;;
  batches <- on_generator (DataLoader_iter loader) ;;
  acc <- for_each train_body (enumerate batches) (PyInt 0, 0) ;;
  let '(t_loss, t_size) := acc in
  t_loss <- lift (py_itruediv t_loss t_size) ;;
  ret t_loss.

(** The body of the loop of [valid]; [acc] holds [loss], [t_size] and
    [mean_f1]. *)
Definition valid_body (acc : pyval T * Z * list PyFloat.float)
  (b : list (list T) * list (list Z))
  : M World (pyval T * Z * list PyFloat.float) :=
  let '(loss, t_size, mean_f1) := acc in
  let '(inputs, targets) := b in
  let t_size := t_size + len inputs in
  output <- on_model (forward inputs) ;;
  loss <- lift (py_iadd loss (PyTensor (loss_fn output (float_ targets)))) ;;
  let output_in_0_1 := round_int output in
  let f1 := compute_f1_score targets output_in_0_1 in
  ret (loss, t_size, mean_f1 ++ [f1]).

(** [FeatureNetwork.valid] *)
Definition valid : M World (PyFloat.float * PyFloat.float) :=
  on_model Module_eval ;;
  loader <- gets (fun w => valid_loader (F_Net w)) ;;
  batches <- on_generator (DataLoader_iter loader) ;;
  acc <- for_each valid_body batches (PyInt 0, 0, []) ;;
  let '(loss, t_size, mean_f1) := acc in
  let mean_f1 := np_mean mean_f1 in
  loss <- lift (py_itruediv loss t_size) ;;
  loss_item <- lift (py_item loss) ;;
  ret (loss_item, mean_f1).

(** [torch.cat] along the rows; an empty list of tensors is refused. *)
Definition torch_cat {A : Type} (tensors : list (list (list A)))
  : result (list (list A)) :=
  match tensors with
  | [] => Raise RuntimeError
  | _ :: _ => Ok (concat tensors)
  end.

(** The body of the loop of [test]; [acc] holds [outputs], [loss] and
    [t_size]. *)
Definition test_body (acc : list (list (list Z)) * pyval T * Z)
  (b : list (list T) * list (list Z))
  : M World (list (list (list Z)) * pyval T * Z) :=
  let '(outputs, loss, t_size) := acc in
  let '(inputs, targets) := b in
  let t_size := t_size + len inputs in
  output <- on_model (forward inputs) ;;
  loss <- lift (py_iadd loss (PyTensor (loss_fn output (float_ targets)))) ;;
  let output_in_0_1 := round_int output in
  ret (outputs ++ [output_in_0_1], loss, t_size).

(** [FeatureNetwork.test] *)
Definition test (test_loader : DataLoader T) (test_labels : ndarray Z)
  : M World (pyval T * PyFloat.float) :=
  on_model Module_eval ;;
  batches <- on_generator (DataLoader_iter test_loader) ;;
  acc <- for_each test_body batches ([], PyInt 0, 0) ;;
  let '(outputs, loss, t_size) := acc in
  loss <- lift (py_itruediv loss t_size) ;;
  outputs <- lift (torch_cat outputs) ;;
  let f1 := compute_f1_score (data test_labels) outputs in
  ret (loss, f1).

(** ** The entry point *)

(** [StepLR(optimizer, step_size, gamma)] *)
Definition StepLR_init (step_size : Z) (gamma : PyFloat.float) : StepLR :=
  {| step_size := step_size; gamma := gamma; last_epoch := 0 |}.

(** [scheduler.step()]: the step size of the optimiser is multiplied by
    [gamma] when the new epoch count is a multiple of [step_size]. *)
Definition scheduler_step : M World unit :=
  modify (fun w =>
    let s := scheduler w in
    let e := last_epoch s + 1 in
    let m := model (F_Net w) in
    let lr' := if (e =? 0) || negb (e mod step_size s =? 0)
               then lr (optimizer m)
               else PyFloat.mul (lr (optimizer m)) (gamma s) in
    set_scheduler {| step_size := step_size s; gamma := gamma s; last_epoch := e |}
      (set_F_Net (set_model (set_lr lr' m) (F_Net w)) w)).

(** What the script builds before its loop. *)
Definition setup (train_inputs : ndarray T) (train_labels : ndarray Z)
  (g : Generator) : result World :=
  match FeatureNetwork_init train_inputs train_labels g with
  | Raise e => Raise e
  | Ok (net, g') =>
      Ok {| generator := g';
            F_Net := net;
            scheduler := StepLR_init 25 PyFloat.lit_0_1;
            results := {| loss_train := []; loss_valid := []; f1_valid := [] |} |}
  end.

(** The body of the loop over the epochs. *)
Definition epoch_body (epoch : Z) : M World unit :=
  loss_train_ <- train epoch ;;
  lf <- valid ;;
  let '(loss_valid_, mean_f1) := lf in
  scheduler_step ;;
  modify (fun w =>
    let r := results w in
    set_results {| loss_train := loss_train r ++ [loss_train_];
                   loss_valid := loss_valid r ++ [loss_valid_];
                   f1_valid := f1_valid r ++ [mean_f1] |} w).

(** [for epoch in range(n)] *)
Definition epochs (n : Z) : M World unit :=
  for_each (fun (_ : unit) (epoch : nat) => epoch_body (Z.of_nat epoch))
           (range n) tt.

(** The loop of the script: [for epoch in range(1)]. *)
Definition main_loop : M World unit := epochs 1.

(** The testing phase of the script. *)
Definition testing (test_inputs : ndarray T) (test_labels : ndarray Z)
  : M World (pyval T * PyFloat.float) :=
  batch <- gets (fun w => batch_size_eval (F_Net w)) ;;
  let test_data := {| inputs := test_inputs; labels := test_labels |} in
  let test_loader := {| dl_dataset := test_data;
                        dl_batch_size := batch;
                        dl_sampler := SequentialSampler test_data |} in
  test test_loader test_labels.

End FeatureNetwork.

(** ** Definitions the properties are stated with *)

(** [m / 2^n] rounded to the nearest integer, ties to even. *)
Definition rne (m n : Z) : Z :=
  let q := m / 2 ^ n in
  if Z.odd (m / 2 ^ (n - 1)) && (negb (m mod 2 ^ (n - 1) =? 0) || Z.odd q)
  then q + 1 else q.

(** The integer part of [m * 2^e]. *)
Definition fl (m e : Z) : Z := if e <? 0 then m / 2 ^ (- e) else m * 2 ^ e.

(** The least size [N] of a data set at which [int(N * 0.90)] is not the
    integer part of nine tenths of [N]. *)
Definition n_train_bound : Z := 1250999896491811.

(** [sys.maxsize]: no Python sequence is longer. *)
Definition sys_maxsize : Z := 2 ^ 63 - 1.

Section Specification.
Context {T : Type} `{Torch T} `{Auxiliary}.

(** The order in which a subset sampler yields its indices. *)
Definition sampled (g : Generator) (indices : list nat) : list nat :=
  map (fun i => nth i indices 0%nat) (fst (randperm g (length indices))).

(** The collated items at the positions [idxs]. *)
Definition collate (d : MyDataset T) (idxs : list nat)
  : list (list T) * list (list Z) :=
  (map (fun i => nth i (data (inputs d)) []) idxs,
   map (fun i => nth i (data (labels d)) []) idxs).

(** The batches of one pass over the indices of a subset sampler. *)
Definition pass (d : MyDataset T) (bs : nat) (g : Generator) (indices : list nat)
  : list (list (list T) * list (list Z)) :=
  map (collate d) (BatchSampler bs [] (sampled g indices)).

(** The indices are positions of the data set. *)
Definition in_dataset (d : MyDataset T) (idxs : list nat) : Prop :=
  forall i, In i idxs ->
    (i < length (data (inputs d)))%nat /\ (i < length (data (labels d)))%nat.

(** The number of examples of a list of batches. *)
Definition examples (batches : list (list (list T) * list (list Z))) : Z :=
  len (concat (map fst batches)).

(** The output of a forward pass. *)
Definition predict (m : FeatureMLP) (x : list (list T)) : list (list T) :=
  match forward x m with
  | Ok (out, _) => out
  | Raise _ => []
  end.

(** The loss and the F1 score of one batch under the model [m]. *)
Definition batch_loss (m : FeatureMLP) (b : list (list T) * list (list Z)) : T :=
  loss_fn (predict m (fst b)) (float_ (snd b)).

Definition batch_f1 (m : FeatureMLP) (b : list (list T) * list (list Z))
  : PyFloat.float :=
  compute_f1_score (snd b) (round_int (predict m (fst b))).

(** The world with another model. *)
Definition with_model (m : FeatureMLP) (w : World) : World :=
  set_F_Net (set_model m (F_Net w)) w.

(** The model after the optimisation step on one batch. *)
Definition sgd_step (m : FeatureMLP) (b : list (list T) * list (list Z))
  : FeatureMLP :=
  match (zero_grad ;; backward (fst b) (snd b) ;; optimizer_step) m with
  | Ok (_, m') => m'
  | Raise _ => m
  end.

(** The losses of the batches of an epoch, each on the model that the steps
    before it have left. *)
Fixpoint train_losses (m : FeatureMLP)
  (batches : list (list (list T) * list (list Z))) : list PyFloat.float :=
  match batches with
  | [] => []
  | b :: batches' =>
      t_item (batch_loss (set_grad None m) b) :: train_losses (sgd_step m b) batches'
  end.

(** [loss += tensor] *)
Definition tensor_acc (acc : pyval T) (l : T) : pyval T :=
  match acc with
  | PyInt a => PyTensor (t_add_int l a)
  | PyFloat f => PyTensor (t_add_float l f)
  | PyTensor a => PyTensor (t_add a l)
  end.

(** The step size after [k] steps of a scheduler that multiplies by [gamma]
    every [step_size] steps. *)
Definition decayed (lr0 gamma : PyFloat.float) (step_size k : Z) : PyFloat.float :=
  Nat.iter (Z.to_nat (k / step_size)) (fun x => PyFloat.mul x gamma) lr0.

(** The worlds of a run of the script on the data set [d] split into [tr]
    and [va], after [k] epochs. *)
Definition epoch_inv (d : MyDataset T) (tr va : list nat) (k : Z) (w : World)
  : Prop :=
  train_loader (F_Net w) =
    {| dl_dataset := d; dl_batch_size := 64;
       dl_sampler := SubsetRandomSampler tr |} /\
  valid_loader (F_Net w) =
    {| dl_dataset := d; dl_batch_size := 64;
       dl_sampler := SubsetRandomSampler va |} /\
  step_size (scheduler w) = 25 /\
  gamma (scheduler w) = PyFloat.lit_0_1 /\
  last_epoch (scheduler w) = k /\
  lr (optimizer (model (F_Net w))) =
    decayed PyFloat.lit_1e_3 PyFloat.lit_0_1 25 k /\
  len (loss_train (results w)) = k.

(** The label probabilities of the rows of [x]: three linear layers, the
    first two followed by the rectifier, the third by the sigmoid. *)
Definition probabilities (m : FeatureMLP) (x : list (list T)) : list (list T) :=
  torch_sigmoid
    (Linear_forward (fc3 m)
       (F_relu (Linear_forward (fc2 m) (F_relu (Linear_forward (fc1 m) x))))).

(** The loss of a batch of features and labels: the cross entropy, summed,
    of the probabilities of its features against its labels as floats. *)
Definition summed_bce (m : FeatureMLP) (b : list (list T) * list (list Z)) : T :=
  BCELoss ReduceSum (probabilities m (fst b)) (map (map t_of_int) (snd b)).

(** The F1 score of a batch: its labels against the probabilities of its
    features rounded to integers. *)
Definition rounded_f1 (m : FeatureMLP) (b : list (list T) * list (list Z))
  : PyFloat.float :=
  compute_f1_score (snd b) (map (map t_round_int) (probabilities m (fst b))).

(** The losses of the batches of an epoch as Python floats, each under the
    model that the optimisation steps on the batches before it have left. *)
Fixpoint epoch_losses (m : FeatureMLP)
  (batches : list (list (list T) * list (list Z))) : list PyFloat.float :=
  match batches with
  | [] => []
  | b :: batches' =>
      t_item (summed_bce m b) :: epoch_losses (sgd_step m b) batches'
  end.

(** The examples of a list of batches: each row of features with the row of
    labels at its position in the batch. *)
Definition paired (batches : list (list (list T) * list (list Z)))
  : list (list T * list Z) :=
  concat (map (fun b => combine (fst b) (snd b)) batches).

(** The layer maps [in_features] to [out_features] numbers. *)
Definition Linear_shape (l : Linear T) (in_features out_features : nat) : bool :=
  Nat.eqb (length (weight l)) out_features &&
  forallb (fun row => Nat.eqb (length row) in_features) (weight l) &&
  Nat.eqb (length (bias l)) out_features.

(** The model is a classifier whose layers have the widths of the features
    [x] and of the labels [y]: the inputs on which no layer, and not the
    loss, refuses the shape of its argument. *)
Definition fits (m : FeatureMLP) (x : ndarray T) (y : ndarray Z) : bool :=
  negb (only_feature_extraction m) &&
  Linear_shape (fc1 m) (shape_1 x) (n_hidden_units m) &&
  Linear_shape (fc2 m) (n_hidden_units m) (n_hidden_units m) &&
  Linear_shape (fc3 m) (n_hidden_units m) (shape_1 y) &&
  forallb (fun row => Nat.eqb (length row) (shape_1 x)) (data x) &&
  forallb (fun row => Nat.eqb (length row) (shape_1 y)) (data y).

(** The network of the world was built by [FeatureNetwork.__init__] on the
    data set; its model may have been trained since. *)
Definition built_on (inputs : ndarray T) (labels : ndarray Z) (w : World) : Prop :=
  exists g : Generator,
    match FeatureNetwork_init inputs labels g with
    | Ok (net, _) =>
        train_loader (F_Net w) = train_loader net /\
        valid_loader (F_Net w) = valid_loader net
    | Raise _ => False
    end.

End Specification.

(** ** An exact instance

    The interface instantiated with integers, on which the definitions run.
    Its generator counts the permutations drawn, each the reversal. *)

Definition Z_randperm (g : nat) (n : nat) : list nat * nat := (rev (seq 0 n), S g).

Definition Z_randperm_perm (g n : nat)
  : Permutation (fst (Z_randperm g n)) (seq 0 n) :=
  Permutation_sym (Permutation_rev (seq 0 n)).

Definition Z_item (z : Z) : PyFloat.float :=
  match PyFloat.of_int z with
  | Ok f => f
  | Raise _ => S754_nan
  end.

Definition Z_add_float (t : Z) (f : PyFloat.float) : Z :=
  match PyFloat.to_int f with
  | Ok z => t + z
  | Raise _ => t
  end.

#[export] Instance ZTorch : Torch Z := {|
  t_one := 1;
  t_add := Z.add;
  t_sub := Z.sub;
  t_mul := Z.mul;
  t_neg := Z.opp;
  t_max := Z.max;
  t_log := Z.log2;
  t_log1p := fun x => Z.log2 (1 + x);
  t_relu := Z.max 0;
  t_sigmoid := fun x => if x <? 0 then 0 else 1;
  t_sum := fun l => fold_right Z.add 0 l;
  t_add_int := Z.add;
  t_add_float := Z_add_float;
  t_div_int := Z.div;
  t_of_int := fun z => z;
  t_round_int := fun z => z;
  t_item := Z_item;
  Generator := nat;
  randperm := Z_randperm;
  randperm_perm := Z_randperm_perm;
  Linear_init := fun g i o =>
    ({| weight := repeat (repeat 1 i) o; bias := repeat 0 o |}, S g);
  Grad := unit;
  OptState := unit;
  autograd := fun _ _ _ _ => tt;
  accumulate_grad := fun _ _ => tt;
  adam_init := tt;
  adam_update := fun _ s p _ => (p, s)
|}.

(** A micro-averaged F1 score and the mean of a list. *)
Definition count_pairs (a b : Z) (l : list (Z * Z)) : Z :=
  len (filter (fun p => (fst p =? a) && (snd p =? b)) l).

Definition micro_f1 (labels outputs : list (list Z)) : PyFloat.float :=
  let pairs := combine (concat labels) (concat outputs) in
  let tp := count_pairs 1 1 pairs in
  let fp := count_pairs 0 1 pairs in
  let fn := count_pairs 1 0 pairs in
  match PyFloat.of_int (2 * tp), PyFloat.of_int (2 * tp + fp + fn) with
  | Ok a, Ok b =>
      match PyFloat.truediv a b with
      | Ok q => q
      | Raise _ => S754_zero false
      end
  | _, _ => S754_nan
  end.

Definition list_mean (l : list PyFloat.float) : PyFloat.float :=
  match PyFloat.of_int (len l) with
  | Ok n => SFdiv PyFloat.prec PyFloat.emax
              (fold_left PyFloat.add l (S754_zero false)) n
  | Raise _ => S754_nan
  end.

#[export] Instance ZAuxiliary : Auxiliary := {|
  compute_f1_score := micro_f1;
  np_mean := list_mean
|}.

(** Seven hundred examples of two features and one label, a small model
    that predicts the label of the examples from the 650th on, and a world
    of a run on them. *)
Definition toy_inputs : ndarray Z :=
  {| data := map (fun i => [Z.of_nat i; 1]) (seq 0 700); shape_1 := 2 |}.

Definition toy_labels : ndarray Z :=
  {| data := map (fun i => [if Nat.eqb (i mod 3) 0 then 1 else 0]) (seq 0 700);
     shape_1 := 1 |}.

Definition toy_dataset : MyDataset Z :=
  {| inputs := toy_inputs; labels := toy_labels |}.

Definition toy_model : FeatureMLP :=
  {| only_feature_extraction := false;
     n_hidden_units := 1;
     fc1 := {| weight := [[1; 0]]; bias := [0] |};
     fc2 := {| weight := [[1]]; bias := [0] |};
     fc3 := {| weight := [[1]]; bias := [-650] |};
     optimizer := {| lr := PyFloat.lit_1e_3; opt_state := tt |};
     training := true;
     grad := None |}.

Definition toy_world : World :=
  {| generator := 0%nat;
     F_Net :=
       {| dim_input := 2;
          n_labels := 1;
          model := toy_model;
          batch_size := 64;
          batch_size_eval := 64;
          n_train := 630;
          train_loader :=
            {| dl_dataset := toy_dataset; dl_batch_size := 64;
               dl_sampler := SubsetRandomSampler (seq 0 630) |};
          valid_loader :=
            {| dl_dataset := toy_dataset; dl_batch_size := 64;
               dl_sampler := SubsetRandomSampler (seq 630 70) |} |};
     scheduler := StepLR_init 25 PyFloat.lit_0_1;
     results := {| loss_train := []; loss_valid := []; f1_valid := [] |} |}.

(** What the constructor returns on the toy data. *)
Definition toy_net : FeatureNetwork * nat :=
  match FeatureNetwork_init toy_inputs toy_labels 0%nat with
  | Ok r => r
  | Raise _ => (F_Net toy_world, 0%nat)
  end.

(** A data set of one example, a data set without examples, and the world
    the script builds on a data set. *)
Definition single_inputs : ndarray Z := {| data := [[1]]; shape_1 := 1 |}.

Definition single_labels : ndarray Z := {| data := [[1]]; shape_1 := 1 |}.

Definition no_inputs : ndarray Z := {| data := []; shape_1 := 1 |}.

Definition no_labels : ndarray Z := {| data := []; shape_1 := 1 |}.

Definition world_on (inputs : ndarray Z) (labels : ndarray Z) : World :=
  match setup inputs labels 0%nat with
  | Ok w => w
  | Raise _ => toy_world
  end.

(** Three examples, a world of a run on them, the three examples as a test
    set, and what the methods return in that world. *)
Definition small_inputs : ndarray Z :=
  {| data := [[0; 1]; [1; 1]; [2; 1]]; shape_1 := 2 |}.

Definition small_labels : ndarray Z :=
  {| data := [[1]; [0]; [0]]; shape_1 := 1 |}.

Definition small_dataset : MyDataset Z :=
  {| inputs := small_inputs; labels := small_labels |}.

Definition small_world : World :=
  {| generator := 0%nat;
     F_Net :=
       {| dim_input := 2;
          n_labels := 1;
          model := toy_model;
          batch_size := 64;
          batch_size_eval := 64;
          n_train := 2;
          train_loader :=
            {| dl_dataset := small_dataset; dl_batch_size := 64;
               dl_sampler := SubsetRandomSampler [0; 1]%nat |};
          valid_loader :=
            {| dl_dataset := small_dataset; dl_batch_size := 64;
               dl_sampler := SubsetRandomSampler [2%nat] |} |};
     scheduler := StepLR_init 25 PyFloat.lit_0_1;
     results := {| loss_train := []; loss_valid := []; f1_valid := [] |} |}.

Definition small_test_loader : DataLoader Z :=
  {| dl_dataset := small_dataset; dl_batch_size := 64;
     dl_sampler := SequentialSampler small_dataset |}.

Definition small_train : pyval Z * World :=
  match train 0 small_world with
  | Ok r => r
  | Raise _ => (PyInt 0, small_world)
  end.

Definition small_valid : PyFloat.float * PyFloat.float * World :=
  match valid small_world with
  | Ok r => r
  | Raise _ => ((S754_nan, S754_nan), small_world)
  end.

Definition small_test : pyval Z * PyFloat.float * World :=
  match test small_test_loader small_labels small_world with
  | Ok r => r
  | Raise _ => ((PyInt 0, S754_nan), small_world)
  end.

(** * Properties *)

(** ** Rounding to 53 bits *)

Lemma digits2_pos_size (p : positive) : digits2_pos p = Pos.size p.
Proof. induction p; simpl; congruence. Qed.

Lemma digits2_log2 (p : positive) : Zpos (digits2_pos p) = Z.log2 (Zpos p) + 1.
Proof.
  rewrite digits2_pos_size.
  destruct p; simpl; try reflexivity; rewrite Pos2Z.inj_succ; lia.
Qed.

Lemma digits2_bounds (p : positive) :
  2 ^ (Zpos (digits2_pos p) - 1) <= Zpos p < 2 ^ Zpos (digits2_pos p).
Proof.
  rewrite digits2_log2.
  replace (Z.log2 (Zpos p) + 1 - 1) with (Z.log2 (Zpos p)) by lia.
  apply Z.log2_spec. lia.
Qed.

Lemma digits2_unique (p : positive) (k : Z) :
  2 ^ (k - 1) <= Zpos p < 2 ^ k -> Zpos (digits2_pos p) = k.
Proof.
  intros Hb.
  assert (0 < k).
  { destruct (Z_lt_le_dec 0 k) as [|Hk]; [assumption|].
    assert (2 ^ k <= 2 ^ 0) by (apply Z.pow_le_mono_r; lia).
    change (2 ^ 0) with 1 in *. lia. }
  rewrite digits2_log2.
  rewrite (Z.log2_unique (Zpos p) (k - 1)); try lia.
  replace (Z.succ (k - 1)) with k by lia. assumption.
Qed.

Lemma digits_range (p : positive) (a b : Z) :
  0 <= a -> 2 ^ a <= Zpos p < 2 ^ b -> a < Zpos (digits2_pos p) <= b.
Proof.
  intros Ha [Hlo Hhi]. pose proof (digits2_bounds p) as [Hl Hu].
  split.
  - apply (Z.pow_lt_mono_r_iff 2); lia.
  - assert (Zpos (digits2_pos p) - 1 < b); [| lia].
    apply (Z.pow_lt_mono_r_iff 2); try lia.
    destruct (Z_lt_le_dec b 0) as [Hb | Hb]; [| assumption].
    rewrite Z.pow_neg_r in Hhi by assumption. lia.
Qed.

Lemma pow2_succ (x : Z) : 0 <= x -> 2 ^ (x + 1) = 2 * 2 ^ x.
Proof. intros Hx. rewrite Z.pow_add_r by lia. lia. Qed.

Lemma iter_pos_nat {A : Type} (f : A -> A) (p : positive) (x : A) :
  iter_pos f p x = Nat.iter (Pos.to_nat p) f x.
Proof.
  revert x. induction p as [p IH | p IH |]; intros x; cbn [iter_pos].
  - rewrite !IH, Pos2Nat.inj_xI.
    replace (S (2 * Pos.to_nat p)) with (Pos.to_nat p + S (Pos.to_nat p))%nat by lia.
    rewrite Nat.iter_add. f_equal.
    now rewrite Nat.iter_succ_r.
  - rewrite !IH, Pos2Nat.inj_xO.
    replace (2 * Pos.to_nat p)%nat with (Pos.to_nat p + Pos.to_nat p)%nat by lia.
    now rewrite Nat.iter_add.
  - reflexivity.
Qed.

Lemma shr_1_nonneg (m : Z) (r s : bool) :
  0 <= m ->
  shr_1 {| shr_m := m; shr_r := r; shr_s := s |} =
  {| shr_m := m / 2; shr_r := Z.odd m; shr_s := r || s |}.
Proof.
  intros Hm. destruct m as [| p | p]; [reflexivity | | lia].
  destruct p as [p | p |]; simpl shr_1.
  - f_equal. rewrite Pos2Z.inj_xI.
    replace (2 * Zpos p + 1) with (1 + Zpos p * 2) by lia.
    rewrite Z.div_add by lia. reflexivity.
  - f_equal. rewrite Pos2Z.inj_xO.
    replace (2 * Zpos p) with (Zpos p * 2) by lia.
    now rewrite Z.div_mul by lia.
  - reflexivity.
Qed.

Lemma mod_pow2_succ (m n : Z) :
  0 <= n ->
  m mod 2 ^ (n + 1) = m mod 2 ^ n + 2 ^ n * (if Z.odd (m / 2 ^ n) then 1 else 0).
Proof.
  intros Hn.
  assert (0 < 2 ^ n) by (apply Z.pow_pos_nonneg; lia).
  rewrite Z.pow_add_r, Z.pow_1_r by lia.
  rewrite Z.rem_mul_r by lia.
  now rewrite Zmod_odd.
Qed.

(** [n + 1] shifts keep the quotient, the last bit shifted out and whether
    a bit below it was set. *)
Lemma shr_iter (m : Z) (n : nat) (r s : bool) :
  0 <= m ->
  Nat.iter (S n) shr_1 {| shr_m := m; shr_r := r; shr_s := s |} =
  {| shr_m := m / 2 ^ (Z.of_nat n + 1);
     shr_r := Z.odd (m / 2 ^ Z.of_nat n);
     shr_s := r || s || negb (m mod 2 ^ Z.of_nat n =? 0) |}.
Proof.
  intros Hm. induction n as [| n IH].
  - cbn [Nat.iter nat_rect]. rewrite shr_1_nonneg by assumption.
    change (2 ^ Z.of_nat 0) with 1. change (2 ^ (Z.of_nat 0 + 1)) with 2.
    rewrite Z.div_1_r, Z.mod_1_r. cbn [Z.eqb negb]. now rewrite orb_false_r.
  - rewrite Nat.iter_succ, IH.
    assert (0 < 2 ^ Z.of_nat n) by (apply Z.pow_pos_nonneg; lia).
    assert (0 < 2 ^ (Z.of_nat n + 1)) by (apply Z.pow_pos_nonneg; lia).
    rewrite shr_1_nonneg by (apply Z.div_pos; lia).
    replace (Z.of_nat (S n)) with (Z.of_nat n + 1) by lia.
    f_equal.
    + rewrite Z.div_div by lia.
      f_equal. rewrite (Z.pow_add_r 2 (Z.of_nat n + 1) 1) by lia. reflexivity.
    + rewrite (mod_pow2_succ m (Z.of_nat n)) by lia.
      pose proof (Z.mod_pos_bound m (2 ^ Z.of_nat n) ltac:(lia)).
      destruct (Z.odd (m / 2 ^ Z.of_nat n)); destruct r, s; cbn [orb]; try reflexivity.
      * symmetry. apply negb_true_iff, Z.eqb_neq. lia.
      * rewrite Z.mul_0_r, Z.add_0_r. reflexivity.
Qed.

Lemma shr_pos (m e n : Z) :
  0 <= m -> 0 < n ->
  shr {| shr_m := m; shr_r := false; shr_s := false |} e n =
  ({| shr_m := m / 2 ^ n;
      shr_r := Z.odd (m / 2 ^ (n - 1));
      shr_s := negb (m mod 2 ^ (n - 1) =? 0) |}, e + n).
Proof.
  intros Hm Hn. destruct n as [| p | p]; try lia.
  unfold shr. rewrite iter_pos_nat.
  destruct (Pos.to_nat p) as [| k] eqn:Hk; [lia |].
  rewrite shr_iter by assumption.
  replace (Z.of_nat k + 1) with (Zpos p) by lia.
  replace (Z.of_nat k) with (Zpos p - 1) by lia.
  reflexivity.
Qed.

Lemma shr_nonpos (mrs : shr_record) (e n : Z) :
  n <= 0 -> shr mrs e n = (mrs, e).
Proof. intros Hn. destruct n; [reflexivity | lia | reflexivity]. Qed.

Lemma fexp_normal (x : Z) : -1074 <= x - 53 -> fexp 53 1024 x = x - 53.
Proof. intros Hx. unfold fexp, emin. lia. Qed.

Lemma round_rne (m n : Z) :
  round_nearest_even (m / 2 ^ n)
    (loc_of_shr_record
       {| shr_m := m / 2 ^ n;
          shr_r := Z.odd (m / 2 ^ (n - 1));
          shr_s := negb (m mod 2 ^ (n - 1) =? 0) |}) = rne m n.
Proof.
  unfold rne, loc_of_shr_record, round_nearest_even.
  rewrite <- Z.negb_odd.
  destruct (Z.odd (m / 2 ^ (n - 1))), (negb (m mod 2 ^ (n - 1) =? 0)),
    (Z.odd (m / 2 ^ n)); reflexivity.
Qed.

(** The rounded quotient is within half a unit of the exact one. *)
Lemma rne_bounds (m n : Z) :
  0 <= m -> 0 < n ->
  m / 2 ^ n <= rne m n <= m / 2 ^ n + 1 /\
  2 ^ n * rne m n <= m + 2 ^ (n - 1) /\
  m <= 2 ^ n * rne m n + 2 ^ (n - 1).
Proof.
  intros Hm Hn.
  assert (Hp : 0 < 2 ^ (n - 1)) by (apply Z.pow_pos_nonneg; lia).
  assert (H2 : 2 ^ n = 2 ^ (n - 1) * 2).
  { replace n with (n - 1 + 1) at 1 by lia. now rewrite Z.pow_add_r by lia. }
  pose proof (mod_pow2_succ m (n - 1) ltac:(lia)) as Hmod.
  replace (n - 1 + 1) with n in Hmod by lia.
  pose proof (Z.mod_pos_bound m (2 ^ (n - 1)) Hp) as Hr.
  pose proof (Z.div_mod m (2 ^ n) ltac:(lia)) as Hdm.
  unfold rne. rewrite H2 in *.
  set (a := 2 ^ (n - 1)) in *. set (q := m / (a * 2)) in *.
  set (r0 := m mod a) in *.
  destruct (Z.odd (m / a)); cbn [andb].
  - destruct (r0 =? 0) eqn:Hr0; cbn [negb orb].
    + apply Z.eqb_eq in Hr0. destruct (Z.odd q); nia.
    + nia.
  - nia.
Qed.

(** A mantissa of at most 53 bits is kept. *)
Lemma round_aux_short (s : bool) (p : positive) (e : Z) :
  Zpos (digits2_pos p) <= 53 -> -1074 <= e <= 971 ->
  binary_round_aux 53 1024 s (Zpos p) e loc_Exact = S754_finite s p e.
Proof.
  intros Hd He.
  assert (Hsh : shr_fexp 53 1024 (Zpos p) e loc_Exact =
                ({| shr_m := Zpos p; shr_r := false; shr_s := false |}, e)).
  { unfold shr_fexp. apply shr_nonpos.
    cbn [Zdigits2]. unfold fexp, emin. lia. }
  unfold binary_round_aux. rewrite Hsh.
  cbn [shr_m loc_of_shr_record round_nearest_even]. rewrite Hsh.
  cbn [shr_m].
  replace (e <=? 1024 - 53) with true by (symmetry; apply Z.leb_le; lia).
  reflexivity.
Qed.

Lemma quotient_53_bits (p : positive) :
  let n := Zpos (digits2_pos p) - 53 in
  0 < n -> 2 ^ 52 <= Zpos p / 2 ^ n < 2 ^ 53.
Proof.
  intros n Hn. pose proof (digits2_bounds p) as Hb.
  assert (Hpn : 0 < 2 ^ n) by (apply Z.pow_pos_nonneg; lia).
  replace (Zpos (digits2_pos p)) with (n + 53) in Hb by (unfold n; lia).
  replace (n + 53 - 1) with (52 + n) in Hb by lia.
  rewrite !Z.pow_add_r in Hb by lia.
  split.
  - apply Z.div_le_lower_bound; lia.
  - apply Z.div_lt_upper_bound; lia.
Qed.

(** A longer mantissa is rounded to 53 bits. *)
Lemma round_aux_long (s : bool) (p : positive) (e : Z) :
  let n := Zpos (digits2_pos p) - 53 in
  0 < n -> -1074 <= e + n -> e + n + 1 <= 971 ->
  binary_round_aux 53 1024 s (Zpos p) e loc_Exact =
  if rne (Zpos p) n <? 2 ^ 53
  then S754_finite s (Z.to_pos (rne (Zpos p) n)) (e + n)
  else S754_finite s (Z.to_pos (2 ^ 52)) (e + n + 1).
Proof.
  intros n Hn Hlo Hhi.
  pose proof (rne_bounds (Zpos p) n ltac:(lia) Hn) as (Hq & _ & _).
  pose proof (quotient_53_bits p Hn) as Hq52. fold n in Hq52.
  assert (Hsh : shr_fexp 53 1024 (Zpos p) e loc_Exact =
                ({| shr_m := Zpos p / 2 ^ n;
                    shr_r := Z.odd (Zpos p / 2 ^ (n - 1));
                    shr_s := negb (Zpos p mod 2 ^ (n - 1) =? 0) |}, e + n)).
  { unfold shr_fexp. cbn [Zdigits2 shr_record_of_loc].
    rewrite fexp_normal by (unfold n in *; lia).
    replace (Zpos (digits2_pos p) + e - 53 - e) with n by (unfold n; lia).
    apply shr_pos; lia. }
  unfold binary_round_aux. rewrite Hsh. cbn [shr_m]. rewrite round_rne.
  set (m1 := rne (Zpos p) n) in *.
  assert (Hm1 : 2 ^ 52 <= m1 <= 2 ^ 53) by lia.
  destruct m1 as [| p1 | p1] eqn:Em1; try lia.
  destruct (Zpos p1 <? 2 ^ 53) eqn:Hlt.
  - apply Z.ltb_lt in Hlt.
    assert (Hd1 : Zpos (digits2_pos p1) = 53) by (apply digits2_unique; lia).
    assert (Hsh1 : shr_fexp 53 1024 (Zpos p1) (e + n) loc_Exact =
                   ({| shr_m := Zpos p1; shr_r := false; shr_s := false |}, e + n)).
    { unfold shr_fexp. apply shr_nonpos. cbn [Zdigits2]. rewrite Hd1.
      unfold fexp, emin. lia. }
    rewrite Hsh1. cbn [shr_m].
    replace (e + n <=? 1024 - 53) with true by (symmetry; apply Z.leb_le; lia).
    reflexivity.
  - apply Z.ltb_ge in Hlt.
    assert (Hp1 : Zpos p1 = 2 ^ 53) by lia.
    assert (Hd1 : Zpos (digits2_pos p1) = 54).
    { apply digits2_unique. rewrite Hp1. split; [reflexivity | reflexivity]. }
    assert (Hsh1 : shr_fexp 53 1024 (Zpos p1) (e + n) loc_Exact =
                   ({| shr_m := 2 ^ 52; shr_r := false; shr_s := false |}, e + n + 1)).
    { unfold shr_fexp. cbn [Zdigits2 shr_record_of_loc]. rewrite Hd1.
      rewrite fexp_normal by lia.
      replace (54 + (e + n) - 53 - (e + n)) with 1 by lia.
      rewrite shr_pos by lia. rewrite Hp1. reflexivity. }
    rewrite Hsh1. cbn [shr_m].
    replace (e + n + 1 <=? 1024 - 53) with true by (symmetry; apply Z.leb_le; lia).
    reflexivity.
Qed.

(** ** Truncation *)

Lemma to_int_finite (p : positive) (e : Z) :
  PyFloat.to_int (S754_finite false p e) = Ok (fl (Zpos p) e).
Proof.
  unfold PyFloat.to_int, fl. destruct e as [| q | q]; cbn [Z.ltb Z.compare Z.opp].
  - now rewrite Z.mul_1_r.
  - reflexivity.
  - reflexivity.
Qed.

Lemma fl_neg (m e : Z) : e <= 0 -> fl m e = m / 2 ^ (- e).
Proof.
  intros He. unfold fl. destruct (e <? 0) eqn:H; [reflexivity |].
  apply Z.ltb_ge in H. replace e with 0 by lia.
  change (2 ^ (- 0)) with 1. change (2 ^ 0) with 1.
  now rewrite Z.mul_1_r, Z.div_1_r.
Qed.

Lemma fl_pos (m e : Z) : 0 <= e -> fl m e = m * 2 ^ e.
Proof.
  intros He. unfold fl.
  destruct (e <? 0) eqn:H; [apply Z.ltb_lt in H; lia | reflexivity].
Qed.

Lemma fl_carry (e : Z) : fl (2 ^ 52) (e + 1) = fl (2 ^ 53) e.
Proof.
  unfold fl. destruct (e + 1 <? 0) eqn:H1; destruct (e <? 0) eqn:H0;
    try apply Z.ltb_lt in H1; try apply Z.ltb_ge in H1;
    try apply Z.ltb_lt in H0; try apply Z.ltb_ge in H0; try lia.
  - replace (- e) with (1 + - (e + 1)) by lia.
    rewrite Z.pow_add_r by lia. change (2 ^ 53) with (2 ^ 1 * 2 ^ 52).
    assert (0 < 2 ^ (- (e + 1))) by (apply Z.pow_pos_nonneg; lia).
    rewrite Z.div_mul_cancel_l by lia. reflexivity.
  - assert (e = -1) by lia. subst e. reflexivity.
  - rewrite Z.pow_add_r by lia. change (2 ^ 53) with (2 ^ 52 * 2 ^ 1). ring.
Qed.

Lemma div_pow2_eq (x B j : Z) :
  0 < B -> j * B <= x < (j + 1) * B -> x / B = j.
Proof.
  intros HB [Hlo Hhi]. symmetry.
  apply (Z.div_unique x B j (x - j * B)); lia.
Qed.

Lemma to_int_round_long (p : positive) (e : Z) :
  let n := Zpos (digits2_pos p) - 53 in
  0 < n -> -1074 <= e + n -> e + n + 1 <= 971 ->
  PyFloat.to_int (binary_round_aux 53 1024 false (Zpos p) e loc_Exact) =
  Ok (fl (rne (Zpos p) n) (e + n)).
Proof.
  intros n Hn Hlo Hhi. rewrite round_aux_long by assumption. fold n.
  pose proof (rne_bounds (Zpos p) n ltac:(lia) Hn) as (Hq & _ & _).
  pose proof (quotient_53_bits p Hn) as Hq52. fold n in Hq52.
  destruct (rne (Zpos p) n <? 2 ^ 53) eqn:Hlt.
  - rewrite to_int_finite. rewrite Z2Pos.id by lia. reflexivity.
  - apply Z.ltb_ge in Hlt. rewrite to_int_finite.
    replace (rne (Zpos p) n) with (2 ^ 53) by lia.
    rewrite <- fl_carry. reflexivity.
Qed.

(** ** [float(N)] and [int(N * 0.90)] *)

Lemma iter_xO (p k : positive) : Zpos (Pos.iter xO p k) = Zpos p * 2 ^ Zpos k.
Proof.
  rewrite <- Z.shiftl_mul_pow2 by lia. cbn [Z.shiftl].
  apply (Pos.iter_swap_gen _ _ Zpos xO (Z.mul 2)). intros a. reflexivity.
Qed.

(** An integer of at most 53 bits converts exactly. *)
Lemma of_int_exact (N : positive) :
  let d := Zpos (digits2_pos N) in
  d <= 53 ->
  PyFloat.of_int (Zpos N) =
  Ok (S754_finite false (Z.to_pos (Zpos N * 2 ^ (53 - d))) (d - 53)).
Proof.
  intros d Hd. unfold PyFloat.of_int, binary_normalize, binary_round.
  pose proof (digits2_bounds N) as Hb. fold d in Hb.
  assert (0 < d) by (unfold d; lia).
  unfold shl_align, PyFloat.prec, PyFloat.emax.
  replace (fexp 53 1024 (Zpos (digits2_pos N) + 0)) with (d - 53)
    by (fold d; unfold fexp, emin; lia).
  destruct (d - 53 - 0) as [| q | q] eqn:Hq; try lia.
  - assert (d = 53) by lia.
    rewrite round_aux_short by (fold d; lia).
    replace (53 - d) with 0 by lia. rewrite Z.mul_1_r. cbn [Z.to_pos].
    replace (d - 53) with 0 by lia. reflexivity.
  - assert (Hq' : Zpos q = 53 - d) by lia.
    assert (Hv : Zpos (Pos.iter xO N q) = Zpos N * 2 ^ (53 - d))
      by (rewrite iter_xO; now rewrite Hq').
    assert (Hdig : Zpos (digits2_pos (Pos.iter xO N q)) = 53).
    { apply digits2_unique. rewrite Hv.
      replace (2 ^ (53 - 1)) with (2 ^ (d - 1) * 2 ^ (53 - d))
        by (rewrite <- Z.pow_add_r by lia; f_equal; lia).
      replace (2 ^ 53) with (2 ^ d * 2 ^ (53 - d))
        by (rewrite <- Z.pow_add_r by lia; f_equal; lia).
      assert (0 < 2 ^ (53 - d)) by (apply Z.pow_pos_nonneg; lia).
      nia. }
    rewrite round_aux_short by lia.
    rewrite <- Hv. reflexivity.
Qed.

(** A longer integer is rounded to 53 bits. *)
Lemma of_int_round (N : positive) :
  let n := Zpos (digits2_pos N) - 53 in
  0 < n -> n <= 970 ->
  PyFloat.of_int (Zpos N) =
  Ok (if rne (Zpos N) n <? 2 ^ 53
      then S754_finite false (Z.to_pos (rne (Zpos N) n)) n
      else S754_finite false (Z.to_pos (2 ^ 52)) (n + 1)).
Proof.
  intros n Hn Hhi. unfold PyFloat.of_int, binary_normalize, binary_round.
  unfold shl_align, PyFloat.prec, PyFloat.emax.
  replace (fexp 53 1024 (Zpos (digits2_pos N) + 0)) with n
    by (unfold fexp, emin, n; lia).
  destruct (n - 0) as [| q | q] eqn:Hq; try lia.
  rewrite round_aux_long by (fold n; lia). fold n.
  replace (0 + n) with n by lia.
  destruct (rne (Zpos N) n <? 2 ^ 53); reflexivity.
Qed.

Lemma of_int_finite (n : Z) :
  0 < n < 2 ^ 900 ->
  exists (p : positive) (e : Z), PyFloat.of_int n = Ok (S754_finite false p e).
Proof.
  intros [H0 H1]. destruct n as [| N | N]; try lia.
  pose proof (digits_range N 0 900 ltac:(lia) ltac:(split; [lia | lia])) as Hd.
  destruct (Z_le_gt_dec (Zpos (digits2_pos N)) 53).
  - rewrite of_int_exact by assumption. eauto.
  - rewrite of_int_round by lia.
    destruct (rne (Zpos N) (Zpos (digits2_pos N) - 53) <? 2 ^ 53); eauto.
Qed.

(** [x * 0.90] truncated, for a double [x] with a full mantissa: the
    product of the mantissas has 105 or 106 bits, of which 53 are kept. *)
Lemma to_int_mul_0_90 (mN : positive) (eN : Z) :
  2 ^ 52 <= Zpos mN < 2 ^ 53 -> -1000 <= eN <= 900 ->
  let P := Zpos mN * 8106479329266893 in
  exists n : Z,
    (n = 52 \/ n = 53) /\
    2 ^ (n + 52) <= P < 2 ^ (n + 53) /\
    PyFloat.to_int (PyFloat.mul (S754_finite false mN eN) PyFloat.lit_0_90) =
    Ok (fl (rne P n) (eN - 53 + n)).
Proof.
  intros Hm He P.
  set (p := (mN * 8106479329266893)%positive).
  assert (HP : Zpos p = P) by reflexivity.
  assert (Hr : 2 ^ 104 <= Zpos p < 2 ^ 106) by (rewrite HP; unfold P; lia).
  pose proof (digits_range p 104 106 ltac:(lia) Hr) as Hd.
  pose proof (digits2_bounds p) as Hb.
  exists (Zpos (digits2_pos p) - 53).
  split; [lia |]. split.
  - rewrite <- HP.
    replace (Zpos (digits2_pos p) - 53 + 52) with (Zpos (digits2_pos p) - 1) by lia.
    replace (Zpos (digits2_pos p) - 53 + 53) with (Zpos (digits2_pos p)) by lia.
    assumption.
  - unfold PyFloat.mul, PyFloat.lit_0_90, SFmul. cbn [xorb].
    fold p. unfold PyFloat.prec, PyFloat.emax.
    rewrite to_int_round_long by lia.
    rewrite HP. reflexivity.
Qed.

(** The mantissa of [float(N)] for [N] of at most 53 bits. *)
Lemma full_mantissa (N : positive) :
  let d := Zpos (digits2_pos N) in
  d <= 53 -> 2 ^ 52 <= Zpos N * 2 ^ (53 - d) < 2 ^ 53.
Proof.
  intros d Hd. pose proof (digits2_bounds N) as Hb. fold d in Hb.
  assert (0 < d) by (unfold d; lia).
  assert (0 < 2 ^ (53 - d)) by (apply Z.pow_pos_nonneg; lia).
  replace (2 ^ 52) with (2 ^ (d - 1) * 2 ^ (53 - d))
    by (rewrite <- Z.pow_add_r by lia; f_equal; lia).
  replace (2 ^ 53) with (2 ^ d * 2 ^ (53 - d))
    by (rewrite <- Z.pow_add_r by lia; f_equal; lia).
  nia.
Qed.

(** Below 2^50 the product is rounded by less than the distance of nine
    tenths of [N] to the next integer. *)
Lemma int_mul_0_90_below_2_50 (N : positive) :
  Zpos N < 1250999896491804 ->
  int_mul_0_90 (Zpos N) = Ok (9 * Zpos N / 10).
Proof.
  intros HN.
  set (d := Zpos (digits2_pos N)).
  pose proof (digits_range N 0 51 ltac:(lia) ltac:(split; [lia | lia])) as Hd.
  fold d in Hd.
  pose proof (full_mantissa N ltac:(fold d; lia)) as HmN. fold d in HmN.
  set (t := 53 - d) in *. set (A := 2 ^ t) in *.
  assert (HA : 0 < A) by (apply Z.pow_pos_nonneg; lia).
  unfold int_mul_0_90. rewrite of_int_exact by (fold d; lia). fold d t A.
  destruct (to_int_mul_0_90 (Z.to_pos (Zpos N * A)) (d - 53)
              ltac:(rewrite Z2Pos.id by lia; exact HmN) ltac:(lia))
    as (n & Hn & HP & Hres).
  rewrite Hres. f_equal. rewrite Z2Pos.id in * by lia.
  set (P := Zpos N * A * 8106479329266893) in *.
  set (j := 9 * Zpos N / 10).
  assert (Hj : 10 * j <= 9 * Zpos N < 10 * j + 10).
  { unfold j. pose proof (Z.div_mod (9 * Zpos N) 10 ltac:(lia)).
    pose proof (Z.mod_pos_bound (9 * Zpos N) 10 ltac:(lia)). lia. }
  assert (HjA : 10 * j * A <= 9 * Zpos N * A /\
                (9 * Zpos N + 1) * A <= (10 * j + 10) * A) by nia.
  pose proof (rne_bounds P n ltac:(unfold P; lia) ltac:(lia)) as (Hq & Hup & _).
  rewrite fl_neg by lia.
  replace (- (d - 53 - 53 + n)) with (t + 53 - n) by (unfold t; lia).
  assert (HdA : (t >= 3 /\ 8 <= A) \/ (t = 2 /\ A = 4)).
  { destruct (Z_le_gt_dec 3 t) as [H3 | H3].
    - left. split; [lia |]. change 8 with (2 ^ 3). apply Z.pow_le_mono_r; lia.
    - right. assert (t = 2) by (unfold t in *; lia). split; [assumption |].
      unfold A. now replace t with 2. }
  assert (Hqlow : j * (2 ^ 53 * A) <= P) by (unfold P; lia).
  destruct Hn as [-> | ->].
  - (* the product has 105 bits *)
    replace (t + 53 - 52) with (t + 1) by lia.
    assert (HB : 2 ^ (t + 1) = 2 * A)
      by (unfold A; rewrite Z.pow_add_r by (unfold t; lia); lia).
    rewrite HB. change (2 ^ (52 - 1)) with (2 ^ 51) in Hup.
    apply div_pow2_eq; [lia |]. split.
    + assert (j * (2 * A) <= P / 2 ^ 52); [| lia].
      apply Z.div_le_lower_bound; lia.
    + assert (2 ^ 52 * rne P 52 < 2 ^ 52 * ((j + 1) * (2 * A))); [| lia].
      unfold P in *. destruct HdA as [[_ H8] | [_ H4]]; lia.
  - (* the product has 106 bits *)
    replace (t + 53 - 53) with t by lia. fold A.
    change (2 ^ (53 - 1)) with (2 ^ 52) in Hup.
    destruct HdA as [[_ H8] | [Ht H4]].
    + apply div_pow2_eq; [lia |]. split.
      * assert (j * A <= P / 2 ^ 53); [| lia].
        apply Z.div_le_lower_bound; lia.
      * assert (2 ^ 53 * rne P 53 < 2 ^ 53 * ((j + 1) * A)); [| lia].
        unfold P in *. lia.
    + (* N * 0.90 would reach 2^50 *)
      exfalso. unfold P in *. rewrite H4 in *.
      change (2 ^ (53 + 52)) with (2 ^ 105) in HP. lia.
Qed.

(** [int(N * 0.90)] is the integer part of nine tenths of [N] for every
    size below [n_train_bound]. *)
Lemma int_mul_0_90_exact (N : Z) :
  0 <= N < n_train_bound -> int_mul_0_90 N = Ok (9 * N / 10).
Proof.
  unfold n_train_bound. intros [H0 HN].
  destruct (Z_lt_le_dec N 1250999896491804) as [Hlt | Hge].
  - destruct N as [| p | p]; [reflexivity | | lia].
    now apply int_mul_0_90_below_2_50.
  - assert (HN7 : N = 1250999896491804 \/ N = 1250999896491805 \/
                  N = 1250999896491806 \/ N = 1250999896491807 \/
                  N = 1250999896491808 \/ N = 1250999896491809 \/
                  N = 1250999896491810) by lia.
    repeat (destruct HN7 as [-> | HN7]; [vm_compute; reflexivity |]).
    subst N. vm_compute. reflexivity.
Qed.

(** At [n_train_bound] the product is rounded up to the next integer. *)
Lemma int_mul_0_90_at_bound :
  int_mul_0_90 n_train_bound = Ok (9 * n_train_bound / 10 + 1).
Proof. vm_compute. reflexivity. Qed.

(** Below 2^53 the integer converts exactly and the product stays below. *)
Lemma int_mul_0_90_lt_exact (N : positive) :
  Zpos (digits2_pos N) <= 53 ->
  exists n : Z,
    int_mul_0_90 (Zpos N) = Ok n /\ 0 <= n < Zpos N /\ (2 <= Zpos N -> 1 <= n).
Proof.
  intros Hd53.
  pose proof (full_mantissa N Hd53) as HmN.
  set (d := Zpos (digits2_pos N)) in *.
  assert (Hd : 0 < d) by (unfold d; lia).
  set (t := 53 - d) in *. set (A := 2 ^ t) in *.
  assert (HA : 0 < A) by (apply Z.pow_pos_nonneg; unfold t; lia).
  unfold int_mul_0_90. rewrite of_int_exact by (fold d; lia). fold d t A.
  destruct (to_int_mul_0_90 (Z.to_pos (Zpos N * A)) (d - 53)
              ltac:(rewrite Z2Pos.id by lia; exact HmN) ltac:(lia))
    as (n & Hn & HP & Hres).
  rewrite Hres. eexists. split; [reflexivity |].
  rewrite Z2Pos.id in * by lia.
  set (P := Zpos N * A * 8106479329266893) in *.
  pose proof (rne_bounds P n ltac:(unfold P; lia) ltac:(lia)) as (Hq & Hup & _).
  assert (Hq52 : 2 ^ 52 <= P / 2 ^ n).
  { apply Z.div_le_lower_bound; [apply Z.pow_pos_nonneg; lia |].
    rewrite <- Z.pow_add_r by lia. apply HP. }
  assert (HA2 : 2 <= Zpos N -> 2 * A <= 2 ^ 52).
  { intros H2. assert (2 <= d).
    { pose proof (digits_range N 1 d ltac:(lia)
                    ltac:(split; [change (2 ^ 1) with 2; lia
                                 | apply (digits2_bounds N)])). lia. }
    unfold A. rewrite <- pow2_succ by (unfold t; lia).
    apply Z.pow_le_mono_r; unfold t; lia. }
  rewrite fl_neg by lia.
  replace (- (d - 53 - 53 + n)) with (t + 53 - n) by (unfold t; lia).
  destruct Hn as [-> | ->].
  - replace (t + 53 - 52) with (t + 1) by lia.
    rewrite pow2_succ by (unfold t; lia). fold A.
    change (2 ^ (52 - 1)) with (2 ^ 51) in Hup.
    split; [split |].
    + apply Z.div_pos; lia.
    + apply Z.div_lt_upper_bound; [lia |].
      assert (2 ^ 52 * rne P 52 < 2 ^ 52 * (2 * A * Zpos N)); [| lia].
      unfold P in *. lia.
    + intros H2. specialize (HA2 H2).
      apply Z.div_le_lower_bound; lia.
  - replace (t + 53 - 53) with t by lia. fold A.
    change (2 ^ (53 - 1)) with (2 ^ 52) in Hup.
    split; [split |].
    + apply Z.div_pos; lia.
    + apply Z.div_lt_upper_bound; [lia |].
      assert (2 ^ 53 * rne P 53 < 2 ^ 53 * (A * Zpos N)); [| lia].
      unfold P in *. lia.
    + intros H2. specialize (HA2 H2).
      apply Z.div_le_lower_bound; lia.
Qed.

(** From 2^53 on the integer is rounded first; the two roundings together
    add less than a tenth. *)
Lemma int_mul_0_90_lt_round (N : positive) :
  53 < Zpos (digits2_pos N) <= 900 ->
  exists n : Z, int_mul_0_90 (Zpos N) = Ok n /\ 1 <= n < Zpos N.
Proof.
  intros Hd.
  set (n1 := Zpos (digits2_pos N) - 53).
  assert (Hn1 : 0 < n1 <= 847) by (unfold n1; lia).
  set (C' := 2 ^ (n1 - 1)).
  assert (HC' : 0 < C') by (apply Z.pow_pos_nonneg; lia).
  assert (HC : 2 ^ n1 = 2 * C')
    by (unfold C'; rewrite <- pow2_succ by lia; f_equal; lia).
  pose proof (digits2_bounds N) as Hb.
  assert (HNlow : 2 ^ 53 * C' <= Zpos N).
  { replace (Zpos (digits2_pos N) - 1) with (53 + (n1 - 1)) in Hb by (unfold n1; lia).
    rewrite Z.pow_add_r in Hb by lia. fold C' in Hb. lia. }
  pose proof (rne_bounds (Zpos N) n1 ltac:(lia) ltac:(lia)) as (Hq1 & Hup1 & _).
  fold C' in Hup1. rewrite HC in Hup1.
  assert (Hq52 : 2 ^ 52 <= Zpos N / 2 ^ n1).
  { apply Z.div_le_lower_bound; [rewrite HC; lia |]. rewrite HC. lia. }
  set (M1 := rne (Zpos N) n1) in *.
  unfold int_mul_0_90. rewrite of_int_round by (fold n1; lia). fold n1 M1.
  destruct (M1 <? 2 ^ 53) eqn:Hlt.
  - apply Z.ltb_lt in Hlt.
    destruct (to_int_mul_0_90 (Z.to_pos M1) n1
                ltac:(rewrite Z2Pos.id by lia; lia) ltac:(lia))
      as (n & Hn & HP & Hres).
    rewrite Hres. eexists. split; [reflexivity |].
    rewrite Z2Pos.id in * by lia.
    set (P := M1 * 8106479329266893) in *.
    pose proof (rne_bounds P n ltac:(unfold P; lia) ltac:(lia)) as (Hq & Hup & _).
    assert (2 ^ 52 <= P / 2 ^ n).
    { apply Z.div_le_lower_bound; [apply Z.pow_pos_nonneg; lia |].
      rewrite <- Z.pow_add_r by lia. apply HP. }
    rewrite fl_pos by lia.
    destruct Hn as [-> | ->].
    + replace (n1 - 53 + 52) with (n1 - 1) by lia. fold C'.
      change (2 ^ (52 - 1)) with (2 ^ 51) in Hup.
      split; [nia |].
      assert (2 ^ 52 * rne P 52 * C' <= (P + 2 ^ 51) * C') by nia.
      assert (2 * C' * M1 * 8106479329266893 <=
              (Zpos N + C') * 8106479329266893) by nia.
      unfold P in *. nia.
    + replace (n1 - 53 + 53) with n1 by lia. rewrite HC.
      change (2 ^ (53 - 1)) with (2 ^ 52) in Hup.
      split; [nia |].
      assert (2 ^ 53 * rne P 53 * (2 * C') <= (P + 2 ^ 52) * (2 * C')) by nia.
      assert (2 * C' * M1 * 8106479329266893 <=
              (Zpos N + C') * 8106479329266893) by nia.
      unfold P in *. nia.
  - apply Z.ltb_ge in Hlt.
    destruct (to_int_mul_0_90 (Z.to_pos (2 ^ 52)) (n1 + 1)
                ltac:(cbn; lia) ltac:(lia))
      as (n & Hn & HP & Hres).
    rewrite Hres. eexists. split; [reflexivity |].
    change (Zpos (Z.to_pos (2 ^ 52))) with (2 ^ 52) in *.
    set (P := 2 ^ 52 * 8106479329266893) in *.
    pose proof (rne_bounds P n ltac:(unfold P; lia) ltac:(lia)) as (Hq & Hup & _).
    assert (2 ^ 52 <= P / 2 ^ n).
    { apply Z.div_le_lower_bound; [apply Z.pow_pos_nonneg; lia |].
      rewrite <- Z.pow_add_r by lia. apply HP. }
    rewrite fl_pos by lia.
    destruct Hn as [-> | ->].
    + replace (n1 + 1 - 53 + 52) with n1 by lia. rewrite HC.
      change (2 ^ (52 - 1)) with (2 ^ 51) in Hup.
      split; [nia |].
      assert (2 ^ 52 * rne P 52 * (2 * C') <= (P + 2 ^ 51) * (2 * C')) by nia.
      unfold P in *. nia.
    + exfalso. unfold P in HP. change (2 ^ (53 + 52)) with (2 ^ 105) in HP. lia.
Qed.

(** [int(N * 0.90)] is below [N] for every size of a sequence, and at least
    one from two examples on. *)
Lemma int_mul_0_90_lt (N : Z) :
  1 <= N < 2 ^ 900 ->
  exists n : Z, int_mul_0_90 N = Ok n /\ 0 <= n < N /\ (2 <= N -> 1 <= n).
Proof.
  intros [H1 H2]. destruct N as [| p | p]; try lia.
  pose proof (digits_range p 0 900 ltac:(lia) ltac:(split; [lia | lia])) as Hd.
  destruct (Z_le_gt_dec (Zpos (digits2_pos p)) 53).
  - now apply int_mul_0_90_lt_exact.
  - destruct (int_mul_0_90_lt_round p ltac:(lia)) as (n & Hn & Hb).
    exists n. split; [assumption |]. lia.
Qed.

(** ** Lists *)

Lemma mapM_ok {A B : Type} (f : A -> result B) (g : A -> B) (l : list A) :
  (forall a, In a l -> f a = Ok (g a)) -> mapM f l = Ok (map g l).
Proof.
  induction l as [| a l IH]; intros Hf; cbn [mapM map]; [reflexivity |].
  rewrite (Hf a (or_introl eq_refl)), IH; [reflexivity |].
  intros b Hb. apply Hf. now right.
Qed.

Lemma getitem_ok {A : Type} (l : list A) (i : nat) (d : A) :
  (i < length l)%nat -> getitem l i = Ok (nth i l d).
Proof.
  intros Hi. unfold getitem. now rewrite (nth_error_nth' l d Hi).
Qed.

Lemma map_nth_seq {A : Type} (l : list A) (d : A) :
  map (fun i => nth i l d) (seq 0 (length l)) = l.
Proof.
  induction l as [| a l IH]; [reflexivity |].
  cbn [length seq map nth]. f_equal.
  rewrite <- seq_shift, map_map. exact IH.
Qed.

Lemma map_nth_seq_skipn {A : Type} (l : list A) (d : A) (a : nat) :
  map (fun i => nth i l d) (seq a (length l - a)) = skipn a l.
Proof.
  revert a. induction l as [| x l IH]; intros a.
  - cbn [length]. now destruct a.
  - destruct a as [| a].
    + rewrite Nat.sub_0_r. apply (map_nth_seq (x :: l)).
    + cbn [length skipn]. rewrite <- (IH a).
      replace (S (length l) - S a)%nat with (length l - a)%nat by lia.
      rewrite <- seq_shift, map_map. reflexivity.
Qed.

Lemma split_pairs {A B C : Type} (f : A -> B) (g : A -> C) (l : list A) :
  split (map (fun a => (f a, g a)) l) = (map f l, map g l).
Proof.
  induction l as [| a l IH]; [reflexivity |].
  cbn [map split]. now rewrite IH.
Qed.

Lemma firstn_seq (k s n : nat) : (k <= n)%nat -> firstn k (seq s n) = seq s k.
Proof.
  revert s n. induction k as [| k IH]; intros s n Hk; [reflexivity |].
  destruct n as [| n]; [lia |]. cbn [seq firstn]. f_equal. apply IH. lia.
Qed.

Lemma slice_to_range (N n : Z) :
  0 <= n <= N -> slice_to (range N) n = seq 0 (Z.to_nat n).
Proof.
  intros Hn. unfold slice_to, slice_bound, range.
  replace (n <? 0) with false by (symmetry; apply Z.ltb_ge; lia).
  apply firstn_seq. lia.
Qed.

Lemma slice_from_range (N n : Z) :
  0 <= n <= N ->
  slice_from (range N) n = seq (Z.to_nat n) (Z.to_nat N - Z.to_nat n).
Proof.
  intros Hn. unfold slice_from, slice_bound, range.
  replace (n <? 0) with false by (symmetry; apply Z.ltb_ge; lia).
  now rewrite skipn_seq.
Qed.

Lemma div_succ (k s : Z) :
  0 <= k -> 0 < s ->
  (k + 1) / s = if (k + 1) mod s =? 0 then k / s + 1 else k / s.
Proof.
  intros Hk Hs.
  pose proof (Z.div_mod k s ltac:(lia)) as Hdk.
  pose proof (Z.mod_pos_bound k s Hs) as Hmk.
  pose proof (Z.div_mod (k + 1) s ltac:(lia)) as Hd1.
  pose proof (Z.mod_pos_bound (k + 1) s Hs) as Hm1.
  destruct ((k + 1) mod s =? 0) eqn:E.
  - apply Z.eqb_eq in E. nia.
  - apply Z.eqb_neq in E. nia.
Qed.

(** ** Samplers and loaders *)

Section Loaders.
Context {T : Type} `{Torch T}.

Lemma BatchSampler_concat (bs : nat) (l batch : list nat) :
  concat (BatchSampler bs batch l) = batch ++ l.
Proof.
  revert batch. induction l as [| idx l IH]; intros batch; cbn [BatchSampler].
  - destruct batch; cbn [concat]; [reflexivity |].
    now rewrite !app_nil_r.
  - destruct (Nat.eqb (length (batch ++ [idx])) bs).
    + cbn [concat]. rewrite IH. cbn [app]. now rewrite <- app_assoc.
    + rewrite IH. now rewrite <- app_assoc.
Qed.

Lemma BatchSampler_sizes (bs : nat) (l batch : list nat) :
  (length batch < bs)%nat ->
  Forall (fun b => 0 < length b <= bs)%nat (BatchSampler bs batch l).
Proof.
  revert batch. induction l as [| idx l IH]; intros batch Hb; cbn [BatchSampler].
  - destruct batch as [| i batch]; [constructor |].
    constructor; [cbn [length] in *; lia | constructor].
  - destruct (Nat.eqb (length (batch ++ [idx])) bs) eqn:E.
    + apply Nat.eqb_eq in E. constructor.
      * rewrite E. rewrite length_app in E. cbn [length] in E. lia.
      * apply IH. cbn [length]. lia.
    + apply Nat.eqb_neq in E. apply IH.
      rewrite length_app in *. cbn [length] in *. lia.
Qed.

Lemma sampled_perm (g : Generator) (indices : list nat) :
  Permutation (sampled g indices) indices.
Proof.
  unfold sampled.
  pose proof (Permutation_map (fun i => nth i indices 0%nat)
                (randperm_perm g (length indices))) as Hp.
  now rewrite map_nth_seq in Hp.
Qed.

Lemma Sampler_iter_subset (g : Generator) (indices : list nat) :
  Sampler_iter (SubsetRandomSampler indices) g =
  Ok (sampled g indices, snd (randperm g (length indices))).
Proof.
  unfold Sampler_iter, sampled.
  pose proof (randperm_perm g (length indices)) as Hp.
  destruct (randperm g (length indices)) as [perm g']. cbn [fst snd] in *.
  rewrite (mapM_ok _ (fun i => nth i indices 0%nat)); [reflexivity |].
  intros i Hi. apply getitem_ok.
  apply (Permutation_in _ Hp) in Hi. apply in_seq in Hi. lia.
Qed.

Lemma fetch_ok (d : MyDataset T) (idxs : list nat) :
  in_dataset d idxs -> fetch d idxs = Ok (collate d idxs).
Proof.
  intros Hin. unfold fetch, collate.
  rewrite (mapM_ok _ (fun i => (nth i (data (inputs d)) [],
                                nth i (data (labels d)) []))).
  - now rewrite split_pairs.
  - intros i Hi. destruct (Hin i Hi) as [Hx Hy]. unfold MyDataset_getitem.
    now rewrite (getitem_ok _ _ [] Hx), (getitem_ok _ _ [] Hy).
Qed.

Lemma in_dataset_batch (d : MyDataset T) (bs : nat) (l b : list nat) :
  in_dataset d l -> In b (BatchSampler bs [] l) -> in_dataset d b.
Proof.
  intros Hl Hb i Hi. apply Hl.
  rewrite <- (app_nil_l l), <- (BatchSampler_concat bs l []).
  apply in_concat. now exists b.
Qed.

(** A pass of a loader with a subset sampler over indices of its data set
    never raises. *)
Lemma DataLoader_iter_subset (d : MyDataset T) (bs : nat) (indices : list nat)
  (g : Generator) :
  in_dataset d indices ->
  DataLoader_iter {| dl_dataset := d; dl_batch_size := bs;
                     dl_sampler := SubsetRandomSampler indices |} g =
  Ok (pass d bs g indices, snd (randperm g (length indices))).
Proof.
  intros Hin. unfold DataLoader_iter, bind, lift. cbn [dl_sampler dl_dataset dl_batch_size].
  rewrite Sampler_iter_subset.
  rewrite (mapM_ok _ (collate d)); [reflexivity |].
  intros b Hb. apply fetch_ok.
  apply (in_dataset_batch d bs (sampled g indices)); [| assumption].
  intros i Hi. apply Hin. exact (Permutation_in _ (sampled_perm g indices) Hi).
Qed.

(** A pass of a loader without a sampler yields the data set in order. *)
Lemma DataLoader_iter_sequential (d : MyDataset T) (bs : nat) (g : Generator) :
  (length (data (inputs d)) <= length (data (labels d)))%nat ->
  DataLoader_iter {| dl_dataset := d; dl_batch_size := bs;
                     dl_sampler := SequentialSampler d |} g =
  Ok (map (collate d) (BatchSampler bs [] (seq 0 (length (data (inputs d))))), g).
Proof.
  intros Hlen. unfold DataLoader_iter, bind, lift.
  cbn [dl_sampler dl_dataset dl_batch_size Sampler_iter]. unfold ret.
  unfold range, MyDataset_len, len. rewrite Nat2Z.id.
  rewrite (mapM_ok _ (collate d)); [reflexivity |].
  intros b Hb. apply fetch_ok.
  apply (in_dataset_batch d bs (seq 0 (length (data (inputs d))))); [| assumption].
  intros i Hi. apply in_seq in Hi. lia.
Qed.

Lemma concat_collate_fst (d : MyDataset T) (bl : list (list nat)) :
  concat (map fst (map (collate d) bl)) = fst (collate d (concat bl)).
Proof.
  induction bl as [| b bl IH]; [reflexivity |].
  cbn [map concat]. rewrite IH. unfold collate. cbn [fst].
  now rewrite map_app.
Qed.

Lemma examples_cons (b : list (list T) * list (list Z)) batches :
  examples (b :: batches) = len (fst b) + examples batches.
Proof. unfold examples, len. cbn [map concat]. rewrite length_app. lia. Qed.

Lemma pass_examples (d : MyDataset T) (bs : nat) (g : Generator)
  (indices : list nat) :
  examples (pass d bs g indices) = len indices.
Proof.
  unfold examples, pass, len. rewrite concat_collate_fst, BatchSampler_concat.
  unfold collate. cbn [fst app]. rewrite length_map.
  now rewrite (Permutation_length (sampled_perm g indices)).
Qed.

(** The examples of a pass are those at the indices, in some order. *)
Lemma pass_inputs (d : MyDataset T) (bs : nat) (g : Generator)
  (indices : list nat) :
  Permutation (concat (map fst (pass d bs g indices)))
              (map (fun i => nth i (data (inputs d)) []) indices).
Proof.
  unfold pass. rewrite concat_collate_fst, BatchSampler_concat.
  unfold collate. cbn [fst app]. apply Permutation_map, sampled_perm.
Qed.

Lemma pass_sizes (d : MyDataset T) (bs : nat) (g : Generator)
  (indices : list nat) :
  (0 < bs)%nat ->
  Forall (fun b => 0 < len (fst b) <= Z.of_nat bs) (pass d bs g indices).
Proof.
  intros Hbs. unfold pass. apply Forall_map.
  eapply Forall_impl; [| apply BatchSampler_sizes; cbn [length]; exact Hbs].
  intros b Hb. cbv beta in Hb. unfold collate, len. cbn [fst].
  rewrite length_map. lia.
Qed.

Lemma pass_nonempty (d : MyDataset T) (bs : nat) (g : Generator)
  (indices : list nat) :
  indices <> [] -> pass d bs g indices <> [].
Proof.
  intros Hne Hp. apply Hne.
  pose proof (pass_examples d bs g indices) as He. rewrite Hp in He.
  unfold examples, len in He. cbn in He. destruct indices; [reflexivity |].
  cbn [length] in He. lia.
Qed.

Lemma pass_nil (d : MyDataset T) (bs : nat) (g : Generator) : pass d bs g [] = [].
Proof.
  unfold pass.
  now rewrite (Permutation_nil (Permutation_sym (sampled_perm g []))).
Qed.

End Loaders.

(** ** The methods *)

Section Methods.
Context {T : Type} `{Torch T} `{Auxiliary}.

(** A forward pass returns and leaves the model as it is. *)
Lemma forward_ok (m : FeatureMLP) (x : list (list T)) :
  forward x m = Ok (predict m x, m).
Proof.
  unfold predict, forward, bind, gets, ret.
  destruct (negb (only_feature_extraction m)); reflexivity.
Qed.

Lemma on_model_forward (w : World) (x : list (list T)) :
  on_model (forward x) w =
  Ok (predict (model (F_Net w)) x, with_model (model (F_Net w)) w).
Proof. unfold on_model. now rewrite forward_ok. Qed.

Lemma on_model_modify (f : FeatureMLP -> FeatureMLP) (m : FeatureMLP) (w : World) :
  on_model (modify f) (with_model m w) = Ok (tt, with_model (f m) w).
Proof. reflexivity. Qed.

(** Predictions are made row by row. *)
Lemma predict_app (m : FeatureMLP) (x1 x2 : list (list T)) :
  predict m (x1 ++ x2) = predict m x1 ++ predict m x2.
Proof.
  unfold predict, forward, bind, gets, ret.
  destruct (negb (only_feature_extraction m));
    unfold torch_sigmoid, F_relu, Linear_forward; now rewrite !map_app.
Qed.

Lemma predict_nil (m : FeatureMLP) : predict m [] = [].
Proof.
  unfold predict, forward, bind, gets, ret.
  destruct (negb (only_feature_extraction m)); reflexivity.
Qed.

Lemma round_int_predict_concat (m : FeatureMLP)
  (batches : list (list (list T) * list (list Z))) :
  concat (map (fun b => round_int (predict m (fst b))) batches) =
  round_int (predict m (concat (map fst batches))).
Proof.
  induction batches as [| b batches IH]; cbn [map concat].
  - now rewrite predict_nil.
  - rewrite IH, predict_app. unfold round_int. now rewrite map_app.
Qed.

Lemma py_iadd_tensor (acc : pyval T) (l : T) :
  py_iadd acc (PyTensor l) = Ok (tensor_acc acc l).
Proof. destruct acc; reflexivity. Qed.

Lemma fold_tensor_acc (ls : list T) (a : T) :
  fold_left tensor_acc ls (PyTensor a) = PyTensor (fold_left t_add ls a).
Proof.
  revert a. induction ls as [| l ls IH]; intros a; [reflexivity |].
  cbn [fold_left tensor_acc]. apply IH.
Qed.

(** *** [valid] *)

Lemma valid_loop (w : World) (m : FeatureMLP) batches loss t_size mean_f1 :
  for_each valid_body batches (loss, t_size, mean_f1) (with_model m w) =
  Ok ((fold_left tensor_acc (map (batch_loss m) batches) loss,
       t_size + examples batches,
       mean_f1 ++ map (batch_f1 m) batches), with_model m w).
Proof.
  revert loss t_size mean_f1.
  induction batches as [| [x y] batches IH]; intros loss t_size mean_f1.
  - cbn [for_each map fold_left]. unfold ret, examples, len. cbn.
    now rewrite Z.add_0_r, app_nil_r.
  - cbn [for_each]. unfold bind at 1. unfold valid_body at 1.
    unfold bind at 1. rewrite on_model_forward.
    unfold bind at 1. unfold lift at 1. rewrite py_iadd_tensor.
    unfold ret at 1.
    change (with_model (model (F_Net (with_model m w))) (with_model m w))
      with (with_model m w).
    change (model (F_Net (with_model m w))) with m.
    rewrite IH. rewrite examples_cons. cbn [map fold_left fst snd].
    unfold batch_loss, batch_f1. cbn [fst snd].
    rewrite <- app_assoc. cbn [app]. now rewrite Z.add_assoc.
Qed.

(** What [valid] returns, and the world it leaves, when the validation
    loader samples from a non-empty set of indices of its data set. *)
Lemma valid_ok (w : World) (d : MyDataset T) (bs : nat) (indices : list nat) :
  valid_loader (F_Net w) =
    {| dl_dataset := d; dl_batch_size := bs;
       dl_sampler := SubsetRandomSampler indices |} ->
  in_dataset d indices -> indices <> [] ->
  let m := set_training false (model (F_Net w)) in
  let batches := pass d bs (generator w) indices in
  exists (l1 : T) (ls : list T),
    map (batch_loss m) batches = l1 :: ls /\
    valid w =
    Ok ((t_item (t_div_int (fold_left t_add ls (t_add_int l1 0)) (len indices)),
         np_mean (map (batch_f1 m) batches)),
        with_model m
          (set_generator (snd (randperm (generator w) (length indices))) w)).
Proof.
  intros Hld Hin Hne m batches.
  pose proof (pass_nonempty d bs (generator w) indices Hne) as Hb.
  fold batches in Hb.
  destruct (map (batch_loss m) batches) as [| l1 ls] eqn:Hls.
  { destruct batches; [contradiction | discriminate]. }
  exists l1, ls. split; [reflexivity |].
  unfold valid. unfold bind at 1. unfold on_model at 1, Module_eval, modify.
  fold m. unfold bind at 1. unfold gets at 1.
  unfold bind at 1. unfold on_generator at 1.
  change (valid_loader (F_Net (set_F_Net (set_model m (F_Net w)) w)))
    with (valid_loader (F_Net w)).
  change (generator (set_F_Net (set_model m (F_Net w)) w)) with (generator w).
  rewrite Hld, (DataLoader_iter_subset d bs indices (generator w) Hin).
  fold batches.
  set (g' := snd (randperm (generator w) (length indices))).
  change (set_generator g' (set_F_Net (set_model m (F_Net w)) w))
    with (with_model m (set_generator g' w)).
  unfold bind at 1. rewrite valid_loop. cbn [app].
  rewrite Hls. cbn [fold_left tensor_acc]. rewrite fold_tensor_acc.
  pose proof (pass_examples d bs (generator w) indices) as He.
  fold batches in He. rewrite He.
  unfold bind, lift, ret. cbn [py_itruediv py_item].
  now rewrite Z.add_0_l.
Qed.

(** Without validation examples [valid] divides zero by zero. *)
Lemma valid_empty (w : World) (d : MyDataset T) (bs : nat) :
  valid_loader (F_Net w) =
    {| dl_dataset := d; dl_batch_size := bs;
       dl_sampler := SubsetRandomSampler [] |} ->
  valid w = Raise ZeroDivisionError.
Proof.
  intros Hld.
  unfold valid. unfold bind at 1. unfold on_model at 1, Module_eval, modify.
  unfold bind at 1. unfold gets at 1.
  unfold bind at 1. unfold on_generator at 1.
  set (m := set_training false (model (F_Net w))).
  change (valid_loader (F_Net (set_F_Net (set_model m (F_Net w)) w)))
    with (valid_loader (F_Net w)).
  change (generator (set_F_Net (set_model m (F_Net w)) w)) with (generator w).
  rewrite Hld, (DataLoader_iter_subset d bs [] (generator w));
    [| intros i []].
  rewrite pass_nil. reflexivity.
Qed.

(** *** [train] *)

Lemma sgd_step_eq (m : FeatureMLP) (x : list (list T)) (y : list (list Z)) :
  sgd_step m (x, y) =
  (fun m =>
     match grad m with
     | None => m
     | Some g =>
         let (p, s) := adam_update (lr (optimizer m)) (opt_state (optimizer m))
                                   (parameters m) g in
         set_parameters p s m
     end)
    ((fun m => set_grad (Some (accumulate_grad (grad m)
                 (autograd (parameters m) (only_feature_extraction m) x y))) m)
       (set_grad None m)).
Proof. reflexivity. Qed.

(** One iteration of the loop of [train]. *)
Lemma train_body_step (w : World) (m : FeatureMLP) (acc : pyval T)
  (t_size i : Z) (x : list (list T)) (y : list (list Z)) :
  train_body (acc, t_size) (i, (x, y)) (with_model m w) =
  match py_iadd acc (PyFloat (t_item (batch_loss (set_grad None m) (x, y)))) with
  | Ok acc' => Ok ((acc', t_size + len x), with_model (sgd_step m (x, y)) w)
  | Raise e => Raise e
  end.
Proof.
  unfold train_body.
  unfold bind at 1. unfold zero_grad. rewrite on_model_modify.
  unfold bind at 1. rewrite on_model_forward.
  change (model (F_Net (with_model (set_grad None m) w))) with (set_grad None m).
  change (with_model (set_grad None m) (with_model (set_grad None m) w))
    with (with_model (set_grad None m) w).
  unfold bind at 1. unfold lift at 1. unfold batch_loss. cbn [fst snd].
  destruct (py_iadd acc _) as [acc' | e]; [| reflexivity].
  unfold bind at 1. unfold backward. rewrite on_model_modify.
  unfold bind at 1. unfold optimizer_step. rewrite on_model_modify.
  unfold ret. now rewrite <- sgd_step_eq.
Qed.

Lemma train_loop (w : World) (batches : list (list (list T) * list (list Z)))
  (idx : list Z) (m : FeatureMLP) (a : PyFloat.float) (t_size : Z) :
  length idx = length batches ->
  for_each train_body (combine idx batches) (PyFloat a, t_size) (with_model m w) =
  Ok ((PyFloat (fold_left PyFloat.add (train_losses m batches) a),
       t_size + examples batches),
      with_model (fold_left sgd_step batches m) w).
Proof.
  revert idx m a t_size.
  induction batches as [| [x y] batches IH]; intros idx m a t_size Hlen.
  - destruct idx; [| discriminate]. cbn [combine for_each fold_left train_losses].
    unfold ret, examples, len. cbn. now rewrite Z.add_0_r.
  - destruct idx as [| i idx]; [discriminate |]. cbn [combine for_each].
    unfold bind at 1. rewrite train_body_step. cbn [py_iadd].
    rewrite IH by (cbn [length] in Hlen; lia).
    rewrite examples_cons. cbn [fold_left train_losses fst].
    now rewrite Z.add_assoc.
Qed.

(** What [train] returns, and the world it leaves, when the training
    loader samples from a non-empty set of indices of its data set. *)
Lemma train_ok (w : World) (d : MyDataset T) (bs : nat) (indices : list nat)
  (ep : Z) :
  train_loader (F_Net w) =
    {| dl_dataset := d; dl_batch_size := bs;
       dl_sampler := SubsetRandomSampler indices |} ->
  in_dataset d indices -> indices <> [] -> len indices < 2 ^ 900 ->
  let m := set_training true (model (F_Net w)) in
  let batches := pass d bs (generator w) indices in
  exists (fn l1 : PyFloat.float) (ls : list PyFloat.float),
    PyFloat.of_int (len indices) = Ok fn /\
    train_losses m batches = l1 :: ls /\
    train ep w =
    Ok (PyFloat (SFdiv PyFloat.prec PyFloat.emax
                   (fold_left PyFloat.add ls (PyFloat.add (S754_zero false) l1))
                   fn),
        with_model (fold_left sgd_step batches m)
          (set_generator (snd (randperm (generator w) (length indices))) w)).
Proof.
  intros Hld Hin Hne Hlen m batches.
  pose proof (pass_nonempty d bs (generator w) indices Hne) as Hb.
  pose proof (pass_examples d bs (generator w) indices) as He.
  fold batches in Hb, He.
  assert (Hpos : 0 < len indices).
  { unfold len. destruct indices; [contradiction | cbn [length]; lia]. }
  destruct (of_int_finite (len indices) (conj Hpos Hlen)) as (p & e & Hfn).
  destruct batches as [| [x y] rest] eqn:Hbs; [contradiction |].
  exists (S754_finite false p e), (t_item (batch_loss (set_grad None m) (x, y))),
    (train_losses (sgd_step m (x, y)) rest).
  split; [assumption |]. split; [reflexivity |].
  unfold train. unfold bind at 1. unfold on_model at 1, Module_train, modify.
  fold m. unfold bind at 1. unfold gets at 1.
  unfold bind at 1. unfold on_generator at 1.
  change (train_loader (F_Net (set_F_Net (set_model m (F_Net w)) w)))
    with (train_loader (F_Net w)).
  change (generator (set_F_Net (set_model m (F_Net w)) w)) with (generator w).
  rewrite Hld, (DataLoader_iter_subset d bs indices (generator w) Hin).
  fold batches. rewrite Hbs.
  set (g' := snd (randperm (generator w) (length indices))).
  change (set_generator g' (set_F_Net (set_model m (F_Net w)) w))
    with (with_model m (set_generator g' w)).
  unfold enumerate. cbn [length seq map combine for_each].
  unfold bind at 1. unfold bind at 1. rewrite train_body_step.
  cbn [py_iadd PyFloat.of_int binary_normalize].
  rewrite train_loop by (now rewrite length_map, length_seq).
  rewrite examples_cons in He. cbn [fst] in He.
  replace (0 + len x + examples rest) with (len indices) by lia.
  unfold bind, lift, ret. cbn [py_itruediv].
  replace (len indices =? 0) with false by (symmetry; apply Z.eqb_neq; lia).
  rewrite Hfn. reflexivity.
Qed.

(** Without training examples [train] divides zero by zero. *)
Lemma train_empty (w : World) (d : MyDataset T) (bs : nat) (ep : Z) :
  train_loader (F_Net w) =
    {| dl_dataset := d; dl_batch_size := bs;
       dl_sampler := SubsetRandomSampler [] |} ->
  train ep w = Raise ZeroDivisionError.
Proof.
  intros Hld.
  unfold train. unfold bind at 1. unfold on_model at 1, Module_train, modify.
  unfold bind at 1. unfold gets at 1.
  unfold bind at 1. unfold on_generator at 1.
  set (m := set_training true (model (F_Net w))).
  change (train_loader (F_Net (set_F_Net (set_model m (F_Net w)) w)))
    with (train_loader (F_Net w)).
  change (generator (set_F_Net (set_model m (F_Net w)) w)) with (generator w).
  rewrite Hld, (DataLoader_iter_subset d bs [] (generator w));
    [| intros i []].
  rewrite pass_nil. reflexivity.
Qed.

(** *** [test] *)

Lemma test_loop (w : World) (m : FeatureMLP) batches outputs loss t_size :
  for_each test_body batches (outputs, loss, t_size) (with_model m w) =
  Ok ((outputs ++ map (fun b => round_int (predict m (fst b))) batches,
       fold_left tensor_acc (map (batch_loss m) batches) loss,
       t_size + examples batches), with_model m w).
Proof.
  revert outputs loss t_size.
  induction batches as [| [x y] batches IH]; intros outputs loss t_size.
  - cbn [for_each map fold_left]. unfold ret, examples, len. cbn.
    now rewrite Z.add_0_r, app_nil_r.
  - cbn [for_each]. unfold bind at 1. unfold test_body at 1.
    unfold bind at 1. rewrite on_model_forward.
    unfold bind at 1. unfold lift at 1. rewrite py_iadd_tensor.
    unfold ret at 1.
    change (with_model (model (F_Net (with_model m w))) (with_model m w))
      with (with_model m w).
    change (model (F_Net (with_model m w))) with m.
    rewrite IH. rewrite examples_cons. cbn [map fold_left fst snd].
    unfold batch_loss. cbn [fst snd].
    rewrite <- app_assoc. cbn [app]. now rewrite Z.add_assoc.
Qed.

(** What [test] returns on the batches its loader yields. *)
Lemma test_ok (w : World) (test_loader : DataLoader T) (test_labels : ndarray Z)
  (batches : list (list (list T) * list (list Z))) (g' : Generator) :
  DataLoader_iter test_loader (generator w) = Ok (batches, g') ->
  batches <> [] ->
  let m := set_training false (model (F_Net w)) in
  exists (l1 : T) (ls : list T),
    map (batch_loss m) batches = l1 :: ls /\
    test test_loader test_labels w =
    Ok ((PyTensor (t_div_int (fold_left t_add ls (t_add_int l1 0))
                             (examples batches)),
         compute_f1_score (data test_labels)
           (concat (map (fun b => round_int (predict m (fst b))) batches))),
        with_model m (set_generator g' w)).
Proof.
  intros Hit Hne m.
  destruct (map (batch_loss m) batches) as [| l1 ls] eqn:Hls.
  { destruct batches; [contradiction | discriminate]. }
  exists l1, ls. split; [reflexivity |].
  unfold test. unfold bind at 1. unfold on_model at 1, Module_eval, modify.
  fold m. unfold bind at 1. unfold on_generator at 1.
  change (generator (set_F_Net (set_model m (F_Net w)) w)) with (generator w).
  rewrite Hit.
  change (set_generator g' (set_F_Net (set_model m (F_Net w)) w))
    with (with_model m (set_generator g' w)).
  unfold bind at 1. rewrite test_loop. cbn [app].
  rewrite Hls. cbn [fold_left tensor_acc]. rewrite fold_tensor_acc.
  unfold bind, lift, ret. cbn [py_itruediv].
  rewrite Z.add_0_l.
  destruct batches as [| b batches']; [contradiction |].
  reflexivity.
Qed.

(** *** Frames: what the methods leave alone *)

Lemma lr_sgd_step (m : FeatureMLP) (b : list (list T) * list (list Z)) :
  lr (optimizer (sgd_step m b)) = lr (optimizer m).
Proof.
  destruct b as [x y]. rewrite sgd_step_eq. cbn [grad set_grad].
  destruct (adam_update _ _ _ _) as [p s]. reflexivity.
Qed.

Lemma lr_fold_sgd_step (batches : list (list (list T) * list (list Z)))
  (m : FeatureMLP) :
  lr (optimizer (fold_left sgd_step batches m)) = lr (optimizer m).
Proof.
  revert m. induction batches as [| b batches IH]; intros m; [reflexivity |].
  cbn [fold_left]. now rewrite IH, lr_sgd_step.
Qed.

Lemma train_loop_frame (w : World)
  (l : list (Z * (list (list T) * list (list Z))))
  (m : FeatureMLP) (acc acc' : pyval T * Z) (w' : World) :
  for_each train_body l acc (with_model m w) = Ok (acc', w') ->
  exists m', w' = with_model m' w /\ lr (optimizer m') = lr (optimizer m).
Proof.
  revert m acc. induction l as [| [i [x y]] l IH]; intros m [a t] Hrun.
  - cbn [for_each] in Hrun. unfold ret in Hrun.
    injection Hrun as _ <-. now exists m.
  - cbn [for_each] in Hrun. unfold bind at 1 in Hrun.
    rewrite train_body_step in Hrun.
    destruct (py_iadd a _) as [a' | e]; [| discriminate].
    apply IH in Hrun. destruct Hrun as (m' & -> & Hlr).
    exists m'. split; [reflexivity |]. now rewrite Hlr, lr_sgd_step.
Qed.

(** [train] writes the model and the generator, and neither the step size
    of the optimiser nor the scheduler nor the results nor the loaders. *)
Lemma train_frame (w w' : World) (ep : Z) (v : pyval T) :
  train ep w = Ok (v, w') ->
  scheduler w' = scheduler w /\
  results w' = results w /\
  lr (optimizer (model (F_Net w'))) = lr (optimizer (model (F_Net w))) /\
  train_loader (F_Net w') = train_loader (F_Net w) /\
  valid_loader (F_Net w') = valid_loader (F_Net w).
Proof.
  unfold train. unfold bind at 1. unfold on_model at 1, Module_train, modify.
  set (m := set_training true (model (F_Net w))).
  unfold bind at 1. unfold gets at 1.
  unfold bind at 1. unfold on_generator at 1.
  change (generator (set_F_Net (set_model m (F_Net w)) w)) with (generator w).
  destruct (DataLoader_iter _ (generator w)) as [[batches g'] | e]; [| discriminate].
  change (set_generator g' (set_F_Net (set_model m (F_Net w)) w))
    with (with_model m (set_generator g' w)).
  unfold bind at 1.
  destruct (for_each train_body (enumerate batches) (PyInt 0, 0) _)
    as [[[t_loss t_size] w1] | e] eqn:Hloop; [| discriminate].
  apply train_loop_frame in Hloop. destruct Hloop as (m' & -> & Hlr).
  unfold bind, lift, ret.
  destruct (py_itruediv t_loss t_size) as [q | e]; [| discriminate].
  intros Heq. injection Heq as _ <-. cbn. now rewrite Hlr.
Qed.

(** [valid] writes the generator and the mode of the model. *)
Lemma valid_frame (w w' : World) (v : PyFloat.float * PyFloat.float) :
  valid w = Ok (v, w') ->
  scheduler w' = scheduler w /\
  results w' = results w /\
  lr (optimizer (model (F_Net w'))) = lr (optimizer (model (F_Net w))) /\
  train_loader (F_Net w') = train_loader (F_Net w) /\
  valid_loader (F_Net w') = valid_loader (F_Net w).
Proof.
  unfold valid. unfold bind at 1. unfold on_model at 1, Module_eval, modify.
  set (m := set_training false (model (F_Net w))).
  unfold bind at 1. unfold gets at 1.
  unfold bind at 1. unfold on_generator at 1.
  change (generator (set_F_Net (set_model m (F_Net w)) w)) with (generator w).
  destruct (DataLoader_iter _ (generator w)) as [[batches g'] | e]; [| discriminate].
  change (set_generator g' (set_F_Net (set_model m (F_Net w)) w))
    with (with_model m (set_generator g' w)).
  unfold bind at 1. rewrite valid_loop.
  unfold bind, lift, ret.
  destruct (py_itruediv _ _) as [q | e]; [| discriminate].
  destruct (py_item q) as [x | e]; [| discriminate].
  intros Heq. injection Heq as _ <-. cbn. auto.
Qed.

End Methods.


(** ** Construction and epochs *)

Section Run.
Context {T : Type} `{Torch T} `{Auxiliary}.

Lemma FeatureMLP_init_ok (n_labels dim_input : nat) (flag : bool)
  (hidden : nat) (g : Generator) :
  exists (m : FeatureMLP) (g' : Generator),
    FeatureMLP_init n_labels dim_input flag hidden g = Ok (m, g') /\
    lr (optimizer m) = PyFloat.lit_1e_3 /\
    only_feature_extraction m = flag.
Proof.
  unfold FeatureMLP_init.
  destruct (Linear_init g dim_input hidden) as [l1 g1].
  destruct (Linear_init g1 hidden hidden) as [l2 g2].
  destruct (Linear_init g2 hidden n_labels) as [l3 g3].
  eexists. eexists. split; [reflexivity |]. split; reflexivity.
Qed.

(** The constructor returns when [int(N * 0.90)] does, with these loaders. *)
Lemma FeatureNetwork_init_ok (inputs : ndarray T) (labels : ndarray Z)
  (g : Generator) (n : Z) :
  int_mul_0_90 (len (data inputs)) = Ok n ->
  exists (net : FeatureNetwork) (g' : Generator),
    FeatureNetwork_init inputs labels g = Ok (net, g') /\
    n_train net = n /\
    lr (optimizer (model net)) = PyFloat.lit_1e_3 /\
    train_loader net =
      {| dl_dataset := {| inputs := inputs; labels := labels |};
         dl_batch_size := 64;
         dl_sampler :=
           SubsetRandomSampler (slice_to (range (len (data inputs))) n) |} /\
    valid_loader net =
      {| dl_dataset := {| inputs := inputs; labels := labels |};
         dl_batch_size := 64;
         dl_sampler :=
           SubsetRandomSampler (slice_from (range (len (data inputs))) n) |}.
Proof.
  intros Hn. unfold FeatureNetwork_init. unfold bind at 1.
  destruct (FeatureMLP_init_ok (shape_1 labels) (shape_1 inputs) false 150 g)
    as (m & g' & Hm & Hlr & _).
  rewrite Hm. unfold bind, lift, ret. rewrite Hn.
  eexists. eexists. split; [reflexivity |]. cbn. auto.
Qed.

(** The loaders of a world built on a data set with [int(N * 0.90) = n]. *)
Lemma built_on_loaders (inputs : ndarray T) (labels : ndarray Z) (w : World)
  (n : Z) :
  built_on inputs labels w ->
  int_mul_0_90 (len (data inputs)) = Ok n ->
  0 <= n <= len (data inputs) ->
  train_loader (F_Net w) =
    {| dl_dataset := {| inputs := inputs; labels := labels |};
       dl_batch_size := 64;
       dl_sampler := SubsetRandomSampler (seq 0 (Z.to_nat n)) |} /\
  valid_loader (F_Net w) =
    {| dl_dataset := {| inputs := inputs; labels := labels |};
       dl_batch_size := 64;
       dl_sampler :=
         SubsetRandomSampler
           (seq (Z.to_nat n) (length (data inputs) - Z.to_nat n)) |}.
Proof.
  intros (g & Hbuilt) Hn Hrange.
  destruct (FeatureNetwork_init_ok inputs labels g n Hn)
    as (net & g' & Hinit & _ & _ & Htr1 & Hva1).
  rewrite Hinit in Hbuilt. destruct Hbuilt as [Htr Hva].
  rewrite Htr, Htr1, Hva, Hva1.
  rewrite (slice_to_range _ n Hrange), (slice_from_range _ n Hrange).
  unfold len. now rewrite Nat2Z.id.
Qed.

Lemma in_dataset_seq (xs : ndarray T) (ys : ndarray Z) (a k : nat) :
  length (data ys) = length (data xs) ->
  (a + k <= length (data xs))%nat ->
  in_dataset {| inputs := xs; labels := ys |} (seq a k).
Proof.
  intros Hlen Hk i Hi. apply in_seq in Hi. cbn [inputs labels]. lia.
Qed.

Lemma decayed_succ (lr0 gamma : PyFloat.float) (s k : Z) :
  0 <= k -> 0 < s ->
  decayed lr0 gamma s (k + 1) =
  if (k + 1 =? 0) || negb ((k + 1) mod s =? 0)
  then decayed lr0 gamma s k
  else PyFloat.mul (decayed lr0 gamma s k) gamma.
Proof.
  intros Hk Hs. unfold decayed. rewrite (div_succ k s Hk Hs).
  replace (k + 1 =? 0) with false by (symmetry; apply Z.eqb_neq; lia).
  cbn [orb].
  destruct ((k + 1) mod s =? 0); cbn [negb]; [| reflexivity].
  assert (0 <= k / s) by (apply Z.div_pos; lia).
  replace (Z.to_nat (k / s + 1)) with (S (Z.to_nat (k / s))) by lia.
  reflexivity.
Qed.

(** One epoch of the script: [train], [valid], one step of the scheduler. *)
Lemma epoch_body_ok (d : MyDataset T) (tr va : list nat) (k epoch : Z)
  (w : World) :
  in_dataset d tr -> in_dataset d va -> tr <> [] -> va <> [] ->
  len tr < 2 ^ 900 -> 0 <= k ->
  epoch_inv d tr va k w ->
  exists w', epoch_body epoch w = Ok (tt, w') /\ epoch_inv d tr va (k + 1) w'.
Proof.
  intros Htr Hva Hntr Hnva Hlen Hk (Hlt & Hlv & Hss & Hg & Hle & Hlr & Hres).
  destruct (train_ok w d 64 tr epoch Hlt Htr Hntr Hlen)
    as (fn & l1 & ls & _ & _ & Htrain).
  pose proof (train_frame _ _ _ _ Htrain) as (Hs1 & Hr1 & Hlr1 & Hlt1 & Hlv1).
  set (w1 := with_model _ _) in *.
  rewrite Hlv in Hlv1.
  destruct (valid_ok w1 d 64 va Hlv1 Hva Hnva) as (v1 & vs & _ & Hvalid).
  pose proof (valid_frame _ _ _ Hvalid) as (Hs2 & Hr2 & Hlr2 & Hlt2 & Hlv2).
  set (w2 := with_model _ _) in *.
  clearbody w1 w2.
  unfold epoch_body. unfold bind at 1. rewrite Htrain.
  unfold bind at 1. rewrite Hvalid.
  unfold bind, scheduler_step, modify.
  eexists. split; [reflexivity |].
  unfold epoch_inv.
  cbn [train_loader valid_loader F_Net scheduler results model optimizer lr
       step_size gamma last_epoch loss_train
       set_results set_scheduler set_F_Net set_model set_lr].
  rewrite Hlt2, Hlt1, Hlv2, Hs2, Hs1, Hr2, Hr1, Hlr2, Hlr1.
  rewrite Hss, Hg, Hle, Hlr, (decayed_succ _ _ 25 k Hk ltac:(lia)).
  repeat split; try reflexivity; try assumption.
  unfold len in *. rewrite length_app. cbn [length]. lia.
Qed.

Lemma epochs_ok (d : MyDataset T) (tr va : list nat) (n : nat) (start : nat)
  (k : Z) (w : World) :
  in_dataset d tr -> in_dataset d va -> tr <> [] -> va <> [] ->
  len tr < 2 ^ 900 -> 0 <= k ->
  epoch_inv d tr va k w ->
  exists w',
    for_each (fun (_ : unit) (epoch : nat) => epoch_body (Z.of_nat epoch))
             (seq start n) tt w = Ok (tt, w') /\
    epoch_inv d tr va (k + Z.of_nat n) w'.
Proof.
  intros Htr Hva Hntr Hnva Hlen.
  revert start k w. induction n as [| n IH]; intros start k w Hk Hinv.
  - exists w. split; [reflexivity |]. now rewrite Z.add_0_r.
  - cbn [seq for_each]. unfold bind at 1.
    destruct (epoch_body_ok d tr va k (Z.of_nat start) w Htr Hva Hntr Hnva Hlen Hk Hinv)
      as (w1 & -> & Hinv1).
    destruct (IH (S start) (k + 1) w1 ltac:(lia) Hinv1) as (w' & Hrun & Hinv').
    exists w'. split; [assumption |].
    now replace (k + Z.of_nat (S n)) with (k + 1 + Z.of_nat n) by lia.
Qed.

End Run.

(** * The claims *)

Section Claims.
Context {T : Type} `{Torch T} `{Auxiliary}.

Lemma map_nth_seq_firstn {A : Type} (l : list A) (d : A) (k : nat) :
  (k <= length l)%nat -> map (fun i => nth i l d) (seq 0 k) = firstn k l.
Proof.
  revert k. induction l as [| x l IH]; intros k Hk.
  - cbn [length] in Hk. now replace k with 0%nat by lia.
  - destruct k as [| k]; [reflexivity |].
    cbn [seq map nth firstn]. f_equal.
    rewrite <- seq_shift, map_map. apply IH. cbn [length] in Hk. lia.
Qed.

(** With a reduction that does not depend on the order of its terms, the
    loss of a batch does not depend on the order of its rows. *)
Lemma loss_fn_row_permutation (P Tg P' Tg' : list (list T)) :
  (forall l l' : list T, Permutation l l' -> t_sum l = t_sum l') ->
  Permutation (combine P Tg) (combine P' Tg') ->
  loss_fn P Tg = loss_fn P' Tg'.
Proof.
  intros Hsum Hperm. unfold loss_fn. cbn [BCELoss]. apply Hsum.
  unfold bce_unreduced. rewrite <- !flat_map_concat_map.
  now apply Permutation_flat_map.
Qed.

(** C5: in feature extraction mode [forward] returns the hidden
    representation after the second layer, which is what the other mode
    feeds into the third layer and the sigmoid. *)
Theorem feature_extraction_is_hidden_representation
  (m : FeatureMLP) (x : list (list T)) :
  let m_features := set_only_feature_extraction true m in
  let m_labels := set_only_feature_extraction false m in
  let hidden := F_relu (Linear_forward (fc2 m) (F_relu (Linear_forward (fc1 m) x))) in
  forward x m_features = Ok (hidden, m_features) /\
  forward x m_labels =
    Ok (torch_sigmoid (Linear_forward (fc3 m) hidden), m_labels).
Proof. split; reflexivity. Qed.

(** C6: setting the mode flag leaves the weights and biases of the three
    linear layers as they are, the constructor draws the same parameters for
    either value of the flag, and a forward pass in either mode returns
    with the model unchanged. *)
Theorem mode_flag_leaves_parameters (m : FeatureMLP) (b : bool) :
  fc1 (set_only_feature_extraction b m) = fc1 m /\
  fc2 (set_only_feature_extraction b m) = fc2 m /\
  fc3 (set_only_feature_extraction b m) = fc3 m /\
  (forall (n_labels dim_input hidden : nat) (g : Generator),
    exists (m1 m2 : FeatureMLP) (g' : Generator),
      FeatureMLP_init n_labels dim_input true hidden g = Ok (m1, g') /\
      FeatureMLP_init n_labels dim_input false hidden g = Ok (m2, g') /\
      parameters m1 = parameters m2) /\
  (forall x : list (list T), exists out : list (list T), forward x m = Ok (out, m)).
Proof.
  repeat split.
  - intros n_labels dim_input hidden g. unfold FeatureMLP_init.
    destruct (Linear_init g dim_input hidden) as [l1 g1].
    destruct (Linear_init g1 hidden hidden) as [l2 g2].
    destruct (Linear_init g2 hidden n_labels) as [l3 g3].
    do 3 eexists. repeat split.
  - intros x. exists (predict m x). apply forward_ok.
Qed.

(** The split of a data set of [N] examples at [n]. *)
Lemma split_at (N n : nat) :
  (n <= N)%nat ->
  let tr := seq 0 n in
  let va := seq n (N - n) in
  len tr + len va = Z.of_nat N /\
  tr = seq 0 (length tr) /\
  tr ++ va = seq 0 N /\
  (forall i, In i tr -> ~ In i va) /\
  (forall i, In i tr \/ In i va <-> (i < N)%nat).
Proof.
  intros Hn tr va. unfold tr, va, len. rewrite !length_seq.
  split; [lia |]. split; [reflexivity |]. split; [| split].
  - rewrite <- seq_app. f_equal. lia.
  - intros i Hi Hv. apply in_seq in Hi, Hv. lia.
  - intros i. rewrite !in_seq. lia.
Qed.

(** C1: the constructor splits the indices [0 .. N-1] of a data set of [N]
    examples into a training partition, the first [floor(0.9 * N)] indices
    in their order, and a validation partition, the rest; the two are
    disjoint, their lengths add up to [N] and together they are all the
    indices.  [N] is below [n_train_bound], as the size of every data set
    whose list of indices a machine holds is. *)
Theorem partition_nine_tenths (inputs : ndarray T) (labels : ndarray Z)
  (g : Generator) :
  len (data inputs) < n_train_bound ->
  exists (net : FeatureNetwork) (g' : Generator)
         (train_partition valid_partition : list nat),
    FeatureNetwork_init inputs labels g = Ok (net, g') /\
    dl_sampler (train_loader net) = SubsetRandomSampler train_partition /\
    dl_sampler (valid_loader net) = SubsetRandomSampler valid_partition /\
    len train_partition + len valid_partition = len (data inputs) /\
    len train_partition = 9 * len (data inputs) / 10 /\
    train_partition = seq 0 (length train_partition) /\
    train_partition ++ valid_partition = seq 0 (length (data inputs)) /\
    (forall i, In i train_partition -> ~ In i valid_partition) /\
    (forall i, In i train_partition \/ In i valid_partition <->
               (i < length (data inputs))%nat).
Proof.
  intros HN.
  assert (Hnn : 0 <= len (data inputs)) by (unfold len; lia).
  pose proof (int_mul_0_90_exact _ (conj Hnn HN)) as Hn.
  set (n := 9 * len (data inputs) / 10) in *.
  assert (Hrange : 0 <= n <= len (data inputs)).
  { unfold n. split; [apply Z.div_pos; lia |].
    apply Z.div_le_upper_bound; lia. }
  destruct (FeatureNetwork_init_ok inputs labels g n Hn)
    as (net & g' & Hinit & _ & _ & Htr & Hva).
  exists net, g', (seq 0 (Z.to_nat n)),
    (seq (Z.to_nat n) (length (data inputs) - Z.to_nat n)).
  split; [assumption |].
  rewrite Htr, Hva. cbn [dl_sampler].
  rewrite (slice_to_range _ n Hrange), (slice_from_range _ n Hrange).
  unfold len at 1 2. rewrite Nat2Z.id.
  split; [reflexivity |]. split; [reflexivity |].
  destruct (split_at (length (data inputs)) (Z.to_nat n) ltac:(unfold len in *; lia))
    as (Hsum & Hfirst & Happ & Hdisj & Hall).
  split; [exact Hsum |]. split.
  { unfold len. rewrite length_seq. unfold len in Hrange. lia. }
  split; [exact Hfirst |]. split; [exact Happ |]. split; assumption.
Qed.

(** What [valid] returns in a world built on a data set with examples. *)
Lemma valid_built_on (inputs : ndarray T) (labels : ndarray Z) (w : World) :
  built_on inputs labels w ->
  1 <= len (data inputs) <= sys_maxsize ->
  length (data labels) = length (data inputs) ->
  exists (n : Z) (l1 : T) (ls : list T) (w' : World),
    let m := set_training false (model (F_Net w)) in
    let valid_partition :=
      seq (Z.to_nat n) (length (data inputs) - Z.to_nat n) in
    let batches := pass {| inputs := inputs; labels := labels |} 64
                        (generator w) valid_partition in
    int_mul_0_90 (len (data inputs)) = Ok n /\
    0 <= n < len (data inputs) /\
    dl_sampler (valid_loader (F_Net w)) = SubsetRandomSampler valid_partition /\
    map (batch_loss m) batches = l1 :: ls /\
    valid w =
    Ok ((t_item (t_div_int (fold_left t_add ls (t_add_int l1 0))
                           (len (data inputs) - n)),
         np_mean (map (batch_f1 m) batches)), w').
Proof.
  intros Hbuilt HN Hlen.
  destruct (int_mul_0_90_lt (len (data inputs))
              ltac:(unfold sys_maxsize in HN; lia)) as (n & Hn & Hrange & _).
  destruct (built_on_loaders inputs labels w n Hbuilt Hn ltac:(lia)) as [_ Hva].
  set (va := seq (Z.to_nat n) (length (data inputs) - Z.to_nat n)) in *.
  assert (Hne : va <> []).
  { unfold va, len in *. intros Hnil. apply (f_equal (@length nat)) in Hnil.
    rewrite length_seq in Hnil. cbn [length] in Hnil. lia. }
  assert (Hin : in_dataset {| inputs := inputs; labels := labels |} va).
  { apply in_dataset_seq; [assumption | unfold len in *; lia]. }
  destruct (valid_ok w _ 64 va Hva Hin Hne) as (l1 & ls & Hls & Hvalid).
  assert (Hlva : len va = len (data inputs) - n).
  { unfold va, len in *. rewrite length_seq. lia. }
  rewrite Hlva in Hvalid.
  exists n, l1, ls. eexists. cbv zeta. fold va.
  split; [assumption |]. split; [assumption |].
  split; [now rewrite Hva |]. split; [exact Hls |].
  exact Hvalid.
Qed.

(** ** The batches, their losses and their scores *)

Lemma fits_classifier (m : FeatureMLP) (x : ndarray T) (y : ndarray Z) :
  fits m x y = true -> only_feature_extraction m = false.
Proof.
  unfold fits. rewrite !andb_true_iff, negb_true_iff. tauto.
Qed.

(** In a classifier a forward pass returns the label probabilities. *)
Lemma predict_probabilities (m : FeatureMLP) (x : list (list T)) :
  only_feature_extraction m = false -> predict m x = probabilities m x.
Proof.
  intros Hf. unfold predict, forward, bind, gets, ret. now rewrite Hf.
Qed.

Lemma length_probabilities (m : FeatureMLP) (x : list (list T)) :
  length (probabilities m x) = length x.
Proof.
  unfold probabilities, torch_sigmoid, F_relu, Linear_forward.
  now rewrite !length_map.
Qed.

Lemma batch_loss_summed_bce (m : FeatureMLP) (b : list (list T) * list (list Z)) :
  only_feature_extraction m = false -> batch_loss m b = summed_bce m b.
Proof.
  intros Hf. unfold batch_loss, summed_bce, loss_fn, float_.
  now rewrite predict_probabilities.
Qed.

Lemma batch_f1_rounded_f1 (m : FeatureMLP) (b : list (list T) * list (list Z)) :
  only_feature_extraction m = false -> batch_f1 m b = rounded_f1 m b.
Proof.
  intros Hf. unfold batch_f1, rounded_f1, round_int.
  now rewrite predict_probabilities.
Qed.

Lemma only_feature_extraction_sgd_step (m : FeatureMLP)
  (b : list (list T) * list (list Z)) :
  only_feature_extraction (sgd_step m b) = only_feature_extraction m.
Proof.
  destruct b as [x y]. rewrite sgd_step_eq. cbn [grad set_grad].
  destruct (adam_update _ _ _ _) as [p s]. reflexivity.
Qed.

Lemma train_losses_epoch_losses (m : FeatureMLP)
  (batches : list (list (list T) * list (list Z))) :
  only_feature_extraction m = false ->
  train_losses m batches = epoch_losses m batches.
Proof.
  revert m. induction batches as [| b batches IH]; intros m Hf; [reflexivity |].
  cbn [train_losses epoch_losses].
  rewrite IH by (now rewrite only_feature_extraction_sgd_step).
  rewrite batch_loss_summed_bce by exact Hf. reflexivity.
Qed.

Lemma map_pair {A B C : Type} (f : A -> B) (g : A -> C) (l : list A) :
  map (fun a => (f a, g a)) l = combine (map f l) (map g l).
Proof.
  induction l as [| a l IH]; [reflexivity |]. cbn [map combine]. now rewrite IH.
Qed.

Lemma concat_collate_snd (d : MyDataset T) (bl : list (list nat)) :
  concat (map snd (map (collate d) bl)) = snd (collate d (concat bl)).
Proof.
  induction bl as [| b bl IH]; [reflexivity |].
  cbn [map concat]. rewrite IH. unfold collate. cbn [snd].
  now rewrite map_app.
Qed.

Lemma paired_collate (d : MyDataset T) (bl : list (list nat)) :
  paired (map (collate d) bl) =
  map (fun i => (nth i (data (inputs d)) [], nth i (data (labels d)) []))
      (concat bl).
Proof.
  unfold paired. induction bl as [| b bl IH]; [reflexivity |].
  cbn [map concat]. rewrite IH, map_app. f_equal.
  unfold collate. cbn [fst snd]. symmetry. apply map_pair.
Qed.

(** A pass yields every example of its indices once, features and labels
    together. *)
Lemma pass_paired (d : MyDataset T) (bs : nat) (g : Generator)
  (indices : list nat) :
  Permutation (paired (pass d bs g indices))
    (map (fun i => (nth i (data (inputs d)) [], nth i (data (labels d)) []))
         indices).
Proof.
  unfold pass. rewrite paired_collate, BatchSampler_concat. cbn [app].
  apply Permutation_map, sampled_perm.
Qed.

Lemma collate_aligned (d : MyDataset T) (bl : list (list nat)) :
  Forall (fun b => length (fst b) = length (snd b)) (map (collate d) bl).
Proof.
  apply Forall_map, Forall_forall. intros b _. unfold collate. cbn [fst snd].
  now rewrite !length_map.
Qed.

Lemma paired_skipn (X : list (list T)) (Y : list (list Z)) (a : nat) :
  length Y = length X ->
  map (fun i => (nth i X [], nth i Y [])) (seq a (length X - a)) =
  combine (skipn a X) (skipn a Y).
Proof.
  intros Hlen. rewrite map_pair, map_nth_seq_skipn.
  rewrite <- Hlen, map_nth_seq_skipn. reflexivity.
Qed.

Lemma paired_firstn (X : list (list T)) (Y : list (list Z)) (k : nat) :
  length Y = length X -> (k <= length X)%nat ->
  map (fun i => (nth i X [], nth i Y [])) (seq 0 k) =
  combine (firstn k X) (firstn k Y).
Proof.
  intros Hlen Hk. rewrite map_pair.
  rewrite map_nth_seq_firstn by exact Hk.
  rewrite map_nth_seq_firstn by lia. reflexivity.
Qed.

Lemma slice_from_skipn {A : Type} (l : list A) (n : Z) :
  0 <= n -> slice_from l n = skipn (Z.to_nat n) l.
Proof.
  intros Hn. unfold slice_from, slice_bound.
  now replace (n <? 0) with false by (symmetry; apply Z.ltb_ge; lia).
Qed.

Lemma slice_to_firstn {A : Type} (l : list A) (n : Z) :
  0 <= n -> slice_to l n = firstn (Z.to_nat n) l.
Proof.
  intros Hn. unfold slice_to, slice_bound.
  now replace (n <? 0) with false by (symmetry; apply Z.ltb_ge; lia).
Qed.

(** C3: on a network built on the data set, whose model is a classifier of
    the widths of the data, [valid] draws batches of at most 64 examples
    that together are the validation examples, each row of features with its
    own row of labels; it returns the sum of the losses of the batches
    divided by the number of validation examples, and the mean of the F1
    scores of the batches, each score computed on one batch from its labels
    and its rounded probabilities. *)
Theorem valid_returns_mean_of_batch_f1 (inputs : ndarray T)
  (labels : ndarray Z) (w : World) :
  built_on inputs labels w ->
  1 <= len (data inputs) <= sys_maxsize ->
  length (data labels) = length (data inputs) ->
  fits (model (F_Net w)) inputs labels = true ->
  exists (n : Z) (batches : list (list (list T) * list (list Z)))
         (l1 : T) (ls : list T) (w' : World),
    let m := model (F_Net w) in
    int_mul_0_90 (len (data inputs)) = Ok n /\
    Permutation (paired batches)
      (combine (slice_from (data inputs) n) (slice_from (data labels) n)) /\
    Forall (fun b => length (fst b) = length (snd b) /\ 0 < len (fst b) <= 64)
           batches /\
    map (summed_bce m) batches = l1 :: ls /\
    valid w =
    Ok ((t_item (t_div_int (fold_left t_add ls (t_add_int l1 0))
                           (len (slice_from (data inputs) n))),
         np_mean (map (rounded_f1 m) batches)),
        w').
Proof.
  intros Hbuilt HN Hlen Hfits.
  apply fits_classifier in Hfits.
  destruct (valid_built_on inputs labels w Hbuilt HN Hlen)
    as (n & l1 & ls & w' & Hn & Hrange & _ & Hls & Hvalid).
  cbv zeta in Hls, Hvalid.
  set (va := seq (Z.to_nat n) (length (data inputs) - Z.to_nat n)) in *.
  set (d := {| inputs := inputs; labels := labels |}) in *.
  set (batches := pass d 64 (generator w) va) in *.
  assert (Hm : forall b, batch_loss (set_training false (model (F_Net w))) b =
                         summed_bce (model (F_Net w)) b).
  { intros b. now rewrite batch_loss_summed_bce. }
  assert (Hs : forall b, batch_f1 (set_training false (model (F_Net w))) b =
                         rounded_f1 (model (F_Net w)) b).
  { intros b. now rewrite batch_f1_rounded_f1. }
  exists n, batches, l1, ls, w'. cbv zeta.
  split; [assumption |]. split; [| split; [| split]].
  - rewrite !slice_from_skipn by lia.
    rewrite <- (paired_skipn (data inputs) (data labels) (Z.to_nat n) Hlen).
    apply (pass_paired d 64 (generator w) va).
  - pose proof (pass_sizes d 64 (generator w) va ltac:(lia)) as Hsz.
    pose proof (collate_aligned d (BatchSampler 64 [] (sampled (generator w) va)))
      as Hal.
    fold (pass d 64 (generator w) va) in Hal. fold batches in Hsz, Hal.
    rewrite Forall_forall in *. intros b Hb. split; [now apply Hal |].
    now apply Hsz.
  - rewrite <- Hls. apply map_ext. intros b. symmetry. apply Hm.
  - rewrite Hvalid, slice_from_skipn by lia.
    replace (len (skipn (Z.to_nat n) (data inputs))) with (len (data inputs) - n)
      by (unfold len in *; rewrite length_skipn; lia).
    now rewrite (map_ext _ _ Hs).
Qed.

(** C7: on a network built on the data set, whose model is a classifier of
    the widths of the data, [train] draws batches that together are the
    training examples, each row of features with its own row of labels; it
    returns, as a float, the sum of the losses of the batches, each under the
    model the steps before it have left, divided by the number of training
    examples. *)
Theorem train_returns_loss_per_example (inputs : ndarray T)
  (labels : ndarray Z) (w : World) (ep : Z) :
  built_on inputs labels w ->
  2 <= len (data inputs) <= sys_maxsize ->
  length (data labels) = length (data inputs) ->
  fits (model (F_Net w)) inputs labels = true ->
  exists (n : Z) (batches : list (list (list T) * list (list Z)))
         (fn : PyFloat.float) (w' : World),
    let m := set_training true (model (F_Net w)) in
    int_mul_0_90 (len (data inputs)) = Ok n /\
    Permutation (paired batches)
      (combine (slice_to (data inputs) n) (slice_to (data labels) n)) /\
    Forall (fun b => length (fst b) = length (snd b)) batches /\
    examples batches = n /\
    PyFloat.of_int n = Ok fn /\
    train ep w =
    Ok (PyFloat (SFdiv PyFloat.prec PyFloat.emax
                   (fold_left PyFloat.add (epoch_losses m batches)
                              (S754_zero false))
                   fn), w').
Proof.
  intros Hbuilt HN Hlen Hfits.
  apply fits_classifier in Hfits.
  destruct (int_mul_0_90_lt (len (data inputs))
              ltac:(unfold sys_maxsize in HN; lia)) as (n & Hn & Hrange & Hpos).
  specialize (Hpos ltac:(lia)).
  destruct (built_on_loaders inputs labels w n Hbuilt Hn ltac:(lia)) as [Htr _].
  set (tr := seq 0 (Z.to_nat n)) in *.
  set (d := {| inputs := inputs; labels := labels |}) in *.
  assert (Hne : tr <> []).
  { unfold tr. intros Hnil. apply (f_equal (@length nat)) in Hnil.
    rewrite length_seq in Hnil. cbn [length] in Hnil. lia. }
  assert (Hin : in_dataset d tr).
  { apply in_dataset_seq; [assumption | unfold len in *; lia]. }
  assert (Hlt : len tr = n) by (unfold tr, len; rewrite length_seq; lia).
  destruct (train_ok w d 64 tr ep Htr Hin Hne
              ltac:(rewrite Hlt; unfold sys_maxsize in HN; lia))
    as (fn & l1 & ls & Hfn & Hls & Htrain).
  pose proof (pass_examples d 64 (generator w) tr) as Hex.
  exists n, (pass d 64 (generator w) tr), fn. eexists. cbv zeta.
  split; [assumption |]. split; [| split; [| split; [| split]]].
  - rewrite !slice_to_firstn by lia.
    rewrite <- (paired_firstn (data inputs) (data labels) (Z.to_nat n) Hlen)
      by (unfold len in *; lia).
    apply (pass_paired d 64 (generator w) tr).
  - apply (collate_aligned d).
  - now rewrite Hex.
  - now rewrite <- Hlt.
  - rewrite Htrain. rewrite <- train_losses_epoch_losses by exact Hfits.
    rewrite Hls. reflexivity.
Qed.

(** C4: for a classifier of the widths of the test set, on a loader that
    yields the test set in order in batches of any size, [test] rounds the
    probabilities of each batch to integers, concatenates the rounded
    batches, one row per row of the test labels, and computes one F1 score,
    of all the test labels against the concatenation; it returns that score
    with the sum of the losses of the batches, each the loss of its features
    against its own labels, divided by the number of test examples. *)
Theorem test_f1_once_on_all_predictions (test_inputs : ndarray T)
  (test_labels : ndarray Z) (bs : nat) (w : World) :
  (0 < bs)%nat ->
  0 < len (data test_inputs) ->
  length (data test_labels) = length (data test_inputs) ->
  fits (model (F_Net w)) test_inputs test_labels = true ->
  let test_data := {| inputs := test_inputs; labels := test_labels |} in
  let test_loader := {| dl_dataset := test_data; dl_batch_size := bs;
                        dl_sampler := SequentialSampler test_data |} in
  let m := model (F_Net w) in
  exists (batches : list (list (list T) * list (list Z)))
         (l1 : T) (ls : list T) (w' : World),
    let outputs :=
      concat (map (fun b => map (map t_round_int) (probabilities m (fst b)))
                  batches) in
    concat (map fst batches) = data test_inputs /\
    concat (map snd batches) = data test_labels /\
    Forall (fun b => length (fst b) = length (snd b) /\
                     0 < len (fst b) <= Z.of_nat bs) batches /\
    map (summed_bce m) batches = l1 :: ls /\
    test test_loader test_labels w =
    Ok ((PyTensor (t_div_int (fold_left t_add ls (t_add_int l1 0))
                             (len (data test_inputs))),
         compute_f1_score (data test_labels) outputs),
        w') /\
    length outputs = length (data test_labels).
Proof.
  intros Hbs HN Hlen Hfits test_data test_loader m.
  apply fits_classifier in Hfits.
  assert (Hle : (length (data (inputs test_data)) <=
                 length (data (labels test_data)))%nat)
    by (unfold test_data; cbn [inputs labels]; lia).
  pose proof (DataLoader_iter_sequential test_data bs (generator w) Hle) as Hit.
  unfold test_data at 3 in Hit. cbn [inputs] in Hit.
  set (bl := BatchSampler bs [] (seq 0 (length (data test_inputs)))) in *.
  set (batches := map (collate test_data) bl) in *.
  assert (Hcat : concat (map fst batches) = data test_inputs).
  { unfold batches, bl. rewrite concat_collate_fst, BatchSampler_concat.
    unfold collate. cbn [fst app inputs]. apply map_nth_seq. }
  assert (Hcats : concat (map snd batches) = data test_labels).
  { unfold batches, bl. rewrite concat_collate_snd, BatchSampler_concat.
    unfold collate. cbn [snd app labels]. rewrite <- Hlen. apply map_nth_seq. }
  assert (Hne : batches <> []).
  { intros Hnil. rewrite Hnil in Hcat. cbn in Hcat.
    rewrite <- Hcat in HN. cbn in HN. lia. }
  destruct (test_ok w test_loader test_labels batches (generator w) Hit Hne)
    as (l1 & ls & Hls & Htest).
  cbv zeta in Hls, Htest.
  exists batches, l1, ls. eexists. cbv zeta.
  split; [assumption |]. split; [assumption |]. split; [| split; [| split]].
  - pose proof (collate_aligned test_data bl) as Hal. fold batches in Hal.
    assert (Hsz : Forall (fun b => 0 < len (fst b) <= Z.of_nat bs) batches).
    { unfold batches. apply Forall_map.
      eapply Forall_impl; [| apply (BatchSampler_sizes bs); cbn [length]; exact Hbs].
      intros b Hb. cbv beta in Hb. unfold collate, len. cbn [fst].
      rewrite length_map. lia. }
    rewrite Forall_forall in *. intros b Hb. split; [now apply Hal | now apply Hsz].
  - rewrite <- Hls. apply map_ext. intros b. symmetry.
    exact (batch_loss_summed_bce (set_training false (model (F_Net w))) b Hfits).
  - rewrite Htest. unfold examples. rewrite Hcat.
    assert (Hr : forall b : list (list T) * list (list Z),
               round_int (predict (set_training false (model (F_Net w))) (fst b)) =
               map (map t_round_int) (probabilities m (fst b))).
    { intros b. unfold round_int. now rewrite predict_probabilities. }
    now rewrite (map_ext _ _ Hr).
  - rewrite <- Hcats. rewrite !length_concat, !map_map. f_equal.
    apply map_ext_in. intros b Hb.
    rewrite length_map, length_probabilities.
    pose proof (collate_aligned test_data bl) as Hal. fold batches in Hal.
    rewrite Forall_forall in Hal. now apply Hal.
Qed.

(** C10: from one example on [int(N * 0.90)] is below [N], the validation
    partition is not empty, and [valid] returns: it divides by a number of
    examples that is at least one and averages at least one F1 score. *)
Theorem valid_never_divides_by_zero (inputs : ndarray T) (labels : ndarray Z)
  (w : World) :
  built_on inputs labels w ->
  1 <= len (data inputs) <= sys_maxsize ->
  length (data labels) = length (data inputs) ->
  exists (n : Z) (valid_partition : list nat) (t_size : Z) (total : T)
         (mean_f1 : list PyFloat.float) (w' : World),
    int_mul_0_90 (len (data inputs)) = Ok n /\
    n < len (data inputs) /\
    dl_sampler (valid_loader (F_Net w)) = SubsetRandomSampler valid_partition /\
    valid_partition <> [] /\
    t_size = len valid_partition /\
    1 <= t_size /\
    mean_f1 <> [] /\
    valid w = Ok ((t_item (t_div_int total t_size), np_mean mean_f1), w').
Proof.
  intros Hbuilt HN Hlen.
  destruct (valid_built_on inputs labels w Hbuilt HN Hlen)
    as (n & l1 & ls & w' & Hn & Hrange & Hsampler & Hls & Hvalid).
  cbv zeta in Hsampler, Hls, Hvalid.
  set (va := seq (Z.to_nat n) (length (data inputs) - Z.to_nat n)) in *.
  set (batches := pass _ 64 (generator w) va) in *.
  assert (Hva : len va = len (data inputs) - n).
  { unfold va, len in *. rewrite length_seq. lia. }
  exists n, va, (len va), (fold_left t_add ls (t_add_int l1 0)),
    (map (batch_f1 (set_training false (model (F_Net w)))) batches), w'.
  split; [assumption |]. split; [lia |]. split; [assumption |].
  split; [| split; [reflexivity | split; [lia | split]]].
  - intros Hnil. rewrite Hnil in Hva. cbn in Hva. lia.
  - intros Hnil. apply map_eq_nil in Hnil. rewrite Hnil in Hls. discriminate.
  - now rewrite Hva.
Qed.

(** C9: in a run of [k] epochs of the loop of the script the scheduler has
    been stepped [k] times, once an epoch, and the step size of the
    optimiser is [1e-3] multiplied by [0.1] once for every 25 epochs run;
    [train] and [valid] change neither the scheduler nor the step size. *)
Theorem scheduler_steps_once_per_epoch (inputs : ndarray T)
  (labels : ndarray Z) (g : Generator) (k : nat) :
  2 <= len (data inputs) <= sys_maxsize ->
  length (data labels) = length (data inputs) ->
  exists (w0 w' : World),
    setup inputs labels g = Ok w0 /\
    epochs (Z.of_nat k) w0 = Ok (tt, w') /\
    last_epoch (scheduler w') = Z.of_nat k /\
    lr (optimizer (model (F_Net w'))) =
      Nat.iter (k / 25) (fun x => PyFloat.mul x PyFloat.lit_0_1) PyFloat.lit_1e_3 /\
    (forall (w w1 : World) (ep : Z) (v : pyval T),
        train ep w = Ok (v, w1) ->
        scheduler w1 = scheduler w /\
        lr (optimizer (model (F_Net w1))) = lr (optimizer (model (F_Net w)))) /\
    (forall (w w1 : World) (v : PyFloat.float * PyFloat.float),
        valid w = Ok (v, w1) ->
        scheduler w1 = scheduler w /\
        lr (optimizer (model (F_Net w1))) = lr (optimizer (model (F_Net w)))).
Proof.
  intros HN Hlen.
  destruct (int_mul_0_90_lt (len (data inputs))
              ltac:(unfold sys_maxsize in HN; lia)) as (n & Hn & Hrange & Hpos).
  specialize (Hpos ltac:(lia)).
  destruct (FeatureNetwork_init_ok inputs labels g n Hn)
    as (net & g' & Hinit & _ & Hlr & Htr & Hva).
  rewrite (slice_to_range (len (data inputs)) n ltac:(lia)) in Htr.
  rewrite (slice_from_range (len (data inputs)) n ltac:(lia)) in Hva.
  set (d := {| inputs := inputs; labels := labels |}) in *.
  set (tr := seq 0 (Z.to_nat n)) in *.
  set (va := seq (Z.to_nat n) (Z.to_nat (len (data inputs)) - Z.to_nat n)) in *.
  set (w0 := {| generator := g'; F_Net := net;
                scheduler := StepLR_init 25 PyFloat.lit_0_1;
                results := {| loss_train := []; loss_valid := []; f1_valid := [] |} |}).
  assert (Hinv : epoch_inv d tr va 0 w0).
  { unfold epoch_inv, w0. cbn. repeat split; assumption. }
  assert (Hntr : tr <> []).
  { unfold tr. intros Hnil. apply (f_equal (@length nat)) in Hnil.
    rewrite length_seq in Hnil. cbn [length] in Hnil. lia. }
  assert (Hnva : va <> []).
  { unfold va. intros Hnil. apply (f_equal (@length nat)) in Hnil.
    rewrite length_seq in Hnil. cbn [length] in Hnil. lia. }
  assert (Hitr : in_dataset d tr).
  { apply in_dataset_seq; [assumption | unfold len in *; lia]. }
  assert (Hiva : in_dataset d va).
  { apply in_dataset_seq; [assumption | unfold len in *; lia]. }
  assert (Hltr : len tr < 2 ^ 900).
  { unfold tr, len. rewrite length_seq. unfold sys_maxsize in HN. lia. }
  destruct (epochs_ok d tr va k 0 0 w0 Hitr Hiva Hntr Hnva Hltr ltac:(lia) Hinv)
    as (w' & Hrun & (_ & _ & _ & _ & Hle & Hlr' & _)).
  exists w0, w'. split; [| split; [| split; [| split; [| split]]]].
  - unfold setup. now rewrite Hinit.
  - unfold epochs, range. now rewrite Nat2Z.id.
  - rewrite Hle. lia.
  - rewrite Hlr'. unfold decayed. rewrite Z.add_0_l.
    change 25 with (Z.of_nat 25). now rewrite <- Nat2Z.inj_div, Nat2Z.id.
  - intros w w1 ep v Hrun1. now destruct (train_frame _ _ _ _ Hrun1) as (? & _ & ? & _).
  - intros w w1 v Hrun1. now destruct (valid_frame _ _ _ Hrun1) as (? & _ & ? & _).
Qed.

End Claims.

(** * The claims on concrete inputs *)

(** C1 on the seven hundred examples. *)
Lemma partition_nine_tenths_witness :
  len (data toy_inputs) < n_train_bound /\
  exists (net : FeatureNetwork) (g' : nat)
         (train_partition valid_partition : list nat),
    FeatureNetwork_init toy_inputs toy_labels 0%nat = Ok (net, g') /\
    dl_sampler (train_loader net) = SubsetRandomSampler train_partition /\
    dl_sampler (valid_loader net) = SubsetRandomSampler valid_partition /\
    len train_partition + len valid_partition = len (data toy_inputs) /\
    len train_partition = 9 * len (data toy_inputs) / 10 /\
    train_partition = seq 0 (length train_partition) /\
    train_partition ++ valid_partition = seq 0 (length (data toy_inputs)) /\
    (forall i, In i train_partition -> ~ In i valid_partition) /\
    (forall i, In i train_partition \/ In i valid_partition <->
               (i < length (data toy_inputs))%nat).
Proof.
  split; [vm_compute; reflexivity |].
  apply (partition_nine_tenths (H := ZTorch) toy_inputs toy_labels 0%nat).
  vm_compute. reflexivity.
Defined.

Lemma toy_world_built : built_on toy_inputs toy_labels toy_world.
Proof. exists 0%nat. vm_compute. split; reflexivity. Defined.

Lemma toy_size : 2 <= len (data toy_inputs) <= sys_maxsize.
Proof. vm_compute. split; discriminate. Defined.

Lemma toy_world_fits : fits (model (F_Net toy_world)) toy_inputs toy_labels = true.
Proof. vm_compute. reflexivity. Defined.

(** C3 on the toy world. *)
Lemma valid_returns_mean_of_batch_f1_witness :
  built_on toy_inputs toy_labels toy_world /\
  1 <= len (data toy_inputs) <= sys_maxsize /\
  length (data toy_labels) = length (data toy_inputs) /\
  fits (model (F_Net toy_world)) toy_inputs toy_labels = true /\
  exists (n : Z) (batches : list (list (list Z) * list (list Z)))
         (l1 : Z) (ls : list Z) (w' : World),
    let m := model (F_Net toy_world) in
    int_mul_0_90 (len (data toy_inputs)) = Ok n /\
    Permutation (paired batches)
      (combine (slice_from (data toy_inputs) n) (slice_from (data toy_labels) n)) /\
    Forall (fun b => length (fst b) = length (snd b) /\ 0 < len (fst b) <= 64)
           batches /\
    map (summed_bce m) batches = l1 :: ls /\
    valid toy_world =
    Ok ((t_item (t_div_int (fold_left t_add ls (t_add_int l1 0))
                           (len (slice_from (data toy_inputs) n))),
         np_mean (map (rounded_f1 m) batches)),
        w').
Proof.
  assert (Hsize : 1 <= len (data toy_inputs) <= sys_maxsize)
    by (vm_compute; split; discriminate).
  assert (Hlen : length (data toy_labels) = length (data toy_inputs))
    by (vm_compute; reflexivity).
  split; [exact toy_world_built |]. split; [exact Hsize |]. split; [exact Hlen |].
  split; [exact toy_world_fits |].
  exact (valid_returns_mean_of_batch_f1 toy_inputs toy_labels toy_world
           toy_world_built Hsize Hlen toy_world_fits).
Defined.

(** C4 on the toy data as a test set. *)
Lemma test_f1_once_on_all_predictions_witness :
  (0 < 64)%nat /\
  0 < len (data toy_inputs) /\
  length (data toy_labels) = length (data toy_inputs) /\
  fits (model (F_Net toy_world)) toy_inputs toy_labels = true /\
  let test_data := {| inputs := toy_inputs; labels := toy_labels |} in
  let test_loader := {| dl_dataset := test_data; dl_batch_size := 64;
                        dl_sampler := SequentialSampler test_data |} in
  let m := model (F_Net toy_world) in
  exists (batches : list (list (list Z) * list (list Z)))
         (l1 : Z) (ls : list Z) (w' : World),
    let outputs :=
      concat (map (fun b => map (map t_round_int) (probabilities m (fst b)))
                  batches) in
    concat (map fst batches) = data toy_inputs /\
    concat (map snd batches) = data toy_labels /\
    Forall (fun b => length (fst b) = length (snd b) /\
                     0 < len (fst b) <= Z.of_nat 64) batches /\
    map (summed_bce m) batches = l1 :: ls /\
    test test_loader toy_labels toy_world =
    Ok ((PyTensor (t_div_int (fold_left t_add ls (t_add_int l1 0))
                             (len (data toy_inputs))),
         compute_f1_score (data toy_labels) outputs),
        w') /\
    length outputs = length (data toy_labels).
Proof.
  assert (Hbs : (0 < 64)%nat) by (apply Nat.ltb_lt; reflexivity).
  assert (Hsize : 0 < len (data toy_inputs)) by (vm_compute; reflexivity).
  assert (Hlen : length (data toy_labels) = length (data toy_inputs))
    by (vm_compute; reflexivity).
  split; [exact Hbs |]. split; [exact Hsize |]. split; [exact Hlen |].
  split; [exact toy_world_fits |].
  exact (test_f1_once_on_all_predictions toy_inputs toy_labels 64 toy_world
           Hbs Hsize Hlen toy_world_fits).
Defined.

(** C7 on the toy world. *)
Lemma train_returns_loss_per_example_witness :
  built_on toy_inputs toy_labels toy_world /\
  2 <= len (data toy_inputs) <= sys_maxsize /\
  length (data toy_labels) = length (data toy_inputs) /\
  fits (model (F_Net toy_world)) toy_inputs toy_labels = true /\
  exists (n : Z) (batches : list (list (list Z) * list (list Z)))
         (fn : PyFloat.float) (w' : World),
    let m := set_training true (model (F_Net toy_world)) in
    int_mul_0_90 (len (data toy_inputs)) = Ok n /\
    Permutation (paired batches)
      (combine (slice_to (data toy_inputs) n) (slice_to (data toy_labels) n)) /\
    Forall (fun b => length (fst b) = length (snd b)) batches /\
    examples batches = n /\
    PyFloat.of_int n = Ok fn /\
    train 0 toy_world =
    Ok (PyFloat (SFdiv PyFloat.prec PyFloat.emax
                   (fold_left PyFloat.add (epoch_losses m batches)
                              (S754_zero false))
                   fn), w').
Proof.
  assert (Hlen : length (data toy_labels) = length (data toy_inputs))
    by (vm_compute; reflexivity).
  split; [exact toy_world_built |]. split; [exact toy_size |].
  split; [exact Hlen |]. split; [exact toy_world_fits |].
  exact (train_returns_loss_per_example toy_inputs toy_labels toy_world 0
           toy_world_built toy_size Hlen toy_world_fits).
Defined.

(** C9 on the toy data, for fifty epochs. *)
Lemma scheduler_steps_once_per_epoch_witness :
  2 <= len (data toy_inputs) <= sys_maxsize /\
  length (data toy_labels) = length (data toy_inputs) /\
  exists (w0 w' : World),
    setup toy_inputs toy_labels 0%nat = Ok w0 /\
    epochs (Z.of_nat 50) w0 = Ok (tt, w') /\
    last_epoch (scheduler w') = Z.of_nat 50 /\
    lr (optimizer (model (F_Net w'))) =
      Nat.iter (50 / 25) (fun x => PyFloat.mul x PyFloat.lit_0_1) PyFloat.lit_1e_3 /\
    (forall (w w1 : World) (ep : Z) (v : pyval Z),
        train ep w = Ok (v, w1) ->
        scheduler w1 = scheduler w /\
        lr (optimizer (model (F_Net w1))) = lr (optimizer (model (F_Net w)))) /\
    (forall (w w1 : World) (v : PyFloat.float * PyFloat.float),
        valid w = Ok (v, w1) ->
        scheduler w1 = scheduler w /\
        lr (optimizer (model (F_Net w1))) = lr (optimizer (model (F_Net w)))).
Proof.
  assert (Hlen : length (data toy_labels) = length (data toy_inputs))
    by (vm_compute; reflexivity).
  split; [exact toy_size |]. split; [exact Hlen |].
  exact (scheduler_steps_once_per_epoch (H := ZTorch) toy_inputs toy_labels
           0%nat 50 toy_size Hlen).
Defined.

(** C10 on the toy world. *)
Lemma valid_never_divides_by_zero_witness :
  built_on toy_inputs toy_labels toy_world /\
  1 <= len (data toy_inputs) <= sys_maxsize /\
  length (data toy_labels) = length (data toy_inputs) /\
  exists (n : Z) (valid_partition : list nat) (t_size : Z) (total : Z)
         (mean_f1 : list PyFloat.float) (w' : World),
    int_mul_0_90 (len (data toy_inputs)) = Ok n /\
    n < len (data toy_inputs) /\
    dl_sampler (valid_loader (F_Net toy_world)) =
      SubsetRandomSampler valid_partition /\
    valid_partition <> [] /\
    t_size = len valid_partition /\
    1 <= t_size /\
    mean_f1 <> [] /\
    valid toy_world = Ok ((t_item (t_div_int total t_size), np_mean mean_f1), w').
Proof.
  assert (Hsize : 1 <= len (data toy_inputs) <= sys_maxsize)
    by (vm_compute; split; discriminate).
  assert (Hlen : length (data toy_labels) = length (data toy_inputs))
    by (vm_compute; reflexivity).
  split; [exact toy_world_built |]. split; [exact Hsize |]. split; [exact Hlen |].
  exact (valid_never_divides_by_zero toy_inputs toy_labels toy_world
           toy_world_built Hsize Hlen).
Defined.

(** * The definitions on concrete inputs *)

(** The literal [0.90] is the quotient of 9 by 10 rounded to a double. *)
Example lit_0_90_is_nine_tenths :
  SFdiv PyFloat.prec PyFloat.emax
    (S754_finite false 5066549580791808 (-49))
    (S754_finite false 5629499534213120 (-49)) = PyFloat.lit_0_90 /\
  PyFloat.of_int 9 = Ok (S754_finite false 5066549580791808 (-49)) /\
  PyFloat.of_int 10 = Ok (S754_finite false 5629499534213120 (-49)).
Proof. vm_compute. repeat split. Qed.

(** [int(N * 0.90)] for some sizes, the last three around [n_train_bound]. *)
Example int_mul_0_90_values :
  int_mul_0_90 0 = Ok 0 /\
  int_mul_0_90 1 = Ok 0 /\
  int_mul_0_90 10 = Ok 9 /\
  int_mul_0_90 4880 = Ok 4392 /\
  int_mul_0_90 1250999896491801 = Ok 1125899906842620 /\
  int_mul_0_90 1250999896491811 = Ok 1125899906842630 /\
  9 * 1250999896491811 / 10 = 1125899906842629.
Proof. vm_compute. repeat split. Qed.

(** The step size after the 25th step of the scheduler. *)
Example lr_after_25_epochs :
  decayed PyFloat.lit_1e_3 PyFloat.lit_0_1 25 24 = PyFloat.lit_1e_3 /\
  decayed PyFloat.lit_1e_3 PyFloat.lit_0_1 25 25 =
    S754_finite false 7378697629483821 (-66).
Proof. vm_compute. split; reflexivity. Qed.

(** The validation examples of the toy world come in two batches, of 64 and
    of 6 examples; the mean of their two F1 scores, which [valid] returns,
    is not the F1 score of the 70 examples together. *)
Example valid_f1_on_toy_world :
  map (fun b => len (fst b)) (pass toy_dataset 64 0%nat (seq 630 70)) = [64; 6] /\
  match valid toy_world with
  | Ok ((_, mean_f1), _) => mean_f1
  | Raise _ => S754_nan
  end = S754_finite false 8506799296144270 (-55) /\
  micro_f1 (skipn 630 (data toy_labels))
    (round_int (predict (set_training false toy_model)
                        (skipn 630 (data toy_inputs)))) =
  S754_finite false 8276885801653885 (-54).
Proof. vm_compute. repeat split. Qed.

(** [test] on the validation examples as a test set returns the F1 score of
    the 70 examples together. *)
Example test_f1_on_toy_world :
  let test_inputs := {| data := skipn 630 (data toy_inputs); shape_1 := 2 |} in
  let test_labels := {| data := skipn 630 (data toy_labels); shape_1 := 1 |} in
  match testing test_inputs test_labels toy_world with
  | Ok ((_, f1), _) => f1
  | Raise _ => S754_nan
  end = S754_finite false 8276885801653885 (-54).
Proof. vm_compute. reflexivity. Qed.

(** On a data set of one example the training partition is empty and
    [train] raises; on the empty data set [valid] raises too. *)
Example train_raises_on_one_example :
  match setup {| data := [[1]]; shape_1 := 1 |} {| data := [[1]]; shape_1 := 1 |}
              0%nat with
  | Ok w => train 0 w
  | Raise e => Raise e
  end = Raise ZeroDivisionError.
Proof. vm_compute. reflexivity. Qed.

Example valid_raises_on_no_example :
  match setup {| data := []; shape_1 := 1 |} {| data := []; shape_1 := 1 |}
              0%nat with
  | Ok w => valid w
  | Raise e => Raise e
  end = Raise ZeroDivisionError.
Proof. vm_compute. reflexivity. Qed.

(** * Further properties of the code *)

Section Further.
Context {T : Type} `{Torch T} `{Auxiliary}.

(** [int(N * 0.90)] for every length of a Python sequence. *)
Lemma int_mul_0_90_bounds (N : Z) :
  0 <= N <= sys_maxsize ->
  exists n : Z,
    int_mul_0_90 N = Ok n /\ 0 <= n <= N /\ (1 <= N -> n < N) /\ (2 <= N -> 1 <= n).
Proof.
  intros HN.
  destruct (Z.eq_dec N 0) as [-> | Hnz].
  - exists 0. split; [reflexivity | lia].
  - destruct (int_mul_0_90_lt N) as (n & Hn & Hlt & Hge).
    + split; [lia |]. apply Z.le_lt_trans with sys_maxsize; [lia |].
      unfold sys_maxsize.
      assert (2 ^ 63 <= 2 ^ 900) by (apply Z.pow_le_mono_r; lia). lia.
    + exists n. split; [exact Hn |]. lia.
Qed.

(** X1: whenever the constructor returns on a data set of [N] rows, [N] up
    to [sys.maxsize], with [n_train = int(N * 0.90)] the training loader
    samples from the indices [0 .. n_train - 1] and the validation loader
    from [n_train .. N - 1], both over the same data set in batches of 64;
    [0 <= n_train <= N], [n_train < N] from one example on and
    [1 <= n_train] from two examples on. *)
Theorem partition_in_order_every_size (inputs : ndarray T) (labels : ndarray Z)
  (g g' : Generator) (net : FeatureNetwork) :
  len (data inputs) <= sys_maxsize ->
  FeatureNetwork_init inputs labels g = Ok (net, g') ->
  exists n : Z,
    int_mul_0_90 (len (data inputs)) = Ok n /\
    n_train net = n /\
    0 <= n <= len (data inputs) /\
    (1 <= len (data inputs) -> n < len (data inputs)) /\
    (2 <= len (data inputs) -> 1 <= n) /\
    train_loader net =
      {| dl_dataset := {| inputs := inputs; labels := labels |};
         dl_batch_size := 64;
         dl_sampler := SubsetRandomSampler (seq 0 (Z.to_nat n)) |} /\
    valid_loader net =
      {| dl_dataset := {| inputs := inputs; labels := labels |};
         dl_batch_size := 64;
         dl_sampler :=
           SubsetRandomSampler
             (seq (Z.to_nat n) (length (data inputs) - Z.to_nat n)) |}.
Proof.
  intros HN Hret.
  destruct (int_mul_0_90_bounds (len (data inputs))) as (n & Hn & Hr & Hlt & Hge).
  { unfold len in *. lia. }
  destruct (FeatureNetwork_init_ok inputs labels g n Hn)
    as (net0 & g0 & Hinit & Hnt & _ & Htr & Hva).
  rewrite Hret in Hinit. injection Hinit as <- <-.
  exists n. repeat split; try assumption; try lia.
  - rewrite Htr, slice_to_range by exact Hr. reflexivity.
  - rewrite Hva, slice_from_range by exact Hr.
    unfold len. now rewrite Nat2Z.id.
Qed.

(** X3: on a data set of no or one example the training partition is empty,
    no batch is drawn, and [train] raises [ZeroDivisionError] at
    [t_loss /= t_size]. *)
Theorem train_raises_without_training_examples (inputs : ndarray T)
  (labels : ndarray Z) (w : World) (ep : Z) :
  built_on inputs labels w ->
  len (data inputs) <= 1 ->
  train ep w = Raise ZeroDivisionError.
Proof.
  intros Hb HN.
  assert (Hn : int_mul_0_90 (len (data inputs)) = Ok 0).
  { assert (Hc : len (data inputs) = 0 \/ len (data inputs) = 1)
      by (unfold len in *; lia).
    destruct Hc as [-> | ->]; reflexivity. }
  destruct (built_on_loaders inputs labels w 0 Hb Hn) as [Htr _].
  { unfold len. lia. }
  exact (train_empty w _ _ ep Htr).
Qed.

(** X4: on the empty data set the validation partition is empty and [valid]
    raises [ZeroDivisionError] at [loss /= t_size]. *)
Theorem valid_raises_on_empty_dataset (inputs : ndarray T) (labels : ndarray Z)
  (w : World) :
  built_on inputs labels w ->
  data inputs = [] ->
  valid w = Raise ZeroDivisionError.
Proof.
  intros Hb Hd.
  assert (Hn : int_mul_0_90 (len (data inputs)) = Ok 0) by (now rewrite Hd).
  destruct (built_on_loaders inputs labels w 0 Hb Hn) as [_ Hva].
  { unfold len. lia. }
  rewrite Hd in Hva. exact (valid_empty w _ _ Hva).
Qed.

(** X5: the testing phase of the script on a test set without rows raises
    [ZeroDivisionError]: [test] divides by [t_size] before it concatenates
    the outputs. *)
Theorem testing_raises_on_empty_test_set (test_inputs : ndarray T)
  (test_labels : ndarray Z) (w : World) :
  data test_inputs = [] ->
  testing test_inputs test_labels w = Raise ZeroDivisionError.
Proof.
  intros Hd. unfold testing, bind at 1, gets. unfold test.
  unfold bind at 1. unfold on_model at 1, Module_eval, modify.
  unfold bind at 1. unfold on_generator at 1.
  unfold DataLoader_iter, bind at 1. cbn [dl_sampler Sampler_iter].
  unfold MyDataset_len. cbn [inputs]. rewrite Hd. reflexivity.
Qed.


(** X9: whenever [valid] returns, the world it leaves is the one it was
    called in with the model in evaluation mode and the generator advanced:
    the parameters, the state of the optimiser and the gradients are
    untouched. *)
Theorem valid_leaves_model_untrained (w w' : World)
  (v : PyFloat.float * PyFloat.float) :
  valid w = Ok (v, w') ->
  (exists g' : Generator,
     w' = with_model (set_training false (model (F_Net w))) (set_generator g' w)) /\
  parameters (model (F_Net w')) = parameters (model (F_Net w)) /\
  optimizer (model (F_Net w')) = optimizer (model (F_Net w)) /\
  grad (model (F_Net w')) = grad (model (F_Net w)) /\
  training (model (F_Net w')) = false.
Proof.
  unfold valid. unfold bind at 1. unfold on_model at 1, Module_eval, modify.
  set (m := set_training false (model (F_Net w))).
  unfold bind at 1. unfold gets at 1.
  unfold bind at 1. unfold on_generator at 1.
  change (generator (set_F_Net (set_model m (F_Net w)) w)) with (generator w).
  destruct (DataLoader_iter _ (generator w)) as [[batches g'] | e]; [| discriminate].
  change (set_generator g' (set_F_Net (set_model m (F_Net w)) w))
    with (with_model m (set_generator g' w)).
  unfold bind at 1. rewrite valid_loop.
  unfold bind, lift, ret.
  destruct (py_itruediv _ _) as [q | e]; [| discriminate].
  destruct (py_item q) as [x | e]; [| discriminate].
  intros Heq. injection Heq as _ <-.
  split; [exists g'; reflexivity |]. repeat split.
Qed.

(** X11: whenever [test] returns, on any loader, the world it leaves is the
    one it was called in with the model in evaluation mode and the generator
    advanced: parameters, optimiser, gradients, the loaders of the network,
    the scheduler and the results are untouched. *)
Theorem test_leaves_model_untrained (test_loader : DataLoader T)
  (test_labels : ndarray Z) (w w' : World) (v : pyval T * PyFloat.float) :
  test test_loader test_labels w = Ok (v, w') ->
  (exists g' : Generator,
     w' = with_model (set_training false (model (F_Net w))) (set_generator g' w)) /\
  parameters (model (F_Net w')) = parameters (model (F_Net w)) /\
  optimizer (model (F_Net w')) = optimizer (model (F_Net w)) /\
  grad (model (F_Net w')) = grad (model (F_Net w)) /\
  training (model (F_Net w')) = false /\
  train_loader (F_Net w') = train_loader (F_Net w) /\
  valid_loader (F_Net w') = valid_loader (F_Net w) /\
  scheduler w' = scheduler w /\
  results w' = results w.
Proof.
  unfold test. unfold bind at 1. unfold on_model at 1, Module_eval, modify.
  set (m := set_training false (model (F_Net w))).
  unfold bind at 1. unfold on_generator at 1.
  change (generator (set_F_Net (set_model m (F_Net w)) w)) with (generator w).
  destruct (DataLoader_iter _ (generator w)) as [[batches g'] | e]; [| discriminate].
  change (set_generator g' (set_F_Net (set_model m (F_Net w)) w))
    with (with_model m (set_generator g' w)).
  unfold bind at 1. rewrite test_loop.
  unfold bind, lift, ret.
  destruct (py_itruediv _ _) as [q | e]; [| discriminate].
  destruct (torch_cat _) as [x | e]; [| discriminate].
  intros Heq. injection Heq as _ <-.
  split; [exists g'; reflexivity |]. repeat split.
Qed.

(** X7: [train] zeroes the gradients before every backward pass: what it
    returns, and the world it leaves, do not depend on the gradients the
    model held when it was called. *)
Theorem train_ignores_stale_gradients (w : World) (ep : Z) (g0 : option Grad) :
  train ep (with_model (set_grad g0 (model (F_Net w))) w) = train ep w.
Proof.
  unfold train. unfold bind, on_model, Module_train, modify, gets, on_generator.
  cbn [model F_Net with_model set_F_Net set_model generator train_loader].
  destruct (DataLoader_iter (train_loader (F_Net w)) (generator w))
    as [[batches g'] | e]; [| reflexivity].
  destruct batches as [| [x y] rest]; [reflexivity |].
  unfold enumerate. cbn [length seq map combine for_each].
  unfold bind. reflexivity.
Qed.

(** The number of batches of a pass, and their sizes. *)
Lemma BatchSampler_length (bs : nat) (l batch : list nat) :
  (length batch < bs)%nat ->
  length (BatchSampler bs batch l) =
  ((length batch + length l + bs - 1) / bs)%nat.
Proof.
  revert batch. induction l as [| idx l IH]; intros batch Hb.
  - cbn [BatchSampler length]. destruct batch as [| a batch'].
    + cbn [length]. symmetry. apply Nat.div_small. lia.
    + cbn [length] in *.
      apply (Nat.div_unique _ _ 1%nat (length batch')); lia.
  - cbn [BatchSampler]. rewrite length_app. cbn [length].
    destruct (Nat.eqb (length batch + 1) bs) eqn:E.
    + apply Nat.eqb_eq in E. cbn [length]. rewrite IH by (cbn [length]; lia).
      cbn [length].
      replace (length batch + S (length l) + bs - 1)%nat
        with (0 + length l + bs - 1 + 1 * bs)%nat by lia.
      rewrite Nat.div_add by lia. symmetry. apply Nat.add_1_r.
    + apply Nat.eqb_neq in E. rewrite IH by (rewrite length_app; cbn [length]; lia).
      rewrite length_app. cbn [length]. f_equal. lia.
Qed.

Lemma BatchSampler_full (bs : nat) (l batch : list nat) :
  Forall (fun b => length b = bs) (removelast (BatchSampler bs batch l)).
Proof.
  revert batch. induction l as [| idx l IH]; intros batch.
  - cbn [BatchSampler]. destruct batch; constructor.
  - cbn [BatchSampler]. destruct (Nat.eqb (length (batch ++ [idx])) bs) eqn:E.
    + apply Nat.eqb_eq in E.
      destruct (BatchSampler bs [] l) as [| b rest] eqn:Hr; [constructor |].
      cbn [removelast]. constructor; [exact E |].
      specialize (IH []). rewrite Hr in IH. exact IH.
    + apply IH.
Qed.

Lemma removelast_map {A B : Type} (f : A -> B) (l : list A) :
  removelast (map f l) = map f (removelast l).
Proof.
  induction l as [| a l IH]; [reflexivity |].
  destruct l as [| b l']; [reflexivity |].
  cbn [map removelast] in *. now rewrite IH.
Qed.

Lemma pass_length (d : MyDataset T) (bs : nat) (g : Generator)
  (indices : list nat) :
  (0 < bs)%nat ->
  len (pass d bs g indices) = (len indices + Z.of_nat bs - 1) / Z.of_nat bs.
Proof.
  intros Hbs. unfold pass, len. rewrite length_map, BatchSampler_length by exact Hbs.
  cbn [length]. rewrite (Permutation_length (sampled_perm g indices)).
  rewrite Nat2Z.inj_div. f_equal. lia.
Qed.

Lemma pass_full (d : MyDataset T) (bs : nat) (g : Generator)
  (indices : list nat) :
  Forall (fun b => len (fst b) = Z.of_nat bs) (removelast (pass d bs g indices)).
Proof.
  unfold pass. rewrite removelast_map. apply Forall_map.
  eapply Forall_impl; [| apply BatchSampler_full].
  intros b Hb. unfold collate, len. cbn [fst]. now rewrite length_map, Hb.
Qed.

(** X8: on a network built on [2 <= N <= sys.maxsize] examples [train] takes
    one optimisation step per batch, in the order of the batches, from the
    model in training mode: there are [ceil(n_train / 64)] batches, all of 64
    examples but possibly the last, [n_train] examples in all. *)
Theorem train_steps_once_per_batch (inputs : ndarray T) (labels : ndarray Z)
  (w : World) (ep : Z) :
  built_on inputs labels w ->
  2 <= len (data inputs) <= sys_maxsize ->
  length (data labels) = length (data inputs) ->
  exists (n : Z) (batches : list (list (list T) * list (list Z)))
         (v : pyval T) (w' : World),
    int_mul_0_90 (len (data inputs)) = Ok n /\
    train ep w = Ok (v, w') /\
    model (F_Net w') =
      fold_left sgd_step batches (set_training true (model (F_Net w))) /\
    len batches = (n + 63) / 64 /\
    Forall (fun b => len (fst b) = 64) (removelast batches) /\
    examples batches = n.
Proof.
  intros Hb HN Hlen.
  destruct (int_mul_0_90_bounds (len (data inputs)) ltac:(lia))
    as (n & Hn & Hr & Hlt & Hge).
  destruct (built_on_loaders inputs labels w n Hb Hn Hr) as [Htr _].
  set (d := {| inputs := inputs; labels := labels |}) in *.
  set (tr := seq 0 (Z.to_nat n)) in *.
  assert (Hltr : len tr = n) by (unfold tr, len; rewrite length_seq; lia).
  assert (Hntr : tr <> []).
  { intros Hnil. rewrite Hnil in Hltr. cbn in Hltr. lia. }
  assert (Hitr : in_dataset d tr).
  { apply in_dataset_seq; [assumption | unfold len in *; lia]. }
  destruct (train_ok w d 64 tr ep Htr Hitr Hntr) as (fn & l1 & ls & _ & _ & Htrain).
  { rewrite Hltr. unfold sys_maxsize in HN.
    assert (2 ^ 63 <= 2 ^ 900) by (apply Z.pow_le_mono_r; lia). lia. }
  exists n, (pass d 64 (generator w) tr). eexists. eexists.
  split; [exact Hn |]. split; [exact Htrain |]. split; [reflexivity |]. split.
  - rewrite pass_length by lia. rewrite Hltr. change (Z.of_nat 64) with 64. f_equal. lia.
  - split; [apply (pass_full d 64) |]. now rewrite pass_examples.
Qed.

(** X10: on a network built on [1 <= N <= sys.maxsize] examples [valid]
    averages [ceil((N - n_train) / 64)] F1 scores, one per batch; all batches
    have 64 examples but possibly the last, and together the [N - n_train]
    validation examples. *)
Theorem valid_scores_once_per_batch (inputs : ndarray T) (labels : ndarray Z)
  (w : World) :
  built_on inputs labels w ->
  1 <= len (data inputs) <= sys_maxsize ->
  length (data labels) = length (data inputs) ->
  exists (n : Z) (batches : list (list (list T) * list (list Z)))
         (loss : PyFloat.float) (w' : World),
    let m := set_training false (model (F_Net w)) in
    int_mul_0_90 (len (data inputs)) = Ok n /\
    valid w = Ok ((loss, np_mean (map (batch_f1 m) batches)), w') /\
    len (map (batch_f1 m) batches) = (len (data inputs) - n + 63) / 64 /\
    Forall (fun b => len (fst b) = 64) (removelast batches) /\
    examples batches = len (data inputs) - n.
Proof.
  intros Hb HN Hlen.
  destruct (int_mul_0_90_bounds (len (data inputs)) ltac:(lia))
    as (n & Hn & Hr & Hlt & Hge).
  specialize (Hlt ltac:(lia)).
  destruct (built_on_loaders inputs labels w n Hb Hn Hr) as [_ Hva].
  set (d := {| inputs := inputs; labels := labels |}) in *.
  set (va := seq (Z.to_nat n) (length (data inputs) - Z.to_nat n)) in *.
  assert (Hlva : len va = len (data inputs) - n).
  { unfold va, len in *. rewrite length_seq. lia. }
  assert (Hnva : va <> []).
  { intros Hnil. rewrite Hnil in Hlva. cbn in Hlva. lia. }
  assert (Hiva : in_dataset d va).
  { apply in_dataset_seq; [assumption | unfold len in *; lia]. }
  destruct (valid_ok w d 64 va Hva Hiva Hnva) as (l1 & ls & _ & Hvalid).
  exists n, (pass d 64 (generator w) va). eexists. eexists.
  split; [exact Hn |]. split; [exact Hvalid |]. split.
  - unfold len at 1. rewrite length_map. fold (len (pass d 64 (generator w) va)).
    rewrite pass_length by lia. rewrite Hlva. change (Z.of_nat 64) with 64. f_equal. lia.
  - split; [apply (pass_full d 64) |]. now rewrite pass_examples.
Qed.


(** The script's constructor and [k] epochs of its loop return. *)
Lemma setup_epochs (inputs : ndarray T) (labels : ndarray Z) (g : Generator)
  (k : nat) :
  2 <= len (data inputs) <= sys_maxsize ->
  length (data labels) = length (data inputs) ->
  exists (n : Z) (w0 w' : World),
    int_mul_0_90 (len (data inputs)) = Ok n /\
    1 <= n < len (data inputs) /\
    setup inputs labels g = Ok w0 /\
    results w0 = {| loss_train := []; loss_valid := []; f1_valid := [] |} /\
    epochs (Z.of_nat k) w0 = Ok (tt, w') /\
    epoch_inv {| inputs := inputs; labels := labels |}
      (seq 0 (Z.to_nat n))
      (seq (Z.to_nat n) (Z.to_nat (len (data inputs)) - Z.to_nat n))
      0 w0 /\
    epoch_inv {| inputs := inputs; labels := labels |}
      (seq 0 (Z.to_nat n))
      (seq (Z.to_nat n) (Z.to_nat (len (data inputs)) - Z.to_nat n))
      (Z.of_nat k) w'.
Proof.
  intros HN Hlen.
  destruct (int_mul_0_90_lt (len (data inputs))
              ltac:(unfold sys_maxsize in HN; lia)) as (n & Hn & Hrange & Hpos).
  specialize (Hpos ltac:(lia)).
  destruct (FeatureNetwork_init_ok inputs labels g n Hn)
    as (net & g' & Hinit & _ & Hlr & Htr & Hva).
  rewrite (slice_to_range (len (data inputs)) n ltac:(lia)) in Htr.
  rewrite (slice_from_range (len (data inputs)) n ltac:(lia)) in Hva.
  set (d := {| inputs := inputs; labels := labels |}) in *.
  set (tr := seq 0 (Z.to_nat n)) in *.
  set (va := seq (Z.to_nat n) (Z.to_nat (len (data inputs)) - Z.to_nat n)) in *.
  set (w0 := {| generator := g'; F_Net := net;
                scheduler := StepLR_init 25 PyFloat.lit_0_1;
                results := {| loss_train := []; loss_valid := []; f1_valid := [] |} |}).
  assert (Hinv : epoch_inv d tr va 0 w0).
  { unfold epoch_inv, w0. cbn. repeat split; assumption. }
  assert (Hntr : tr <> []).
  { unfold tr. intros Hnil. apply (f_equal (@length nat)) in Hnil.
    rewrite length_seq in Hnil. cbn [length] in Hnil. lia. }
  assert (Hnva : va <> []).
  { unfold va. intros Hnil. apply (f_equal (@length nat)) in Hnil.
    rewrite length_seq in Hnil. cbn [length] in Hnil. lia. }
  assert (Hitr : in_dataset d tr).
  { apply in_dataset_seq; [assumption | unfold len in *; lia]. }
  assert (Hiva : in_dataset d va).
  { apply in_dataset_seq; [assumption | unfold len in *; lia]. }
  assert (Hltr : len tr < 2 ^ 900).
  { unfold tr, len. rewrite length_seq. unfold sys_maxsize in HN. lia. }
  destruct (epochs_ok d tr va k 0 0 w0 Hitr Hiva Hntr Hnva Hltr ltac:(lia) Hinv)
    as (w' & Hrun & Hinv').
  exists n, w0, w'. split; [exact Hn |]. split; [lia |]. split.
  { unfold setup. now rewrite Hinit. }
  split; [reflexivity |]. split.
  { unfold epochs, range. now rewrite Nat2Z.id. }
  split; [exact Hinv | exact Hinv'].
Qed.

(** An epoch appends one value to each list of [results]: what [train]
    returned, and the two values [valid] returned. *)
Lemma epoch_body_results (epoch : Z) (w w' : World) :
  epoch_body epoch w = Ok (tt, w') ->
  exists (a : pyval T) (b c : PyFloat.float) (w1 w2 : World),
    train epoch w = Ok (a, w1) /\
    valid w1 = Ok ((b, c), w2) /\
    results w' =
      {| loss_train := loss_train (results w) ++ [a];
         loss_valid := loss_valid (results w) ++ [b];
         f1_valid := f1_valid (results w) ++ [c] |}.
Proof.
  unfold epoch_body. unfold bind at 1.
  destruct (train epoch w) as [[a w1] |] eqn:Htrain; [| discriminate].
  unfold bind at 1.
  destruct (valid w1) as [[[b c] w2] |] eqn:Hvalid; [| discriminate].
  unfold bind, scheduler_step, modify. intros Heq. injection Heq as <-.
  exists a, b, c, w1, w2. split; [reflexivity |]. split; [exact Hvalid |].
  destruct (train_frame _ _ _ _ Htrain) as (_ & Hr1 & _).
  destruct (valid_frame _ _ _ Hvalid) as (_ & Hr2 & _).
  cbn [results set_results set_scheduler set_F_Net]. now rewrite Hr2, Hr1.
Qed.

Lemma epochs_results (l : list nat) (w w' : World) :
  for_each (fun (_ : unit) (epoch : nat) => epoch_body (Z.of_nat epoch)) l tt w =
    Ok (tt, w') ->
  exists (la : list (pyval T)) (lb lc : list PyFloat.float),
    results w' =
      {| loss_train := loss_train (results w) ++ la;
         loss_valid := loss_valid (results w) ++ lb;
         f1_valid := f1_valid (results w) ++ lc |} /\
    length la = length l /\ length lb = length l /\ length lc = length l.
Proof.
  revert w. induction l as [| e l IH]; intros w.
  - cbn [for_each]. unfold ret. intros Heq. injection Heq as <-.
    exists [], [], []. rewrite !app_nil_r. destruct (results w). now cbn.
  - cbn [for_each]. unfold bind at 1.
    destruct (epoch_body (Z.of_nat e) w) as [[[] w1] |] eqn:Hbody; [| discriminate].
    intros Hrest.
    destruct (epoch_body_results _ _ _ Hbody) as (a & b & c & _ & _ & _ & _ & Hr1).
    destruct (IH _ Hrest) as (la & lb & lc & Hr & Ha & Hb & Hc).
    exists (a :: la), (b :: lb), (c :: lc).
    rewrite Hr, Hr1. cbn [loss_train loss_valid f1_valid length].
    rewrite <- !app_assoc. cbn [app]. repeat split; congruence.
Qed.

(** X12: an epoch of the loop of the script appends one value to each of the
    three lists of [results], what [train] returned and the loss and the F1
    score [valid] returned after it, and keeps the earlier entries; after [k]
    epochs from the start each list has [k] entries. *)
Theorem results_grow_once_per_epoch (inputs : ndarray T) (labels : ndarray Z)
  (g : Generator) (k : nat) :
  2 <= len (data inputs) <= sys_maxsize ->
  length (data labels) = length (data inputs) ->
  exists (w0 w' : World),
    setup inputs labels g = Ok w0 /\
    epochs (Z.of_nat k) w0 = Ok (tt, w') /\
    length (loss_train (results w')) = k /\
    length (loss_valid (results w')) = k /\
    length (f1_valid (results w')) = k /\
    (forall (epoch : Z) (w1 w2 : World),
        epoch_body epoch w1 = Ok (tt, w2) ->
        exists (a : pyval T) (b c : PyFloat.float) (wt wv : World),
          train epoch w1 = Ok (a, wt) /\
          valid wt = Ok ((b, c), wv) /\
          results w2 =
            {| loss_train := loss_train (results w1) ++ [a];
               loss_valid := loss_valid (results w1) ++ [b];
               f1_valid := f1_valid (results w1) ++ [c] |}).
Proof.
  intros HN Hlen.
  destruct (setup_epochs inputs labels g k HN Hlen)
    as (n & w0 & w' & _ & _ & Hsetup & Hr0 & Hrun & _ & _).
  exists w0, w'. split; [exact Hsetup |]. split; [exact Hrun |].
  pose proof Hrun as Hrun'. unfold epochs in Hrun'.
  apply epochs_results in Hrun'.
  destruct Hrun' as (la & lb & lc & Hr & Ha & Hb & Hc).
  unfold range in Ha, Hb, Hc. rewrite length_seq, Nat2Z.id in Ha, Hb, Hc.
  rewrite Hr, Hr0. cbn [loss_train loss_valid f1_valid app].
  repeat split; try assumption. apply epoch_body_results.
Qed.

(** X2: the loaders, and so the partition into training and validation
    indices, are after any number of epochs those the constructor built:
    no epoch moves an example from one partition to the other. *)
Theorem partition_fixed_across_epochs (inputs : ndarray T) (labels : ndarray Z)
  (g : Generator) (k : nat) :
  2 <= len (data inputs) <= sys_maxsize ->
  length (data labels) = length (data inputs) ->
  exists (w0 w' : World),
    setup inputs labels g = Ok w0 /\
    epochs (Z.of_nat k) w0 = Ok (tt, w') /\
    train_loader (F_Net w') = train_loader (F_Net w0) /\
    valid_loader (F_Net w') = valid_loader (F_Net w0) /\
    built_on inputs labels w'.
Proof.
  intros HN Hlen.
  destruct (setup_epochs inputs labels g k HN Hlen)
    as (n & w0 & w' & Hn & _ & Hsetup & _ & Hrun & Hinv0 & Hinv).
  destruct Hinv0 as (Htr0 & Hva0 & _). destruct Hinv as (Htr & Hva & _).
  exists w0, w'. split; [exact Hsetup |]. split; [exact Hrun |].
  split; [now rewrite Htr, Htr0 |]. split; [now rewrite Hva, Hva0 |].
  exists g. unfold setup in Hsetup.
  destruct (FeatureNetwork_init inputs labels g) as [[net g'] |]; [| discriminate].
  injection Hsetup as <-. cbn [F_Net] in Htr0, Hva0.
  split; [now rewrite Htr, Htr0 | now rewrite Hva, Hva0].
Qed.


(** An optimisation step writes the parameters and the state of the
    optimiser only. *)
Lemma sgd_step_fields (m : FeatureMLP) (b : list (list T) * list (list Z)) :
  training (sgd_step m b) = training m /\
  only_feature_extraction (sgd_step m b) = only_feature_extraction m /\
  n_hidden_units (sgd_step m b) = n_hidden_units m.
Proof.
  destruct b as [x y]. rewrite sgd_step_eq. cbn [grad set_grad].
  destruct (adam_update _ _ _ _) as [p s]. repeat split.
Qed.

Lemma train_loop_fields (w : World)
  (l : list (Z * (list (list T) * list (list Z))))
  (m : FeatureMLP) (acc acc' : pyval T * Z) (w' : World) :
  for_each train_body l acc (with_model m w) = Ok (acc', w') ->
  exists m', w' = with_model m' w /\
    lr (optimizer m') = lr (optimizer m) /\
    training m' = training m /\
    only_feature_extraction m' = only_feature_extraction m /\
    n_hidden_units m' = n_hidden_units m.
Proof.
  revert m acc. induction l as [| [i [x y]] l IH]; intros m [a t] Hrun.
  - cbn [for_each] in Hrun. unfold ret in Hrun.
    injection Hrun as _ <-. now exists m.
  - cbn [for_each] in Hrun. unfold bind at 1 in Hrun.
    rewrite train_body_step in Hrun.
    destruct (py_iadd a _) as [a' | e]; [| discriminate].
    apply IH in Hrun. destruct Hrun as (m' & -> & Hlr & Ht & Hf & Hh).
    destruct (sgd_step_fields m (x, y)) as (Ht' & Hf' & Hh').
    exists m'. split; [reflexivity |].
    rewrite Hlr, Ht, Hf, Hh, lr_sgd_step. auto.
Qed.

(** X6: whenever [train] returns, the world it leaves differs from the one
    it was called in by the model and the generator only (data, loaders,
    scheduler and results are the same), and the new model is in training
    mode with the mode flag, the number of hidden units and the step size
    of the old one. *)
Theorem train_changes_only_model_and_generator (w w' : World) (ep : Z)
  (v : pyval T) :
  train ep w = Ok (v, w') ->
  exists (m' : FeatureMLP) (g' : Generator),
    w' = with_model m' (set_generator g' w) /\
    training m' = true /\
    only_feature_extraction m' = only_feature_extraction (model (F_Net w)) /\
    n_hidden_units m' = n_hidden_units (model (F_Net w)) /\
    lr (optimizer m') = lr (optimizer (model (F_Net w))).
Proof.
  unfold train. unfold bind at 1. unfold on_model at 1, Module_train, modify.
  set (m := set_training true (model (F_Net w))).
  unfold bind at 1. unfold gets at 1.
  unfold bind at 1. unfold on_generator at 1.
  change (generator (set_F_Net (set_model m (F_Net w)) w)) with (generator w).
  destruct (DataLoader_iter _ (generator w)) as [[batches g'] | e]; [| discriminate].
  change (set_generator g' (set_F_Net (set_model m (F_Net w)) w))
    with (with_model m (set_generator g' w)).
  unfold bind at 1.
  destruct (for_each train_body (enumerate batches) (PyInt 0, 0) _)
    as [[[t_loss t_size] w1] | e] eqn:Hloop; [| discriminate].
  apply train_loop_fields in Hloop.
  destruct Hloop as (m' & -> & Hlr & Ht & Hf & Hh).
  unfold bind, lift, ret.
  destruct (py_itruediv t_loss t_size) as [q | e]; [| discriminate].
  intros Heq. injection Heq as _ <-.
  exists m', g'. split; [reflexivity |]. rewrite Hlr, Ht, Hf, Hh. repeat split.
Qed.

End Further.

(** ** The further properties on concrete inputs *)

Lemma toy_net_returns :
  FeatureNetwork_init toy_inputs toy_labels 0%nat = Ok (fst toy_net, snd toy_net).
Proof.
  unfold toy_net.
  assert (Hok : match FeatureNetwork_init toy_inputs toy_labels 0%nat with
                | Ok _ => true
                | Raise _ => false
                end = true) by (vm_compute; reflexivity).
  destruct (FeatureNetwork_init (H := ZTorch) toy_inputs toy_labels 0%nat)
    as [[net g'] | e];
    [reflexivity | discriminate Hok].
Defined.

(** X1 on the seven hundred examples. *)
Lemma partition_in_order_every_size_witness :
  len (data toy_inputs) <= sys_maxsize /\
  FeatureNetwork_init toy_inputs toy_labels 0%nat = Ok (fst toy_net, snd toy_net) /\
  exists n : Z,
    int_mul_0_90 (len (data toy_inputs)) = Ok n /\
    n_train (fst toy_net) = n /\
    0 <= n <= len (data toy_inputs) /\
    (1 <= len (data toy_inputs) -> n < len (data toy_inputs)) /\
    (2 <= len (data toy_inputs) -> 1 <= n) /\
    train_loader (fst toy_net) =
      {| dl_dataset := {| inputs := toy_inputs; labels := toy_labels |};
         dl_batch_size := 64;
         dl_sampler := SubsetRandomSampler (seq 0 (Z.to_nat n)) |} /\
    valid_loader (fst toy_net) =
      {| dl_dataset := {| inputs := toy_inputs; labels := toy_labels |};
         dl_batch_size := 64;
         dl_sampler :=
           SubsetRandomSampler
             (seq (Z.to_nat n) (length (data toy_inputs) - Z.to_nat n)) |}.
Proof.
  assert (Hsize : len (data toy_inputs) <= sys_maxsize)
    by (vm_compute; discriminate).
  split; [exact Hsize |]. split; [exact toy_net_returns |].
  exact (partition_in_order_every_size (H := ZTorch) toy_inputs toy_labels
           0%nat (snd toy_net)
           (fst toy_net) Hsize toy_net_returns).
Defined.

Lemma single_world_built :
  built_on single_inputs single_labels (world_on single_inputs single_labels).
Proof. exists 0%nat. vm_compute. split; reflexivity. Defined.

Lemma no_world_built : built_on no_inputs no_labels (world_on no_inputs no_labels).
Proof. exists 0%nat. vm_compute. split; reflexivity. Defined.

(** X3 on the data set of one example. *)
Lemma train_raises_without_training_examples_witness :
  built_on single_inputs single_labels (world_on single_inputs single_labels) /\
  len (data single_inputs) <= 1 /\
  train 0 (world_on single_inputs single_labels) = Raise ZeroDivisionError.
Proof.
  assert (Hsize : len (data single_inputs) <= 1) by (vm_compute; discriminate).
  split; [exact single_world_built |]. split; [exact Hsize |].
  exact (train_raises_without_training_examples single_inputs single_labels
           (world_on single_inputs single_labels) 0 single_world_built Hsize).
Defined.

(** X4 on the data set without examples. *)
Lemma valid_raises_on_empty_dataset_witness :
  built_on no_inputs no_labels (world_on no_inputs no_labels) /\
  data no_inputs = [] /\
  valid (world_on no_inputs no_labels) = Raise ZeroDivisionError.
Proof.
  split; [exact no_world_built |]. split; [reflexivity |].
  exact (valid_raises_on_empty_dataset no_inputs no_labels
           (world_on no_inputs no_labels) no_world_built eq_refl).
Defined.

(** X5 in the toy world. *)
Lemma testing_raises_on_empty_test_set_witness :
  data no_inputs = [] /\
  testing no_inputs no_labels toy_world = Raise ZeroDivisionError.
Proof.
  split; [reflexivity |].
  exact (testing_raises_on_empty_test_set no_inputs no_labels toy_world eq_refl).
Defined.

Lemma small_valid_returns :
  valid small_world = Ok (fst small_valid, snd small_valid).
Proof.
  unfold small_valid.
  assert (Hok : match valid small_world with
                | Ok _ => true
                | Raise _ => false
                end = true) by (vm_compute; reflexivity).
  destruct (valid small_world) as [[v w'] | e];
    [reflexivity | discriminate Hok].
Defined.

Lemma small_train_returns :
  train 0 small_world = Ok (fst small_train, snd small_train).
Proof.
  unfold small_train.
  assert (Hok : match train 0 small_world with
                | Ok _ => true
                | Raise _ => false
                end = true) by (vm_compute; reflexivity).
  destruct (train 0 small_world) as [[v w'] | e];
    [reflexivity | discriminate Hok].
Defined.

Lemma small_test_returns :
  test small_test_loader small_labels small_world =
  Ok (fst small_test, snd small_test).
Proof.
  unfold small_test.
  assert (Hok : match test small_test_loader small_labels small_world with
                | Ok _ => true
                | Raise _ => false
                end = true) by (vm_compute; reflexivity).
  destruct (test small_test_loader small_labels small_world) as [[v w'] | e];
    [reflexivity | discriminate Hok].
Defined.

(** X9 in the world of three examples. *)
Lemma valid_leaves_model_untrained_witness :
  valid small_world = Ok (fst small_valid, snd small_valid) /\
  (exists g' : nat,
     snd small_valid =
     with_model (set_training false (model (F_Net small_world)))
                (set_generator g' small_world)) /\
  parameters (model (F_Net (snd small_valid))) =
    parameters (model (F_Net small_world)) /\
  optimizer (model (F_Net (snd small_valid))) =
    optimizer (model (F_Net small_world)) /\
  grad (model (F_Net (snd small_valid))) = grad (model (F_Net small_world)) /\
  training (model (F_Net (snd small_valid))) = false.
Proof.
  split; [exact small_valid_returns |].
  exact (valid_leaves_model_untrained small_world (snd small_valid)
           (fst small_valid) small_valid_returns).
Defined.

(** X11 in the world of three examples. *)
Lemma test_leaves_model_untrained_witness :
  test small_test_loader small_labels small_world =
    Ok (fst small_test, snd small_test) /\
  (exists g' : nat,
     snd small_test =
     with_model (set_training false (model (F_Net small_world)))
                (set_generator g' small_world)) /\
  parameters (model (F_Net (snd small_test))) =
    parameters (model (F_Net small_world)) /\
  optimizer (model (F_Net (snd small_test))) =
    optimizer (model (F_Net small_world)) /\
  grad (model (F_Net (snd small_test))) = grad (model (F_Net small_world)) /\
  training (model (F_Net (snd small_test))) = false /\
  train_loader (F_Net (snd small_test)) = train_loader (F_Net small_world) /\
  valid_loader (F_Net (snd small_test)) = valid_loader (F_Net small_world) /\
  scheduler (snd small_test) = scheduler small_world /\
  results (snd small_test) = results small_world.
Proof.
  split; [exact small_test_returns |].
  exact (test_leaves_model_untrained small_test_loader small_labels small_world
           (snd small_test) (fst small_test) small_test_returns).
Defined.

(** X6 in the world of three examples. *)
Lemma train_changes_only_model_and_generator_witness :
  train 0 small_world = Ok (fst small_train, snd small_train) /\
  exists (m' : FeatureMLP) (g' : nat),
    snd small_train = with_model m' (set_generator g' small_world) /\
    training m' = true /\
    only_feature_extraction m' =
      only_feature_extraction (model (F_Net small_world)) /\
    n_hidden_units m' = n_hidden_units (model (F_Net small_world)) /\
    lr (optimizer m') = lr (optimizer (model (F_Net small_world))).
Proof.
  split; [exact small_train_returns |].
  exact (train_changes_only_model_and_generator small_world (snd small_train) 0
           (fst small_train) small_train_returns).
Defined.

Lemma toy_labels_length : length (data toy_labels) = length (data toy_inputs).
Proof. vm_compute. reflexivity. Defined.

(** X8 in the toy world. *)
Lemma train_steps_once_per_batch_witness :
  built_on toy_inputs toy_labels toy_world /\
  2 <= len (data toy_inputs) <= sys_maxsize /\
  length (data toy_labels) = length (data toy_inputs) /\
  exists (n : Z) (batches : list (list (list Z) * list (list Z)))
         (v : pyval Z) (w' : World),
    int_mul_0_90 (len (data toy_inputs)) = Ok n /\
    train 0 toy_world = Ok (v, w') /\
    model (F_Net w') =
      fold_left sgd_step batches (set_training true (model (F_Net toy_world))) /\
    len batches = (n + 63) / 64 /\
    Forall (fun b => len (fst b) = 64) (removelast batches) /\
    examples batches = n.
Proof.
  split; [exact toy_world_built |]. split; [exact toy_size |].
  split; [exact toy_labels_length |].
  exact (train_steps_once_per_batch toy_inputs toy_labels toy_world 0
           toy_world_built toy_size toy_labels_length).
Defined.

Lemma toy_size_1 : 1 <= len (data toy_inputs) <= sys_maxsize.
Proof. vm_compute. split; discriminate. Defined.

(** X10 in the toy world. *)
Lemma valid_scores_once_per_batch_witness :
  built_on toy_inputs toy_labels toy_world /\
  1 <= len (data toy_inputs) <= sys_maxsize /\
  length (data toy_labels) = length (data toy_inputs) /\
  exists (n : Z) (batches : list (list (list Z) * list (list Z)))
         (loss : PyFloat.float) (w' : World),
    let m := set_training false (model (F_Net toy_world)) in
    int_mul_0_90 (len (data toy_inputs)) = Ok n /\
    valid toy_world = Ok ((loss, np_mean (map (batch_f1 m) batches)), w') /\
    len (map (batch_f1 m) batches) = (len (data toy_inputs) - n + 63) / 64 /\
    Forall (fun b => len (fst b) = 64) (removelast batches) /\
    examples batches = len (data toy_inputs) - n.
Proof.
  split; [exact toy_world_built |]. split; [exact toy_size_1 |].
  split; [exact toy_labels_length |].
  exact (valid_scores_once_per_batch toy_inputs toy_labels toy_world
           toy_world_built toy_size_1 toy_labels_length).
Defined.

(** X12 on the toy data, for ten epochs. *)
Lemma results_grow_once_per_epoch_witness :
  2 <= len (data toy_inputs) <= sys_maxsize /\
  length (data toy_labels) = length (data toy_inputs) /\
  exists (w0 w' : World),
    setup toy_inputs toy_labels 0%nat = Ok w0 /\
    epochs (Z.of_nat 10) w0 = Ok (tt, w') /\
    length (loss_train (results w')) = 10%nat /\
    length (loss_valid (results w')) = 10%nat /\
    length (f1_valid (results w')) = 10%nat /\
    (forall (epoch : Z) (w1 w2 : World),
        epoch_body epoch w1 = Ok (tt, w2) ->
        exists (a : pyval Z) (b c : PyFloat.float) (wt wv : World),
          train epoch w1 = Ok (a, wt) /\
          valid wt = Ok ((b, c), wv) /\
          results w2 =
            {| loss_train := loss_train (results w1) ++ [a];
               loss_valid := loss_valid (results w1) ++ [b];
               f1_valid := f1_valid (results w1) ++ [c] |}).
Proof.
  split; [exact toy_size |]. split; [exact toy_labels_length |].
  exact (results_grow_once_per_epoch toy_inputs toy_labels 0%nat 10
           toy_size toy_labels_length).
Defined.

(** X2 on the toy data, for ten epochs. *)
Lemma partition_fixed_across_epochs_witness :
  2 <= len (data toy_inputs) <= sys_maxsize /\
  length (data toy_labels) = length (data toy_inputs) /\
  exists (w0 w' : World),
    setup toy_inputs toy_labels 0%nat = Ok w0 /\
    epochs (Z.of_nat 10) w0 = Ok (tt, w') /\
    train_loader (F_Net w') = train_loader (F_Net w0) /\
    valid_loader (F_Net w') = valid_loader (F_Net w0) /\
    built_on toy_inputs toy_labels w'.
Proof.
  split; [exact toy_size |]. split; [exact toy_labels_length |].
  exact (partition_fixed_across_epochs toy_inputs toy_labels 0%nat 10
           toy_size toy_labels_length).
Defined.
